(** * Hotel front office: folio totals, checkout, night audit and check-in

    A shallow embedding of the billing core of the front-office module:

    - [calculateFolioTotal]                      (src/pages/InHouse.tsx)
    - [archiveInvoice], [archiveGRC]             (src/lib/documentArchiveService.ts)
    - [confirmCheckout], [handleAddCharge],
      [handleExtendStay]                         (src/pages/InHouse.tsx)
    - [loadAuditData], [runNightAudit]           (the night-audit page)
    - [loadData], [processCheckIn],
      [processWalkIn]                            (the check-in desk page)

    together with the tables of the relational schema these handlers read
    and write, and what the schema declares on what they insert: the
    CHECK constraints on charge types, payment modes and document types,
    the unique mobile number of a guest, the guest and room a booking
    references, and the types of the numeric columns ([decimal(10,2)] for
    an amount, [integer] for a number of guests).  A charge or a payment
    names a booking the page has loaded and the user of the session: its
    references to bookings and users are taken to hold.

    Conventions of the embedding.

    - A TypeScript [number] is a value of a type carrying the arithmetic
      the code uses ([Number]).  The runtime instance is IEEE-754 binary64
      ([binary64], Rocq's primitive floats); [exact] is the rational
      arithmetic the billing formulas are usually read in.
    - An instant is the number of milliseconds since the epoch, as
      [Date.getTime()] returns it; a calendar day (the 'YYYY-MM-DD' strings
      and the [date] columns) is its day number, so that the string
      comparison of two such days is the comparison of their numbers.
      Days are read off an instant in UTC ([toISOString]); [setDate] moves
      an instant in the local time of the browser, whose offset from UTC
      the runtime gives ([LocalTZA]).
    - What a form field parses to is an argument of the handler:
      [parseFloat] gives a [number] (NaN included), [parseInt] an integer
      or NaN ([None]).
    - An awaited request to the backend is a step of the [Async] monad over
      a [World]: the database, the count of requests sent so far and the
      alerts shown to the operator.  A request may fail in transport, as
      the [offline] oracle decides; a failed request changes nothing and
      resolves to an error, it does not throw.
    - React state read by a handler is an argument of the handler; state
      setters that only drive the display are left out. *)

From Stdlib Require Import ZArith QArith Qround Qabs Qcanon Floats List String Ascii
  Bool Lia.
From Stdlib Require DecimalString.
Import ListNotations.

Set Implicit Arguments.

Local Open Scope string_scope.
Local Open Scope Z_scope.

(** ** Numbers, instants and days *)

(** What a column makes of a value that a request sends it as JSON: it
    takes it, as its type holds it; or the value is [null] (JSON has no
    text for NaN and the infinities); or the type does not hold it (error
    22003). *)
Inductive Sent (A : Type) : Type :=
| accepted (a : A)
| json_null
| overflow.
Arguments json_null {A}.
Arguments overflow {A}.

(** The arithmetic of a TypeScript [number] as the billing code uses it:
    integer literals, [+], [-], [*], [/] and the comparison [>]; and what
    a [decimal(10,2)] column, the type of every amount of the schema,
    makes of such a number: the number rounded to two places, as it is
    read back. *)
Class Number (number : Type) : Type := {
  of_Z : Z -> number;
  add : number -> number -> number;
  sub : number -> number -> number;
  mul : number -> number -> number;
  div : number -> number -> number;
  gt : number -> number -> bool;
  decimal_10_2 : number -> Sent number
}.

Declare Scope num_scope.
Delimit Scope num_scope with num.
Notation "x + y" := (add x y) : num_scope.
Notation "x - y" := (sub x y) : num_scope.
Notation "x * y" := (mul x y) : num_scope.
Notation "x / y" := (div x y) : num_scope.

(** An integer as a binary64 value (exact below 2^53). *)
Definition float_of_Z (z : Z) : float :=
  match z with
  | Z0 => 0%float
  | Zpos _ => PrimFloat.of_uint63 (Uint63.of_Z z)
  | Zneg p => PrimFloat.opp (PrimFloat.of_uint63 (Uint63.of_Z (Zpos p)))
  end.

(** [decimal(10,2)] holds less than 10^8, in hundredths. *)
Definition TEN_DIGITS : Z := 10 ^ 10.

(** The hundredths a [decimal(10,2)] column keeps of the finite binary64
    value [x], of magnitude [m * 2^e].  JSON carries the shortest decimal
    that reads back as [x], and the column rounds that decimal, half away
    from zero.  Below 10^8 a decimal with a 5 in the third place that reads
    as [x] is that shortest decimal, and is rounded up; otherwise no such
    decimal lies between [x] and the text sent, and the text is rounded as
    [x] itself is. *)
Definition hundredths (x : float) (m : positive) (e : Z) : Z :=
  let scaled := Zpos m * 100 in
  let unit := 2 ^ (- e) in
  let whole := if 0 <=? e then scaled * 2 ^ e else scaled / unit in
  let rest := if 0 <=? e then 0 else scaled mod unit in
  if TEN_DIGITS <=? whole then whole
  else if PrimFloat.eqb (PrimFloat.div (float_of_Z (2 * whole + 1)) 200)
                        (PrimFloat.abs x)
       then whole + 1
  else if 2 * rest <? unit then whole else whole + 1.

(** A binary64 number sent to a [decimal(10,2)] column, and read back
    (the nearest binary64 value to the decimal kept). *)
Definition binary64_decimal_10_2 (x : float) : Sent float :=
  match Prim2SF x with
  | S754_zero _ => accepted 0%float
  | S754_finite s m e =>
      let n := hundredths x m e in
      if TEN_DIGITS <=? n then overflow
      else
        let a := PrimFloat.div (float_of_Z n) 100 in
        accepted (if s && negb (n =? 0) then PrimFloat.opp a else a)
  | _ => json_null
  end.

(** What the JavaScript engine computes: IEEE-754 double precision. *)
#[global] Instance binary64 : Number float := {|
  of_Z := float_of_Z;
  add := PrimFloat.add;
  sub := PrimFloat.sub;
  mul := PrimFloat.mul;
  div := PrimFloat.div;
  gt := fun x y => PrimFloat.ltb y x;
  decimal_10_2 := binary64_decimal_10_2
|}.

(** A rational sent to a [decimal(10,2)] column. *)
Definition exact_decimal_10_2 (q : Qc) : Sent Qc :=
  let n := Qfloor (Qabs q * 100 + (1 # 2)) in
  if TEN_DIGITS <=? n then overflow
  else accepted (Q2Qc (inject_Z (if Qle_bool 0 q then n else - n) / 100)).

(** Exact rational arithmetic. *)
#[global] Instance exact : Number Qc := {|
  of_Z := fun z => Q2Qc (inject_Z z);
  add := Qcplus;
  sub := Qcminus;
  mul := Qcmult;
  div := Qcdiv;
  gt := fun x y => match (x ?= y)%Qc with Gt => true | _ => false end;
  decimal_10_2 := exact_decimal_10_2
|}.

(** The exact value of a finite binary64 number. *)
Definition exact_value (x : float) : option Q :=
  match Prim2SF x with
  | S754_zero _ => Some 0%Q
  | S754_finite s m e =>
      let v := (inject_Z (Zpos m) * (2 ^ e))%Q in
      Some (if s then (- v)%Q else v)
  | _ => None
  end.

(** A rate or an amount that is finite, of either sign. *)
Definition finite (x : float) : bool :=
  match Prim2SF x with
  | S754_zero _ => true
  | S754_finite _ _ _ => true
  | _ => false
  end.

Definition uuid := string.

(** Milliseconds since the epoch. *)
Definition timestamp := Z.

(** A calendar day, as its day number. *)
Definition date := Z.

Definition MS_PER_DAY : Z := 1000 * 60 * 60 * 24.

(** [new Date(t).toISOString().split('T')[0]] *)
Definition toISODate (t : timestamp) : date := t / MS_PER_DAY.

(** [new Date('YYYY-MM-DD').getTime()]: midnight UTC of that day. *)
Definition dateToTime (d : date) : timestamp := d * MS_PER_DAY.

(** [Math.ceil(ms / (1000 * 60 * 60 * 24))] *)
Definition ceilDays (ms : Z) : Z := - ((- ms) / MS_PER_DAY).

(** ** Rows *)

Inductive RoomStatus := vacant_clean | vacant_dirty | occupied | out_of_order.
Inductive BookingStatus := checked_in | checked_out.
(** [arrived] is the reservation status written 'checked_in'. *)
Inductive ReservationStatus := confirmed | cancelled | arrived.

Definition RoomStatus_eqb (a b : RoomStatus) : bool :=
  match a, b with
  | vacant_clean, vacant_clean | vacant_dirty, vacant_dirty
  | occupied, occupied | out_of_order, out_of_order => true
  | _, _ => false
  end.

Definition BookingStatus_eqb (a b : BookingStatus) : bool :=
  match a, b with
  | checked_in, checked_in | checked_out, checked_out => true
  | _, _ => false
  end.

Module Guest.
Record t : Type := mk {
  id : uuid;
  full_name : string;
  mobile : string;
  email : option string;
  address : option string;
  id_proof_type : option string;
  id_proof_number : option string
}.
End Guest.

Module RoomType.
Record t (number : Type) : Type := mk {
  id : uuid;
  name : string;
  base_rate : number
}.
End RoomType.

Module Room.
Record t (number : Type) : Type := mk {
  id : uuid;
  room_number : string;
  floor : Z;
  status : RoomStatus;
  room_types : RoomType.t number
}.
End Room.

(** The room as a booking query embeds it. *)
Module BookingRoom.
Record t (number : Type) : Type := mk {
  id : uuid;
  room_number : string;
  room_types : RoomType.t number
}.
End BookingRoom.

(** A row of [bookings] with its guest and its room joined in, as the
    queries that embed [guests] and [rooms] (with [room_types]) return it. *)
Module Booking.
Record t (number : Type) : Type := mk {
  id : uuid;
  guest_id : uuid;
  room_id : uuid;
  check_in_date : timestamp;
  expected_check_out_date : date;
  actual_check_out_date : option timestamp;
  number_of_guests : Z;
  advance_payment : option number;
  status : BookingStatus;
  checked_in_by : option uuid;
  checked_out_by : option uuid;
  guests : Guest.t;
  rooms : BookingRoom.t number
}.
End Booking.

Module Reservation.
Record t (number : Type) : Type := mk {
  id : uuid;
  check_in_date : date;
  check_out_date : date;
  number_of_guests : Z;
  status : ReservationStatus;
  guests : Guest.t;
  room_types : RoomType.t number;
  assigned_room_id : option uuid
}.
End Reservation.

Module FolioCharge.
Record t (number : Type) : Type := mk {
  id : uuid;
  booking_id : uuid;
  charge_date : date;
  description : string;
  amount : number;
  charge_type : string;
  posted_by : option uuid
}.
End FolioCharge.

Module Payment.
Record t (number : Type) : Type := mk {
  id : uuid;
  booking_id : uuid;
  payment_date : timestamp;
  amount : number;
  payment_mode : string;
  received_by : option uuid
}.
End Payment.

Module TaxConfig.
Record t (number : Type) : Type := mk {
  cgst : number;
  sgst : number
}.
End TaxConfig.

(** The object [calculateFolioTotal] returns. *)
Module FolioTotal.
Record t (number : Type) : Type := mk {
  subtotal : number;
  cgstAmount : number;
  sgstAmount : number;
  grandTotal : number;
  totalPayments : number;
  balance : number
}.
End FolioTotal.

(** [DocumentData.totals] *)
Module Totals.
Record t (number : Type) : Type := mk {
  subtotal : number;
  cgst_amount : number;
  sgst_amount : number;
  grand_total : number;
  total_paid : number;
  balance : number
}.
End Totals.

Module Hotel.
Record t : Type := mk {
  name : string;
  address : string;
  phone : string;
  email : string;
  gstin : string
}.
End Hotel.

Module Stay.
Record t : Type := mk {
  check_in_date : timestamp;
  check_out_date : timestamp;
  number_of_guests : Z
}.
End Stay.

Module DocRoom.
Record t (number : Type) : Type := mk {
  room_number : string;
  room_type : string;
  base_rate : number
}.
End DocRoom.

Module DocumentData.
Record t (number : Type) : Type := mk {
  guest : Guest.t;
  room : DocRoom.t number;
  stay : Stay.t;
  charges : list (FolioCharge.t number);
  payments : list (Payment.t number);
  taxes : TaxConfig.t number;
  totals : Totals.t number;
  hotel : Hotel.t;
  document_date : string
}.
End DocumentData.

(** A row of [guest_documents]. *)
Module GuestDocument.
Record t (number : Type) : Type := mk {
  id : uuid;
  booking_id : uuid;
  guest_id : uuid;
  document_type : string;
  document_number : string;
  document_html : string;
  document_data : DocumentData.t number
}.
End GuestDocument.

(** ** Folio totals (src/pages/InHouse.tsx) *)

Section Folio.
Context {number : Type} {N : Number number}.

(** [Number(x)] of a value that is a number already. *)
Definition Number_ (x : number) : number := x.

(** [calculateFolioTotal], over the folio and the tax rates held in the
    component's state. *)
Definition calculateFolioTotal
  (folioCharges : list (FolioCharge.t number))
  (payments : list (Payment.t number))
  (taxes : TaxConfig.t number) : FolioTotal.t number :=
  let totalCharges :=
    fold_left (fun sum charge => (sum + Number_ (FolioCharge.amount charge))%num)
              folioCharges (of_Z 0) in
  let totalPayments :=
    fold_left (fun sum payment => (sum + Number_ (Payment.amount payment))%num)
              payments (of_Z 0) in
  let subtotal := totalCharges in
  let cgstAmount := ((subtotal * TaxConfig.cgst taxes) / of_Z 100)%num in
  let sgstAmount := ((subtotal * TaxConfig.sgst taxes) / of_Z 100)%num in
  let grandTotal := (subtotal + cgstAmount + sgstAmount)%num in
  let balance := (grandTotal - totalPayments)%num in
  {| FolioTotal.subtotal := subtotal;
     FolioTotal.cgstAmount := cgstAmount;
     FolioTotal.sgstAmount := sgstAmount;
     FolioTotal.grandTotal := grandTotal;
     FolioTotal.totalPayments := totalPayments;
     FolioTotal.balance := balance |}.

End Folio.

(** ** Strings and configuration *)

(** [toUpperCase] on the letters of an identifier (ASCII). *)
Definition upper (c : ascii) : ascii :=
  let n := nat_of_ascii c in
  if ((97 <=? n) && (n <=? 122))%nat then ascii_of_nat (n - 32) else c.

Fixpoint toUpperCase (s : string) : string :=
  match s with
  | EmptyString => EmptyString
  | String c s' => String (upper c) (toUpperCase s')
  end.

(** [s.slice(from, to)] for [0 <= from <= to]. *)
Definition slice (from to : nat) (s : string) : string :=
  substring from (to - from) s.

(** A string is falsy exactly when it is empty. *)
Definition truthy (s : string) : bool := negb (s =? "")%string.

(** [s || fallback] *)
Definition or_else (s fallback : string) : string :=
  if truthy s then s else fallback.

(** [`${n}`] for an integer. *)
Definition Z_to_string (z : Z) : string :=
  DecimalString.NilZero.string_of_int (Z.to_int z).

(** src/lib/hotelConfig.ts, the entries the archive reads. *)
Module hotelConfig.
Definition name : string := "Hotel Sharda Palace".
Definition address_full : string :=
  "Vrindavan, Mathura, Uttar Pradesh, India - 281121".
Definition contact_phone : string := "+91 98765 43210".
Definition contact_email : string := "info@shardapalace.com".
Definition gstin : string := "XXGSTIN1234567XX".
Definition invoice_prefix : string := "INV".
Definition grc_prefix : string := "GRC".
End hotelConfig.

(** The number an archived document carries: the prefix, a dash and the
    first eight characters of the booking id in upper case. *)
Definition documentNumber (prefix : string) (booking_id : uuid) : string :=
  prefix ++ "-" ++ toUpperCase (slice 0 8 booking_id).

(** ** The store *)

Module Db.
Record t (number : Type) : Type := mk {
  rooms : list (Room.t number);
  guests : list Guest.t;
  reservations : list (Reservation.t number);
  bookings : list (Booking.t number);
  folio_charges : list (FolioCharge.t number);
  payments : list (Payment.t number);
  guest_documents : list (GuestDocument.t number);
  serial : nat
}.
End Db.

Module World.
Record t (number : Type) : Type := mk {
  db : Db.t number;
  sent : nat;
  alerts : list string;
  clock : timestamp
}.
End World.

(** What the handlers take from their surroundings: which requests are
    lost in transport (by their position in the sequence of requests), the
    identifiers the database generates, the time zone of the browser (the
    offset of local time from UTC in milliseconds, at an instant given in
    UTC or, when the flag is false, in local time), the locale's date
    format and the two renderers of the archive (template strings over the
    payload). *)
Module Runtime.
Record t (number : Type) : Type := mk {
  offline : nat -> bool;
  gen_random_uuid : nat -> uuid;
  LocalTZA : timestamp -> bool -> Z;
  toLocaleDateString : timestamp -> string;
  generateInvoiceHTML : string -> DocumentData.t number -> string;
  generateGRCHTML : string -> DocumentData.t number -> string
}.
End Runtime.

(** How an awaited computation ends. *)
Inductive Outcome (A : Type) : Type :=
| Returned (value : A)
| Thrown (message : string).
Arguments Thrown {A} message.

(** What a request resolves to: [{ data, error }]. *)
Inductive Response (A : Type) : Type :=
| Data (data : A)
| Error (message : string).
Arguments Error {A} message.

Definition data_of {A : Type} (r : Response A) : option A :=
  match r with Data a => Some a | Error _ => None end.

Definition error_of {A : Type} (r : Response A) : option string :=
  match r with Data _ => None | Error m => Some m end.

(** [data || []] *)
Definition rows_of {A : Type} (r : Response (list A)) : list A :=
  match r with Data l => l | Error _ => [] end.

(** The CHECK constraints of the schema. *)
Definition valid_charge_type (charge_type : string) : bool :=
  existsb (String.eqb charge_type)
    ["room_rent"; "extra_bed"; "early_checkin"; "late_checkout"; "miscellaneous"].

Definition valid_payment_mode (payment_mode : string) : bool :=
  existsb (String.eqb payment_mode) ["cash"; "upi"; "card"].

Definition valid_document_type (document_type : string) : bool :=
  existsb (String.eqb document_type) ["invoice"; "grc"].

(** An [integer] column and what [parseInt] gave: NaN goes as [null],
    and four bytes hold the rest or do not. *)
Definition integer (n : option Z) : Sent Z :=
  match n with
  | None => json_null
  | Some z => if (- 2 ^ 31 <=? z) && (z <? 2 ^ 31) then accepted z else overflow
  end.

(** The columns a check-in writes into [bookings]; the number of guests
    and the advance as their columns take them. *)
Module NewBooking.
Record t (number : Type) : Type := mk {
  guest_id : uuid;
  room_id : uuid;
  check_in_date : timestamp;
  expected_check_out_date : date;
  number_of_guests : Sent Z;
  advance_payment : Sent number;
  checked_in_by : option uuid
}.
End NewBooking.

(** What [archiveInvoice] and [archiveGRC] resolve to. *)
Module ArchiveResult.
Record t : Type := mk {
  success : bool;
  documentNumber : option string;
  error : option string
}.
End ArchiveResult.

(** The payment entered in the checkout dialog. *)
Module CheckoutPaymentData.
Record t (number : Type) : Type := mk {
  amount : number;
  mode : string
}.
End CheckoutPaymentData.

(** The walk-in form, as the page holds it: the number of guests and
    the nights as [parseInt] gave them (NaN, [None], for a field left
    empty), the advance as [parseFloat(...) || 0]. *)
Module WalkInData.
Record t (number : Type) : Type := mk {
  guestName : string;
  mobile : string;
  email : string;
  idType : string;
  idNumber : string;
  address : string;
  roomTypeId : string;
  roomId : string;
  numberOfGuests : option Z;
  nights : option Z;
  advancePayment : number;
  paymentMode : string
}.
End WalkInData.

(** What the night audit reports. *)
Module AuditResults.
Record t (number : Type) : Type := mk {
  chargesPosted : Z;
  totalAmount : number
}.
End AuditResults.

Section Model.
Context {number : Type} {N : Number number}.
Variable rt : Runtime.t number.

Definition with_rooms (d : Db.t number) (l : list (Room.t number)) : Db.t number :=
  {| Db.rooms := l; Db.guests := Db.guests d;
     Db.reservations := Db.reservations d; Db.bookings := Db.bookings d;
     Db.folio_charges := Db.folio_charges d; Db.payments := Db.payments d;
     Db.guest_documents := Db.guest_documents d; Db.serial := Db.serial d |}.

Definition with_guests (d : Db.t number) (l : list Guest.t) : Db.t number :=
  {| Db.rooms := Db.rooms d; Db.guests := l;
     Db.reservations := Db.reservations d; Db.bookings := Db.bookings d;
     Db.folio_charges := Db.folio_charges d; Db.payments := Db.payments d;
     Db.guest_documents := Db.guest_documents d; Db.serial := Db.serial d |}.

Definition with_reservations (d : Db.t number)
  (l : list (Reservation.t number)) : Db.t number :=
  {| Db.rooms := Db.rooms d; Db.guests := Db.guests d;
     Db.reservations := l; Db.bookings := Db.bookings d;
     Db.folio_charges := Db.folio_charges d; Db.payments := Db.payments d;
     Db.guest_documents := Db.guest_documents d; Db.serial := Db.serial d |}.

Definition with_bookings (d : Db.t number)
  (l : list (Booking.t number)) : Db.t number :=
  {| Db.rooms := Db.rooms d; Db.guests := Db.guests d;
     Db.reservations := Db.reservations d; Db.bookings := l;
     Db.folio_charges := Db.folio_charges d; Db.payments := Db.payments d;
     Db.guest_documents := Db.guest_documents d; Db.serial := Db.serial d |}.

Definition with_folio_charges (d : Db.t number)
  (l : list (FolioCharge.t number)) : Db.t number :=
  {| Db.rooms := Db.rooms d; Db.guests := Db.guests d;
     Db.reservations := Db.reservations d; Db.bookings := Db.bookings d;
     Db.folio_charges := l; Db.payments := Db.payments d;
     Db.guest_documents := Db.guest_documents d; Db.serial := Db.serial d |}.

Definition with_payments (d : Db.t number)
  (l : list (Payment.t number)) : Db.t number :=
  {| Db.rooms := Db.rooms d; Db.guests := Db.guests d;
     Db.reservations := Db.reservations d; Db.bookings := Db.bookings d;
     Db.folio_charges := Db.folio_charges d; Db.payments := l;
     Db.guest_documents := Db.guest_documents d; Db.serial := Db.serial d |}.

Definition with_guest_documents (d : Db.t number)
  (l : list (GuestDocument.t number)) : Db.t number :=
  {| Db.rooms := Db.rooms d; Db.guests := Db.guests d;
     Db.reservations := Db.reservations d; Db.bookings := Db.bookings d;
     Db.folio_charges := Db.folio_charges d; Db.payments := Db.payments d;
     Db.guest_documents := l; Db.serial := Db.serial d |}.

Definition next_serial (d : Db.t number) : Db.t number :=
  {| Db.rooms := Db.rooms d; Db.guests := Db.guests d;
     Db.reservations := Db.reservations d; Db.bookings := Db.bookings d;
     Db.folio_charges := Db.folio_charges d; Db.payments := Db.payments d;
     Db.guest_documents := Db.guest_documents d; Db.serial := S (Db.serial d) |}.

(** *** Queries *)

(** A query runs on the database and resolves to a response. *)
Definition Query (A : Type) : Type := Db.t number -> Response A * Db.t number.

(** [.from(table).select().eq(...)]: the rows the filters keep. *)
Definition select {A : Type} (table : Db.t number -> list A) (p : A -> bool)
  : Query (list A) :=
  fun d => (Data (filter p (table d)), d).

(** [.single()]: an error unless exactly one row comes back. *)
Definition single {A : Type} (q : Query (list A)) : Query A :=
  fun d =>
    match q d with
    | (Data [x], d') => (Data x, d')
    | (Data _, d') =>
        (Error "JSON object requested, multiple (or no) rows returned", d')
    | (Error m, d') => (Error m, d')
    end.

(** [.from(table).insert([row])]: the row gets a generated id and is
    appended, as the types of the columns hold it, unless it violates a
    type or a constraint of the table. *)
Definition insert {A : Type} (table : Db.t number -> list A)
  (store : Db.t number -> list A -> Db.t number)
  (violation : Db.t number -> A -> option string)
  (held : A -> A)
  (row : uuid -> A) : Query A :=
  fun d =>
    let r := row (Runtime.gen_random_uuid rt (Db.serial d)) in
    match violation d r with
    | Some m => (Error m, d)
    | None => (Data (held r), next_serial (store d (table d ++ [held r])%list))
    end.

(** [.from(table).update(changes).eq(...)] *)
Definition update {A : Type} (table : Db.t number -> list A)
  (store : Db.t number -> list A -> Db.t number)
  (p : A -> bool) (change : A -> A) : Query unit :=
  fun d => (Data tt, store d (map (fun r => if p r then change r else r) (table d))).

(** [amount decimal(10,2) NOT NULL] *)
Definition amount_violation (amount : number) : option string :=
  match decimal_10_2 amount with
  | accepted _ => None
  | json_null => Some "null value in column amount violates not-null constraint"
  | overflow => Some "numeric field overflow"
  end.

(** A number as a [decimal(10,2)] column gives it: sent back, it is
    stored as it is. *)
Definition column_value (x : number) : Prop := decimal_10_2 x = accepted x.

(** The amount as its column holds it. *)
Definition amount_held (amount : number) : number :=
  match decimal_10_2 amount with
  | accepted a => a
  | _ => amount
  end.

Definition folio_charges_violation (d : Db.t number)
  (r : FolioCharge.t number) : option string :=
  match amount_violation (FolioCharge.amount r) with
  | Some m => Some m
  | None =>
      if valid_charge_type (FolioCharge.charge_type r) then None
      else Some "violates check constraint valid_charge_type"
  end.

Definition folio_charges_held (r : FolioCharge.t number) : FolioCharge.t number :=
  {| FolioCharge.id := FolioCharge.id r;
     FolioCharge.booking_id := FolioCharge.booking_id r;
     FolioCharge.charge_date := FolioCharge.charge_date r;
     FolioCharge.description := FolioCharge.description r;
     FolioCharge.amount := amount_held (FolioCharge.amount r);
     FolioCharge.charge_type := FolioCharge.charge_type r;
     FolioCharge.posted_by := FolioCharge.posted_by r |}.

Definition payments_violation (d : Db.t number)
  (r : Payment.t number) : option string :=
  match amount_violation (Payment.amount r) with
  | Some m => Some m
  | None =>
      if valid_payment_mode (Payment.payment_mode r) then None
      else Some "violates check constraint valid_payment_mode"
  end.

Definition payments_held (r : Payment.t number) : Payment.t number :=
  {| Payment.id := Payment.id r;
     Payment.booking_id := Payment.booking_id r;
     Payment.payment_date := Payment.payment_date r;
     Payment.amount := amount_held (Payment.amount r);
     Payment.payment_mode := Payment.payment_mode r;
     Payment.received_by := Payment.received_by r |}.

Definition guest_documents_violation (d : Db.t number)
  (r : GuestDocument.t number) : option string :=
  if valid_document_type (GuestDocument.document_type r) then None
  else Some "violates check constraint valid_document_type".

(** [mobile text UNIQUE NOT NULL] *)
Definition guests_violation (d : Db.t number) (r : Guest.t) : option string :=
  if existsb (fun g => String.eqb (Guest.mobile g) (Guest.mobile r)) (Db.guests d)
  then Some "duplicate key value violates unique constraint"
  else None.

(** What [bookings] holds of the numbers sent: [number_of_guests integer
    NOT NULL] and [advance_payment decimal(10,2)], which may be null. *)
Definition booking_numbers (b : NewBooking.t number)
  : Response (Z * option number) :=
  match NewBooking.number_of_guests b, NewBooking.advance_payment b with
  | overflow, _ => Error "integer out of range"
  | _, overflow => Error "numeric field overflow"
  | json_null, _ =>
      Error "null value in column number_of_guests violates not-null constraint"
  | accepted n, accepted a => Data (n, Some a)
  | accepted n, json_null => Data (n, None)
  end.

(** [.from('bookings').insert([...]).select().single()]: the new row is
    open ([checked_in]), holds the numbers as their columns take them and
    references an existing guest and room. *)
Definition insert_booking (b : NewBooking.t number) : Query (Booking.t number) :=
  fun d =>
    match booking_numbers b,
          find (fun g => String.eqb (Guest.id g) (NewBooking.guest_id b)) (Db.guests d),
          find (fun r => String.eqb (Room.id r) (NewBooking.room_id b)) (Db.rooms d) with
    | Error m, _, _ => (Error m, d)
    | Data (number_of_guests, advance_payment), Some g, Some r =>
        let row :=
          {| Booking.id := Runtime.gen_random_uuid rt (Db.serial d);
             Booking.guest_id := NewBooking.guest_id b;
             Booking.room_id := NewBooking.room_id b;
             Booking.check_in_date := NewBooking.check_in_date b;
             Booking.expected_check_out_date := NewBooking.expected_check_out_date b;
             Booking.actual_check_out_date := None;
             Booking.number_of_guests := number_of_guests;
             Booking.advance_payment := advance_payment;
             Booking.status := checked_in;
             Booking.checked_in_by := NewBooking.checked_in_by b;
             Booking.checked_out_by := None;
             Booking.guests := g;
             Booking.rooms :=
               {| BookingRoom.id := Room.id r;
                  BookingRoom.room_number := Room.room_number r;
                  BookingRoom.room_types := Room.room_types r |} |} in
        (Data row, next_serial (with_bookings d (Db.bookings d ++ [row])%list))
    | _, _, _ => (Error "violates foreign key constraint", d)
    end.

(** *** Awaited computations *)

Definition Async (A : Type) : Type :=
  World.t number -> Outcome A * World.t number.

Definition ret {A : Type} (a : A) : Async A := fun w => (Returned a, w).

Definition bind {A B : Type} (m : Async A) (k : A -> Async B) : Async B :=
  fun w =>
    match m w with
    | (Returned a, w') => k a w'
    | (Thrown e, w') => (Thrown e, w')
    end.

Definition throw {A : Type} (message : string) : Async A :=
  fun w => (Thrown message, w).

(** [try { body } catch (error) { handler(error.message) }] *)
Definition try_catch {A : Type} (body : Async A) (handler : string -> Async A)
  : Async A :=
  fun w =>
    match body w with
    | (Returned a, w') => (Returned a, w')
    | (Thrown e, w') => handler e w'
    end.

Definition alert (message : string) : Async unit :=
  fun w =>
    (Returned tt,
     {| World.db := World.db w; World.sent := World.sent w;
        World.alerts := (World.alerts w ++ [message])%list;
        World.clock := World.clock w |}).

(** [new Date().getTime()] *)
Definition Date_now : Async timestamp := fun w => (Returned (World.clock w), w).

(** One awaited request: lost in transport, or run on the database. *)
Definition request {A : Type} (q : Query A) : Async (Response A) :=
  fun w =>
    if Runtime.offline rt (World.sent w)
    then (Returned (Error "Failed to fetch"),
          {| World.db := World.db w; World.sent := S (World.sent w);
             World.alerts := World.alerts w; World.clock := World.clock w |})
    else
      let (r, d) := q (World.db w) in
      (Returned r,
       {| World.db := d; World.sent := S (World.sent w);
          World.alerts := World.alerts w; World.clock := World.clock w |}).

Notation "x <- m ;; k" := (bind m (fun x => k))
  (at level 61, m at next level, right associativity).
Notation "m ;; k" := (bind m (fun _ => k))
  (at level 61, right associativity).

(** [for (const x of l) { s = body(s, x) }] *)
Fixpoint for_each {A S : Type} (l : list A) (body : S -> A -> Async S) (s : S)
  : Async S :=
  match l with
  | [] => ret s
  | x :: l' => s' <- body s x ;; for_each l' body s'
  end.

(** ** The document archive (src/lib/documentArchiveService.ts) *)

(** [booking.actual_check_out_date || booking.expected_check_out_date] *)
Definition check_out_of (booking : Booking.t number) : timestamp :=
  match Booking.actual_check_out_date booking with
  | Some t => t
  | None => dateToTime (Booking.expected_check_out_date booking)
  end.

Definition doc_room_of (booking : Booking.t number) : DocRoom.t number :=
  {| DocRoom.room_number := BookingRoom.room_number (Booking.rooms booking);
     DocRoom.room_type := RoomType.name (BookingRoom.room_types (Booking.rooms booking));
     DocRoom.base_rate := RoomType.base_rate (BookingRoom.room_types (Booking.rooms booking)) |}.

Definition stay_of (booking : Booking.t number) : Stay.t :=
  {| Stay.check_in_date := Booking.check_in_date booking;
     Stay.check_out_date := check_out_of booking;
     Stay.number_of_guests := Booking.number_of_guests booking |}.

Definition hotel_of_config : Hotel.t :=
  {| Hotel.name := hotelConfig.name;
     Hotel.address := hotelConfig.address_full;
     Hotel.phone := hotelConfig.contact_phone;
     Hotel.email := hotelConfig.contact_email;
     Hotel.gstin := hotelConfig.gstin |}.

(** [archiveInvoice]: totals, payload, markup, one insert into
    [guest_documents].  Whatever is thrown inside is caught and turned
    into [{ success: false, error }]. *)
Definition archiveInvoice (booking : Booking.t number)
  (folioCharges : list (FolioCharge.t number))
  (payments : list (Payment.t number))
  (taxes : TaxConfig.t number) : Async ArchiveResult.t :=
  try_catch
    (let documentNumber :=
       documentNumber hotelConfig.invoice_prefix (Booking.id booking) in
     now <- Date_now ;;
     let documentDate := Runtime.toLocaleDateString rt now in
     let subtotal :=
       fold_left (fun sum c => (sum + Number_ (FolioCharge.amount c))%num)
                 folioCharges (of_Z 0) in
     let cgstAmount := ((subtotal * TaxConfig.cgst taxes) / of_Z 100)%num in
     let sgstAmount := ((subtotal * TaxConfig.sgst taxes) / of_Z 100)%num in
     let grandTotal := (subtotal + cgstAmount + sgstAmount)%num in
     let totalPaid :=
       fold_left (fun sum p => (sum + Number_ (Payment.amount p))%num)
                 payments (of_Z 0) in
     let balance := (grandTotal - totalPaid)%num in
     let documentData :=
       {| DocumentData.guest := Booking.guests booking;
          DocumentData.room := doc_room_of booking;
          DocumentData.stay := stay_of booking;
          DocumentData.charges := folioCharges;
          DocumentData.payments := payments;
          DocumentData.taxes := taxes;
          DocumentData.totals :=
            {| Totals.subtotal := subtotal;
               Totals.cgst_amount := cgstAmount;
               Totals.sgst_amount := sgstAmount;
               Totals.grand_total := grandTotal;
               Totals.total_paid := totalPaid;
               Totals.balance := balance |};
          DocumentData.hotel := hotel_of_config;
          DocumentData.document_date := documentDate |} in
     let documentHtml := Runtime.generateInvoiceHTML rt documentNumber documentData in
     r <- request
            (insert (@Db.guest_documents number) with_guest_documents
               guest_documents_violation
               (fun r => r)
               (fun id =>
                  {| GuestDocument.id := id;
                     GuestDocument.booking_id := Booking.id booking;
                     GuestDocument.guest_id := Guest.id (Booking.guests booking);
                     GuestDocument.document_type := "invoice";
                     GuestDocument.document_number := documentNumber;
                     GuestDocument.document_html := documentHtml;
                     GuestDocument.document_data := documentData |})) ;;
     match error_of r with
     | Some e => throw e
     | None =>
         ret {| ArchiveResult.success := true;
                ArchiveResult.documentNumber := Some documentNumber;
                ArchiveResult.error := None |}
     end)
    (fun message =>
       ret {| ArchiveResult.success := false;
              ArchiveResult.documentNumber := None;
              ArchiveResult.error :=
                Some (or_else message "Failed to archive invoice") |}).

(** [archiveGRC]: the registration card, with an empty folio and zero
    totals in its payload. *)
Definition archiveGRC (booking : Booking.t number)
  (taxes : TaxConfig.t number) : Async ArchiveResult.t :=
  try_catch
    (let documentNumber :=
       documentNumber hotelConfig.grc_prefix (Booking.id booking) in
     now <- Date_now ;;
     let documentDate := Runtime.toLocaleDateString rt now in
     let documentData :=
       {| DocumentData.guest := Booking.guests booking;
          DocumentData.room := doc_room_of booking;
          DocumentData.stay := stay_of booking;
          DocumentData.charges := [];
          DocumentData.payments := [];
          DocumentData.taxes := taxes;
          DocumentData.totals :=
            {| Totals.subtotal := of_Z 0;
               Totals.cgst_amount := of_Z 0;
               Totals.sgst_amount := of_Z 0;
               Totals.grand_total := of_Z 0;
               Totals.total_paid := of_Z 0;
               Totals.balance := of_Z 0 |};
          DocumentData.hotel := hotel_of_config;
          DocumentData.document_date := documentDate |} in
     let documentHtml := Runtime.generateGRCHTML rt documentNumber documentData in
     r <- request
            (insert (@Db.guest_documents number) with_guest_documents
               guest_documents_violation
               (fun r => r)
               (fun id =>
                  {| GuestDocument.id := id;
                     GuestDocument.booking_id := Booking.id booking;
                     GuestDocument.guest_id := Guest.id (Booking.guests booking);
                     GuestDocument.document_type := "grc";
                     GuestDocument.document_number := documentNumber;
                     GuestDocument.document_html := documentHtml;
                     GuestDocument.document_data := documentData |})) ;;
     match error_of r with
     | Some e => throw e
     | None =>
         ret {| ArchiveResult.success := true;
                ArchiveResult.documentNumber := Some documentNumber;
                ArchiveResult.error := None |}
     end)
    (fun message =>
       ret {| ArchiveResult.success := false;
              ArchiveResult.documentNumber := None;
              ArchiveResult.error :=
                Some (or_else message "Failed to archive GRC") |}).

(** ** The in-house page (src/pages/InHouse.tsx) *)

(** [{ ...booking, guests: { ...booking.guests, id } }] *)
Definition with_guest_id (b : Booking.t number) (id : uuid) : Booking.t number :=
  {| Booking.id := Booking.id b; Booking.guest_id := Booking.guest_id b;
     Booking.room_id := Booking.room_id b;
     Booking.check_in_date := Booking.check_in_date b;
     Booking.expected_check_out_date := Booking.expected_check_out_date b;
     Booking.actual_check_out_date := Booking.actual_check_out_date b;
     Booking.number_of_guests := Booking.number_of_guests b;
     Booking.advance_payment := Booking.advance_payment b;
     Booking.status := Booking.status b;
     Booking.checked_in_by := Booking.checked_in_by b;
     Booking.checked_out_by := Booking.checked_out_by b;
     Booking.guests :=
       {| Guest.id := id;
          Guest.full_name := Guest.full_name (Booking.guests b);
          Guest.mobile := Guest.mobile (Booking.guests b);
          Guest.email := Guest.email (Booking.guests b);
          Guest.address := Guest.address (Booking.guests b);
          Guest.id_proof_type := Guest.id_proof_type (Booking.guests b);
          Guest.id_proof_number := Guest.id_proof_number (Booking.guests b) |};
     Booking.rooms := Booking.rooms b |}.

(** [update({ status: 'checked_out', actual_check_out_date, checked_out_by })] *)
Definition close_booking (now : timestamp) (user : option uuid)
  (b : Booking.t number) : Booking.t number :=
  {| Booking.id := Booking.id b; Booking.guest_id := Booking.guest_id b;
     Booking.room_id := Booking.room_id b;
     Booking.check_in_date := Booking.check_in_date b;
     Booking.expected_check_out_date := Booking.expected_check_out_date b;
     Booking.actual_check_out_date := Some now;
     Booking.number_of_guests := Booking.number_of_guests b;
     Booking.advance_payment := Booking.advance_payment b;
     Booking.status := checked_out;
     Booking.checked_in_by := Booking.checked_in_by b;
     Booking.checked_out_by := user;
     Booking.guests := Booking.guests b;
     Booking.rooms := Booking.rooms b |}.

(** [update({ expected_check_out_date })] *)
Definition set_expected_check_out (day : date)
  (b : Booking.t number) : Booking.t number :=
  {| Booking.id := Booking.id b; Booking.guest_id := Booking.guest_id b;
     Booking.room_id := Booking.room_id b;
     Booking.check_in_date := Booking.check_in_date b;
     Booking.expected_check_out_date := day;
     Booking.actual_check_out_date := Booking.actual_check_out_date b;
     Booking.number_of_guests := Booking.number_of_guests b;
     Booking.advance_payment := Booking.advance_payment b;
     Booking.status := Booking.status b;
     Booking.checked_in_by := Booking.checked_in_by b;
     Booking.checked_out_by := Booking.checked_out_by b;
     Booking.guests := Booking.guests b;
     Booking.rooms := Booking.rooms b |}.

(** [update({ status })] on a room. *)
Definition set_room_status (st : RoomStatus) (r : Room.t number) : Room.t number :=
  {| Room.id := Room.id r; Room.room_number := Room.room_number r;
     Room.floor := Room.floor r; Room.status := st;
     Room.room_types := Room.room_types r |}.

(** [handleAddCharge]: the charge entered in the dialog is inserted as it
    is; the response is not read. *)
Definition handleAddCharge (user : option uuid)
  (selectedBooking : option (Booking.t number))
  (charge_date : date) (description : string) (amount : number)
  (charge_type : string) : Async unit :=
  match selectedBooking with
  | None => ret tt
  | Some selectedBooking =>
      request
        (insert (@Db.folio_charges number) with_folio_charges
           folio_charges_violation
           folio_charges_held
           (fun id =>
              {| FolioCharge.id := id;
                 FolioCharge.booking_id := Booking.id selectedBooking;
                 FolioCharge.charge_date := charge_date;
                 FolioCharge.description := description;
                 FolioCharge.amount := amount;
                 FolioCharge.charge_type := charge_type;
                 FolioCharge.posted_by := user |})) ;;
      ret tt
  end.

(** [confirmCheckout]: the second step of checkout, after the invoice
    preview.  None of the responses is read, and neither are the results
    of the two archive calls. *)
Definition confirmCheckout (user : option uuid)
  (selectedBooking : option (Booking.t number))
  (checkoutPaymentData : option (CheckoutPaymentData.t number))
  (taxes : TaxConfig.t number) : Async unit :=
  match selectedBooking with
  | None => ret tt
  | Some selectedBooking =>
      try_catch
        (match checkoutPaymentData with
         | Some payment =>
             if gt (CheckoutPaymentData.amount payment) (of_Z 0) then
               now <- Date_now ;;
               request
                 (insert (@Db.payments number) with_payments payments_violation payments_held
                    (fun id =>
                       {| Payment.id := id;
                          Payment.booking_id := Booking.id selectedBooking;
                          Payment.payment_date := now;
                          Payment.amount := CheckoutPaymentData.amount payment;
                          Payment.payment_mode := CheckoutPaymentData.mode payment;
                          Payment.received_by := user |})) ;;
               ret tt
             else ret tt
         | None => ret tt
         end ;;
         finalCharges <-
           request (select (@Db.folio_charges number)
                      (fun c => String.eqb (FolioCharge.booking_id c)
                                           (Booking.id selectedBooking))) ;;
         finalPayments <-
           request (select (@Db.payments number)
                      (fun p => String.eqb (Payment.booking_id p)
                                           (Booking.id selectedBooking))) ;;
         bookingData <-
           request (single (select (@Db.bookings number)
                              (fun b => String.eqb (Booking.id b)
                                                   (Booking.id selectedBooking)))) ;;
         match data_of bookingData with
         | Some bookingData =>
             let archiveBooking :=
               with_guest_id selectedBooking (Booking.guest_id bookingData) in
             archiveInvoice archiveBooking (rows_of finalCharges)
               (rows_of finalPayments) taxes ;;
             archiveGRC archiveBooking taxes ;;
             ret tt
         | None => ret tt
         end ;;
         now <- Date_now ;;
         request (update (@Db.bookings number) with_bookings
                    (fun b => String.eqb (Booking.id b) (Booking.id selectedBooking))
                    (close_booking now user)) ;;
         request (update (@Db.rooms number) with_rooms
                    (fun r => String.eqb (Room.id r)
                                (BookingRoom.id (Booking.rooms selectedBooking)))
                    (set_room_status vacant_dirty)) ;;
         alert "Check-out completed successfully! Invoice and GRC have been archived.")
        (fun message =>
           alert ("Error during checkout: " ++ or_else message "Unknown error"))
  end.

(** The local time of an instant, and the instant of a local time. *)
Definition LocalTime (t : timestamp) : timestamp :=
  t + Runtime.LocalTZA rt t true.

Definition UTC (t : timestamp) : timestamp :=
  t - Runtime.LocalTZA rt t false.

(** [new Date(t)] moved by [i] days with [setDate(getDate() + i)]: the
    same time of day [i] days later on the local clock. *)
Definition addDays (t : timestamp) (i : Z) : timestamp :=
  UTC (LocalTime t + i * MS_PER_DAY).

(** [handleExtendStay]: one room-rent charge per added night, dated from
    the current checkout day on, then the new checkout date. *)
Definition handleExtendStay (user : option uuid)
  (selectedBooking : option (Booking.t number))
  (newCheckoutDate : date) : Async unit :=
  match selectedBooking with
  | None => ret tt
  | Some selectedBooking =>
      try_catch
        (let currentCheckout :=
           dateToTime (Booking.expected_check_out_date selectedBooking) in
         let newCheckout := dateToTime newCheckoutDate in
         let additionalNights := ceilDays (newCheckout - currentCheckout) in
         (if 0 <? additionalNights then
            for_each (map Z.of_nat (seq 0 (Z.to_nat additionalNights)))
              (fun _ i =>
                 let chargeDate := addDays currentCheckout i in
                 request
                   (insert (@Db.folio_charges number) with_folio_charges
                      folio_charges_violation
                      folio_charges_held
                      (fun id =>
                         {| FolioCharge.id := id;
                            FolioCharge.booking_id := Booking.id selectedBooking;
                            FolioCharge.charge_date := toISODate chargeDate;
                            FolioCharge.description :=
                              "Room Rent - "
                              ++ RoomType.name
                                   (BookingRoom.room_types (Booking.rooms selectedBooking))
                              ++ " (Extended)";
                            FolioCharge.amount :=
                              RoomType.base_rate
                                (BookingRoom.room_types (Booking.rooms selectedBooking));
                            FolioCharge.charge_type := "room_rent";
                            FolioCharge.posted_by := user |})) ;;
                 ret tt)
              tt
          else ret tt) ;;
         request (update (@Db.bookings number) with_bookings
                    (fun b => String.eqb (Booking.id b) (Booking.id selectedBooking))
                    (set_expected_check_out newCheckoutDate)) ;;
         alert ("Stay extended by " ++ Z_to_string additionalNights
                ++ " night(s). Room charges added."))
        (fun message =>
           alert ("Error extending stay: " ++ or_else message "Unknown error"))
  end.

(** ** The night audit page *)

(** [loadAuditData], the part that feeds the audit: the bookings that are
    checked in.  (The other loads only fill the statistics shown.) *)
Definition loadAuditData : Async (list (Booking.t number)) :=
  bookings <-
    request (select (@Db.bookings number)
               (fun b => BookingStatus_eqb (Booking.status b) checked_in)) ;;
  ret (rows_of bookings).

(** The body of the loop of [runNightAudit], for one booking; the state
    carried along is [(chargesPosted, totalAmount)]. *)
Definition auditBooking (user : option uuid) (today : date)
  (counters : Z * number) (booking : Booking.t number) : Async (Z * number) :=
  let (chargesPosted, totalAmount) := counters in
  let checkInDate := toISODate (Booking.check_in_date booking) in
  if checkInDate <? today then
    let roomRate := RoomType.base_rate (BookingRoom.room_types (Booking.rooms booking)) in
    existingCharge <-
      request (select (@Db.folio_charges number)
                 (fun c => String.eqb (FolioCharge.booking_id c) (Booking.id booking)
                           && (FolioCharge.charge_date c =? today)
                           && String.eqb (FolioCharge.charge_type c) "room_rent")) ;;
    match data_of existingCharge with
    | Some (_ :: _) => ret (chargesPosted, totalAmount)
    | _ =>
        request
          (insert (@Db.folio_charges number) with_folio_charges
             folio_charges_violation
             folio_charges_held
             (fun id =>
                {| FolioCharge.id := id;
                   FolioCharge.booking_id := Booking.id booking;
                   FolioCharge.charge_date := today;
                   FolioCharge.description :=
                     "Room Rent - "
                     ++ BookingRoom.room_number (Booking.rooms booking)
                     ++ " ("
                     ++ RoomType.name (BookingRoom.room_types (Booking.rooms booking))
                     ++ ")";
                   FolioCharge.amount := roomRate;
                   FolioCharge.charge_type := "room_rent";
                   FolioCharge.posted_by := user |})) ;;
        ret (chargesPosted + 1, (totalAmount + roomRate)%num)
    end
  else ret (chargesPosted, totalAmount).

(** [runNightAudit] over the bookings held in the page's state, for the
    day the page was rendered on. *)
Definition runNightAudit (user : option uuid) (today : date)
  (inHouseBookings : list (Booking.t number))
  : Async (option (AuditResults.t number)) :=
  try_catch
    (counters <- for_each inHouseBookings (auditBooking user today) (0, of_Z 0) ;;
     ret (Some {| AuditResults.chargesPosted := fst counters;
                  AuditResults.totalAmount := snd counters |}))
    (fun _ =>
       alert "Error running night audit. Please try again." ;;
       ret None).

(** The page as the operator uses it: rendered (which fixes [today] and
    loads the in-house bookings), then the audit is run. *)
Definition nightAudit (user : option uuid)
  : Async (option (AuditResults.t number)) :=
  now <- Date_now ;;
  let today := toISODate now in
  inHouseBookings <- loadAuditData ;;
  runNightAudit user today inHouseBookings.

(** ** The check-in desk *)

(** [loadData], the part that feeds check-in: the rooms that are vacant
    and clean. *)
Definition loadData : Async (list (Room.t number)) :=
  roomsData <-
    request (select (@Db.rooms number)
               (fun r => RoomStatus_eqb (Room.status r) vacant_clean)) ;;
  ret (rows_of roomsData).

(** [update({ status: 'checked_in' })] on a reservation. *)
Definition set_reservation_status (st : ReservationStatus)
  (r : Reservation.t number) : Reservation.t number :=
  {| Reservation.id := Reservation.id r;
     Reservation.check_in_date := Reservation.check_in_date r;
     Reservation.check_out_date := Reservation.check_out_date r;
     Reservation.number_of_guests := Reservation.number_of_guests r;
     Reservation.status := st;
     Reservation.guests := Reservation.guests r;
     Reservation.room_types := Reservation.room_types r;
     Reservation.assigned_room_id := Reservation.assigned_room_id r |}.

(** [processCheckIn]: check-in of a reservation into the selected room.
    The number of guests sent is the one of the reservation row, which an
    [integer] column gave; no advance is sent, and the column defaults to
    0. *)
Definition processCheckIn (user : option uuid)
  (availableRooms : list (Room.t number))
  (selectedReservation : option (Reservation.t number))
  (selectedRoom : string) : Async unit :=
  match selectedReservation with
  | None => ret tt
  | Some selectedReservation =>
      if negb (truthy selectedRoom) then ret tt else
      try_catch
        (match find (fun r => String.eqb (Room.id r) selectedRoom) availableRooms with
         | None => throw "Room not found"
         | Some room =>
             checkIn <- Date_now ;;
             let checkOut := dateToTime (Reservation.check_out_date selectedReservation) in
             let nights := ceilDays (checkOut - checkIn) in
             now <- Date_now ;;
             booking <-
               request
                 (insert_booking
                    {| NewBooking.guest_id :=
                         Guest.id (Reservation.guests selectedReservation);
                       NewBooking.room_id := selectedRoom;
                       NewBooking.check_in_date := now;
                       NewBooking.expected_check_out_date :=
                         Reservation.check_out_date selectedReservation;
                       NewBooking.number_of_guests :=
                         accepted (Reservation.number_of_guests selectedReservation);
                       NewBooking.advance_payment := accepted (of_Z 0);
                       NewBooking.checked_in_by := user |}) ;;
             match booking with
             | Error bookingError => throw bookingError
             | Data bookingData =>
                 let roomRate :=
                   (RoomType.base_rate (Room.room_types room) * of_Z nights)%num in
                 now <- Date_now ;;
                 request
                   (insert (@Db.folio_charges number) with_folio_charges
                      folio_charges_violation
                      folio_charges_held
                      (fun id =>
                         {| FolioCharge.id := id;
                            FolioCharge.booking_id := Booking.id bookingData;
                            FolioCharge.charge_date := toISODate now;
                            FolioCharge.description :=
                              "Room Charge - "
                              ++ RoomType.name (Room.room_types room)
                              ++ " (" ++ Z_to_string nights ++ " nights)";
                            FolioCharge.amount := roomRate;
                            FolioCharge.charge_type := "room";
                            FolioCharge.posted_by := None |})) ;;
                 request (update (@Db.rooms number) with_rooms
                            (fun r => String.eqb (Room.id r) selectedRoom)
                            (set_room_status occupied)) ;;
                 request (update (@Db.reservations number) with_reservations
                            (fun r => String.eqb (Reservation.id r)
                                        (Reservation.id selectedReservation))
                            (set_reservation_status arrived)) ;;
                 alert ("Guest " ++ Guest.full_name (Reservation.guests selectedReservation)
                        ++ " checked in successfully to Room "
                        ++ Room.room_number room ++ "!")
             end
         end)
        (fun _ => alert "Failed to process check-in. Please try again.")
  end.

(** [value || null] *)
Definition or_null (s : string) : option string :=
  if truthy s then Some s else None.

(** [!guestId] *)
Definition no_id (guestId : option uuid) : bool :=
  match guestId with
  | Some id => negb (truthy id)
  | None => true
  end.

(** [processWalkIn]: the guest is looked up by mobile number and created
    when unknown, then checked in to the selected room.  With nights that
    are no number the check-out date is invalid, and [toISOString] throws
    while the booking is being written out.  (The form keeps the nights
    it submits, when a number, between 1 and 30.) *)
Definition processWalkIn (user : option uuid)
  (availableRooms : list (Room.t number))
  (walkInData : WalkInData.t number) : Async unit :=
  if negb (truthy (WalkInData.guestName walkInData))
     || negb (truthy (WalkInData.mobile walkInData))
     || negb (truthy (WalkInData.roomId walkInData))
  then ret tt else
  try_catch
    (existingGuest <-
       request (single (select (@Db.guests number)
                          (fun g => String.eqb (Guest.mobile g)
                                               (WalkInData.mobile walkInData)))) ;;
     guestId <-
       (let guestId := option_map Guest.id (data_of existingGuest) in
        if no_id guestId then
          newGuest <-
            request
              (insert (@Db.guests number) with_guests guests_violation (fun r => r)
                 (fun id =>
                    {| Guest.id := id;
                       Guest.full_name := WalkInData.guestName walkInData;
                       Guest.mobile := WalkInData.mobile walkInData;
                       Guest.email := or_null (WalkInData.email walkInData);
                       Guest.address := or_null (WalkInData.address walkInData);
                       Guest.id_proof_type := Some (WalkInData.idType walkInData);
                       Guest.id_proof_number := Some (WalkInData.idNumber walkInData) |})) ;;
          match newGuest with
          | Error guestError => throw guestError
          | Data newGuest => ret (Some (Guest.id newGuest))
          end
        else ret guestId) ;;
     match find (fun r => String.eqb (Room.id r) (WalkInData.roomId walkInData))
                availableRooms,
           (if no_id guestId then None else guestId) with
     | Some room, Some guestId =>
         now <- Date_now ;;
         nights <-
           match WalkInData.nights walkInData with
           | Some nights => ret nights
           | None => throw "Invalid time value"
           end ;;
         let checkOut := addDays now nights in
         booking <-
           request
             (insert_booking
                {| NewBooking.guest_id := guestId;
                   NewBooking.room_id := WalkInData.roomId walkInData;
                   NewBooking.check_in_date := now;
                   NewBooking.expected_check_out_date := toISODate checkOut;
                   NewBooking.number_of_guests :=
                     integer (WalkInData.numberOfGuests walkInData);
                   NewBooking.advance_payment :=
                     decimal_10_2 (WalkInData.advancePayment walkInData);
                   NewBooking.checked_in_by := user |}) ;;
         match booking with
         | Error bookingError => throw bookingError
         | Data bookingData =>
             let roomRate :=
               (RoomType.base_rate (Room.room_types room) * of_Z nights)%num in
             request
               (insert (@Db.folio_charges number) with_folio_charges
                  folio_charges_violation
                  folio_charges_held
                  (fun id =>
                     {| FolioCharge.id := id;
                        FolioCharge.booking_id := Booking.id bookingData;
                        FolioCharge.charge_date := toISODate now;
                        FolioCharge.description :=
                          "Room Charge - "
                          ++ RoomType.name (Room.room_types room)
                          ++ " (" ++ Z_to_string nights ++ " nights)";
                        FolioCharge.amount := roomRate;
                        FolioCharge.charge_type := "room";
                        FolioCharge.posted_by := None |})) ;;
             (if gt (WalkInData.advancePayment walkInData) (of_Z 0) then
                request
                  (insert (@Db.payments number) with_payments payments_violation payments_held
                     (fun id =>
                        {| Payment.id := id;
                           Payment.booking_id := Booking.id bookingData;
                           Payment.payment_date := now;
                           Payment.amount := WalkInData.advancePayment walkInData;
                           Payment.payment_mode := WalkInData.paymentMode walkInData;
                           Payment.received_by := user |})) ;;
                ret tt
              else ret tt) ;;
             request (update (@Db.rooms number) with_rooms
                        (fun r => String.eqb (Room.id r) (WalkInData.roomId walkInData))
                        (set_room_status occupied)) ;;
             alert ("Walk-in guest " ++ WalkInData.guestName walkInData
                    ++ " checked in successfully to Room "
                    ++ Room.room_number room ++ "!")
         end
     | _, _ => throw "Room or guest not found"
     end)
    (fun _ => alert "Failed to process walk-in. Please try again.").

(** The two desks as the operator uses them: the page loads the vacant
    rooms, then the check-in is processed on that list. *)
Definition checkInDesk (user : option uuid)
  (selectedReservation : option (Reservation.t number))
  (selectedRoom : string) : Async unit :=
  availableRooms <- loadData ;;
  processCheckIn user availableRooms selectedReservation selectedRoom.

Definition walkInDesk (user : option uuid)
  (walkInData : WalkInData.t number) : Async unit :=
  availableRooms <- loadData ;;
  processWalkIn user availableRooms walkInData.

End Model.

Arguments Async number A : clear implicits.
Arguments Query number A : clear implicits.

(** ** Notions the properties are stated with *)

Section Readings.
Context {number : Type} {N : Number number}.

(** The sum of a list of amounts, taken from left to right from zero. *)
Definition sigma (amounts : list number) : number :=
  fold_left add amounts (of_Z 0).

(** The closed form of the grand total: the subtotal times
    [1 + (c + s) / 100]. *)
Definition closed_form (subtotal c s : number) : number :=
  (subtotal * (of_Z 1 + (c + s) / of_Z 100))%num.

(** The totals formula run again on what a payload embeds. *)
Definition recomputed (d : DocumentData.t number) : Totals.t number :=
  let t := calculateFolioTotal (DocumentData.charges d) (DocumentData.payments d)
             (DocumentData.taxes d) in
  {| Totals.subtotal := FolioTotal.subtotal t;
     Totals.cgst_amount := FolioTotal.cgstAmount t;
     Totals.sgst_amount := FolioTotal.sgstAmount t;
     Totals.grand_total := FolioTotal.grandTotal t;
     Totals.total_paid := FolioTotal.totalPayments t;
     Totals.balance := FolioTotal.balance t |}.

(** A document whose stored totals are the ones its payload recomputes. *)
Definition reproduces_totals (doc : GuestDocument.t number) : Prop :=
  recomputed (GuestDocument.document_data doc)
  = DocumentData.totals (GuestDocument.document_data doc).

(** The room-rent charges a booking holds for a day: what the night
    audit looks for before it posts. *)
Definition room_rent_on (booking_id : uuid) (day : date)
  (charges : list (FolioCharge.t number)) : list (FolioCharge.t number) :=
  filter (fun c => String.eqb (FolioCharge.booking_id c) booking_id
                   && (FolioCharge.charge_date c =? day)
                   && String.eqb (FolioCharge.charge_type c) "room_rent")
         charges.

(** A stayover on [today]: checked in on an earlier day. *)
Definition stayover (today : date) (b : Booking.t number) : bool :=
  toISODate (Booking.check_in_date b) <? today.

End Readings.

(** ** Relations between a database and a later one *)

(** A handler [keeps] a relation between the database it finds and the
    one it leaves when every run of it does, whatever the world it starts
    in and however it ends. *)
Definition keeps {number : Type} (R : Db.t number -> Db.t number -> Prop)
  {A : Type} (m : Async number A) : Prop :=
  forall w, R (World.db w) (World.db (snd (m w))).

Definition keeps_query {number : Type} (R : Db.t number -> Db.t number -> Prop)
  {A : Type} (q : Query number A) : Prop :=
  forall d, R d (snd (q d)).

(** Every request reaches the database. *)
Definition online {number : Type} (rt : Runtime.t number) : Prop :=
  forall n, Runtime.offline rt n = false.

(** A time zone that keeps one offset from UTC all year. *)
Definition fixed_offset {number : Type} (rt : Runtime.t number) : Prop :=
  exists offset, forall t isUTC, Runtime.LocalTZA rt t isUTC = offset.

(** The payments a database has gained since another one: rows appended
    after the ones already there, none removed and none changed. *)
Definition payments_kept {number : Type} (d d' : Db.t number) : Prop :=
  exists added, Db.payments d' = (Db.payments d ++ added)%list.

(** The documents a database has gained since another one, each of them
    with the property [P]. *)
Definition documents_gained {number : Type}
  (P : GuestDocument.t number -> Prop) (d d' : Db.t number) : Prop :=
  exists produced,
    Db.guest_documents d' = (Db.guest_documents d ++ produced)%list
    /\ Forall P produced.

(** [a === b] on each of the six numbers of two totals: the same number,
    the sign of a zero apart. *)
Definition strictly_equal (a b : Totals.t float) : Prop :=
  PrimFloat.eqb (Totals.subtotal a) (Totals.subtotal b) = true
  /\ PrimFloat.eqb (Totals.cgst_amount a) (Totals.cgst_amount b) = true
  /\ PrimFloat.eqb (Totals.sgst_amount a) (Totals.sgst_amount b) = true
  /\ PrimFloat.eqb (Totals.grand_total a) (Totals.grand_total b) = true
  /\ PrimFloat.eqb (Totals.total_paid a) (Totals.total_paid b) = true
  /\ PrimFloat.eqb (Totals.balance a) (Totals.balance b) = true.

(** What checkout archives: an invoice carries the totals its payload
    recomputes; a registration card, which stores zeros beside an empty
    folio, carries totals that are [===] to the recomputed ones exactly
    when the two rates are finite. *)
Definition reproduces (taxes : TaxConfig.t float) (doc : GuestDocument.t float)
  : Prop :=
  (GuestDocument.document_type doc = "invoice"
   \/ GuestDocument.document_type doc = "grc")
  /\ (GuestDocument.document_type doc = "invoice" ->
      recomputed (GuestDocument.document_data doc)
      = DocumentData.totals (GuestDocument.document_data doc))
  /\ (GuestDocument.document_type doc = "grc" ->
      (strictly_equal (recomputed (GuestDocument.document_data doc))
                      (DocumentData.totals (GuestDocument.document_data doc))
       <-> finite (TaxConfig.cgst taxes) = true
           /\ finite (TaxConfig.sgst taxes) = true)).

(** The folio is what it was. *)
Definition folio_unchanged {number : Type} (d d' : Db.t number) : Prop :=
  Db.folio_charges d' = Db.folio_charges d.

(** The bookings a database has gained since another one, all of them
    into [selectedRoom], which is then one of [availableRooms]. *)
Definition checked_into {number : Type} (availableRooms : list (Room.t number))
  (selectedRoom : uuid) (d d' : Db.t number) : Prop :=
  exists created,
    Db.bookings d' = (Db.bookings d ++ created)%list
    /\ Forall (fun b => Booking.room_id b = selectedRoom
                        /\ exists r, In r availableRooms /\ Room.id r = selectedRoom)
              created.

(** A room-rent charge of [today]. *)
Definition rent_of {number : Type} (today : date) (c : FolioCharge.t number) : Prop :=
  FolioCharge.charge_date c = today /\ FolioCharge.charge_type c = "room_rent".

(** Whether the audit of [today] posts for a booking, given the folio. *)
Definition audit_posts {number : Type} (today : date)
  (charges : list (FolioCharge.t number)) (b : Booking.t number) : bool :=
  stayover today b
  && match room_rent_on (Booking.id b) today charges with
     | [] => true
     | _ :: _ => false
     end.

(** Whether a list of bookings holds a stayover with this id. *)
Definition has_stayover {number : Type} (today : date) (id : uuid)
  (l : list (Booking.t number)) : bool :=
  existsb (fun b => String.eqb (Booking.id b) id && stayover today b) l.

(** What the archive lists of a document: its type, its number and the
    booking it belongs to. *)
Definition listing {number : Type} (doc : GuestDocument.t number)
  : string * string * uuid :=
  (GuestDocument.document_type doc, GuestDocument.document_number doc,
   GuestDocument.booking_id doc).

(** ** A small hotel to run the handlers on *)

Module Sample.

Definition standard : RoomType.t float :=
  {| RoomType.id := "7d1f0000-0000-4000-8000-000000000001";
     RoomType.name := "Standard";
     RoomType.base_rate := 1500%float |}.

Definition room101 (st : RoomStatus) : Room.t float :=
  {| Room.id := "4c2e0000-0000-4000-8000-000000000101";
     Room.room_number := "101"; Room.floor := 1; Room.status := st;
     Room.room_types := standard |}.

Definition room102 (st : RoomStatus) : Room.t float :=
  {| Room.id := "4c2e0000-0000-4000-8000-000000000102";
     Room.room_number := "102"; Room.floor := 1; Room.status := st;
     Room.room_types := standard |}.

Definition asha : Guest.t :=
  {| Guest.id := "9a8b0000-0000-4000-8000-00000000000a";
     Guest.full_name := "Asha Verma"; Guest.mobile := "9876500001";
     Guest.email := None; Guest.address := None;
     Guest.id_proof_type := Some "aadhaar";
     Guest.id_proof_number := Some "1234 5678 9012" |}.

Definition ravi : Guest.t :=
  {| Guest.id := "9a8b0000-0000-4000-8000-00000000000b";
     Guest.full_name := "Ravi Kumar"; Guest.mobile := "9876500002";
     Guest.email := None; Guest.address := None;
     Guest.id_proof_type := Some "passport";
     Guest.id_proof_number := Some "Z1234567" |}.

(** Day 20000 at 00:00 UTC, and an instant late on a day. *)
Definition day0 : date := 20000.
Definition evening (day : date) : timestamp := dateToTime day + 22 * 60 * 60 * 1000.

(** Asha's stay in room 101: checked in on the evening of [day0], due out
    on [day0 + 2]. *)
Definition stay101 : Booking.t float :=
  {| Booking.id := "0a1b2c3d-1111-4222-8333-444455556666";
     Booking.guest_id := Guest.id asha;
     Booking.room_id := Room.id (room101 occupied);
     Booking.check_in_date := evening day0;
     Booking.expected_check_out_date := day0 + 2;
     Booking.actual_check_out_date := None;
     Booking.number_of_guests := 2;
     Booking.advance_payment := Some 0%float;
     Booking.status := checked_in;
     Booking.checked_in_by := None;
     Booking.checked_out_by := None;
     Booking.guests := asha;
     Booking.rooms :=
       {| BookingRoom.id := Room.id (room101 occupied);
          BookingRoom.room_number := "101";
          BookingRoom.room_types := standard |} |}.

Definition charge (id : uuid) (day : date) (kind : string) (amount : float)
  : FolioCharge.t float :=
  {| FolioCharge.id := id; FolioCharge.booking_id := Booking.id stay101;
     FolioCharge.charge_date := day; FolioCharge.description := "Room Rent";
     FolioCharge.amount := amount; FolioCharge.charge_type := kind;
     FolioCharge.posted_by := None |}.

Definition payment (id : uuid) (amount : float) : Payment.t float :=
  {| Payment.id := id; Payment.booking_id := Booking.id stay101;
     Payment.payment_date := evening day0; Payment.amount := amount;
     Payment.payment_mode := "cash"; Payment.received_by := None |}.

Definition gst (c s : float) : TaxConfig.t float :=
  {| TaxConfig.cgst := c; TaxConfig.sgst := s |}.

(** Ravi's reservation: arriving on [day0 + 2] for two nights. *)
Definition arrival : Reservation.t float :=
  {| Reservation.id := "5e6f0000-0000-4000-8000-00000000000b";
     Reservation.check_in_date := day0 + 2;
     Reservation.check_out_date := day0 + 4;
     Reservation.number_of_guests := 1;
     Reservation.status := confirmed;
     Reservation.guests := ravi;
     Reservation.room_types := standard;
     Reservation.assigned_room_id := None |}.

(** Indian Standard Time, five hours and a half ahead of UTC all year. *)
Definition IST : Z := 19800000.

(** A runtime whose requests are lost exactly where [lost] says, with the
    clock of the hotel. *)
Definition runtime (lost : nat -> bool) : Runtime.t float :=
  {| Runtime.offline := lost;
     Runtime.gen_random_uuid := fun n => "row-" ++ Z_to_string (Z.of_nat n);
     Runtime.LocalTZA := fun _ _ => IST;
     Runtime.toLocaleDateString := fun t => Z_to_string (toISODate t);
     Runtime.generateInvoiceHTML := fun n _ => "Invoice " ++ n;
     Runtime.generateGRCHTML := fun n _ => "GRC " ++ n |}.

(** No request is lost. *)
Definition reachable : nat -> bool := fun _ => false.

(** The backend drops the fifth and the sixth request: at a checkout
    with a final payment, the two inserts into [guest_documents]. *)
Definition archive_down : nat -> bool :=
  fun n => ((4 <=? n) && (n <=? 5))%nat.

(** The balance of Asha's folio, paid by UPI at checkout. *)
Definition final_payment : CheckoutPaymentData.t float :=
  {| CheckoutPaymentData.amount := 2360%float;
     CheckoutPaymentData.mode := "upi" |}.

Definition world (now : timestamp) (rooms : list (Room.t float))
  (bookings : list (Booking.t float))
  (reservations : list (Reservation.t float))
  (charges : list (FolioCharge.t float))
  (payments : list (Payment.t float)) : World.t float :=
  {| World.db :=
       {| Db.rooms := rooms; Db.guests := [asha; ravi];
          Db.reservations := reservations; Db.bookings := bookings;
          Db.folio_charges := charges; Db.payments := payments;
          Db.guest_documents := []; Db.serial := 0 |};
     World.sent := 0; World.alerts := []; World.clock := now |}.

(** The evening of [day0 + 2]: Asha in house with two nights on her
    folio, Ravi expected, room 102 vacant and clean. *)
Definition in_house : World.t float :=
  world (evening (day0 + 2)) [room101 occupied; room102 vacant_clean]
    [stay101] [arrival]
    [charge "c-1" day0 "room_rent" 1500; charge "c-2" (day0 + 1) "room_rent" 1500]
    [payment "p-1" 1000].

(** A walk-in guest asking for [roomId] for one night. *)
Definition walk_in (roomId : uuid) : WalkInData.t float :=
  {| WalkInData.guestName := "Meera Nair"; WalkInData.mobile := "9876500003";
     WalkInData.email := ""; WalkInData.idType := "Aadhaar";
     WalkInData.idNumber := "4321 8765 2109"; WalkInData.address := "";
     WalkInData.roomTypeId := RoomType.id standard;
     WalkInData.roomId := roomId; WalkInData.numberOfGuests := Some 1;
     WalkInData.nights := Some 1; WalkInData.advancePayment := 500%float;
     WalkInData.paymentMode := "cash" |}.

End Sample.

(** * The rest of the pages

    What the pages and the archive service hold besides the billing core:
    the loads that fill a page's state, the remaining handlers of the
    in-house page, the readers and exports of the archive, the statistics
    of the night-audit page, the check-in of the guests page and the CSV
    writer. *)

From Stdlib Require Import Permutation.

(** ** What else the code asks of a [number] *)

(** Truthiness ([x || fallback] takes the fallback for 0, -0 and NaN) and
    the comparison [>=]. *)
Class Tests (number : Type) : Type := {
  falsy : number -> bool;
  ge : number -> number -> bool
}.

#[global] Instance binary64_tests : Tests float := {|
  falsy := fun x => PrimFloat.eqb x 0%float || PrimFloat.is_nan x;
  ge := fun x y => PrimFloat.leb y x
|}.

#[global] Instance exact_tests : Tests Qc := {|
  falsy := fun x => Qc_eq_bool x 0%Qc;
  ge := fun x y => match (x ?= y)%Qc with Lt => false | _ => true end
|}.

(** [x || fallback] on numbers. *)
Definition number_or {number : Type} {T : Tests number} (x fallback : number)
  : number :=
  if falsy x then fallback else x.

(** ** The CSV writer (src/lib/documentArchiveService.ts) *)

(** The double quote and the line feed. *)
Definition dquote : ascii := "034"%char.
Definition line_feed : ascii := "010"%char.

(** A record handed to the writer: its own keys in insertion order, each
    with the text [String(value)] of its value, or nothing where the value
    is null or undefined. *)
Definition JsObject : Type := list (string * option string).

Definition Object_keys (o : JsObject) : list string := map fst o.

(** [row[header]]: undefined for a key the record does not have. *)
Definition property (o : JsObject) (key : string) : option string :=
  match find (fun kv => String.eqb (fst kv) key) o with
  | Some (_, value) => value
  | None => None
  end.

(** [String(value ?? '')] *)
Definition String_or_empty (value : option string) : string :=
  match value with
  | Some s => s
  | None => ""
  end.

(** The [replace] of the writer: every double quote is written twice. *)
Fixpoint double_quotes (s : string) : string :=
  match s with
  | EmptyString => EmptyString
  | String c s' =>
      if Ascii.eqb c dquote
      then String dquote (String dquote (double_quotes s'))
      else String c (double_quotes s')
  end.

(** [l.join(sep)] *)
Definition join (sep : string) (l : list string) : string := String.concat sep l.

(** One cell: the escaped text between two double quotes. *)
Definition cell (value : option string) : string :=
  String dquote (double_quotes (String_or_empty value) ++ String dquote EmptyString).

(** [convertToCSV] *)
Definition convertToCSV (data : list JsObject) : string :=
  match data with
  | [] => ""
  | first :: _ =>
      let headers := Object_keys first in
      let csvRows :=
        (join "," headers
         :: map (fun row => join "," (map (fun header => cell (property row header))
                                          headers))
                data)%list in
      join (String line_feed EmptyString) csvRows
  end.

(** ** The day counter of the in-house list (src/pages/InHouse.tsx) *)

(** [getDaysStayed], at the instant [now] of the render. *)
Definition getDaysStayed (now : timestamp) (checkInDate : timestamp) : Z :=
  let diffTime := Z.abs (now - checkInDate) in
  let diffDays := ceilDays diffTime in
  if diffDays =? 0 then 1 else diffDays.

(** ** The CHECK on a guest's proof of identity *)

(** A nullable text in SQL's three-valued logic: [x IN (v1, ..., vn)] is
    true when some [vi] equals [x], unknown when none does but [x] or one
    of the [vi] is NULL, and false otherwise. *)
Definition sql_in (x : option string) (values : list (option string))
  : option bool :=
  match x with
  | None => None
  | Some s =>
      if existsb (fun v => match v with
                           | Some t => String.eqb s t
                           | None => false
                           end) values
      then Some true
      else if existsb (fun v => match v with None => true | Some _ => false end) values
           then None
           else Some false
  end.

(** A CHECK constraint rejects a row only when its condition is false. *)
Definition check_passes (condition : option bool) : bool :=
  match condition with
  | Some false => false
  | _ => true
  end.

(** [valid_id_proof_type] as the first schema declares it, and as the
    rebuilt schema does (with NULL in the list). *)
Definition valid_id_proof_type_first (id_proof_type : option string) : bool :=
  check_passes (sql_in id_proof_type
                  [Some "aadhaar"; Some "passport"; Some "driving_license";
                   Some "other"]).

Definition valid_id_proof_type (id_proof_type : option string) : bool :=
  check_passes (sql_in id_proof_type
                  [Some "aadhaar"; Some "passport"; Some "driving_license";
                   Some "other"; None]).

(** The guests table of the rebuilt schema in full: the CHECK and the
    unique mobile number. *)
Definition guests_constraints {number : Type} (d : Db.t number) (r : Guest.t)
  : bool :=
  valid_id_proof_type (Guest.id_proof_type r)
  && negb (existsb (fun g => String.eqb (Guest.mobile g) (Guest.mobile r))
                   (Db.guests d)).

(** ** Reading a CSV text back *)

(** A reader for what [convertToCSV] writes below its header line: records
    separated by line feeds, cells separated by commas, each cell between
    double quotes with the double quotes inside written twice. *)
Inductive ReaderState := AtRecord | AtCell | InCell | AfterQuote.

Fixpoint read_records (state : ReaderState) (cell : list ascii)
  (record : list string) (records : list (list string)) (s : string)
  : option (list (list string)) :=
  let text := string_of_list_ascii (rev cell) in
  match s with
  | EmptyString =>
      match state with
      | AtRecord => Some (rev (rev record :: records))
      | AfterQuote => Some (rev (rev (text :: record) :: records))
      | AtCell | InCell => None
      end
  | String c s' =>
      match state with
      | AtRecord =>
          if Ascii.eqb c dquote then read_records InCell [] record records s'
          else if Ascii.eqb c line_feed
               then read_records AtRecord [] [] (rev record :: records) s'
               else None
      | AtCell =>
          if Ascii.eqb c dquote then read_records InCell [] record records s'
          else None
      | InCell =>
          if Ascii.eqb c dquote then read_records AfterQuote cell record records s'
          else read_records InCell (c :: cell) record records s'
      | AfterQuote =>
          if Ascii.eqb c dquote
          then read_records InCell (c :: cell) record records s'
          else if Ascii.eqb c ","%char
               then read_records AtCell [] (text :: record) records s'
               else if Ascii.eqb c line_feed
                    then read_records AtRecord [] []
                           (rev (text :: record) :: records) s'
                    else None
      end
  end.

(** The text up to the first line feed, and the text after it. *)
Fixpoint first_line (s : string) : option (string * string) :=
  match s with
  | EmptyString => None
  | String c s' =>
      if Ascii.eqb c line_feed then Some (EmptyString, s')
      else match first_line s' with
           | Some (line, rest) => Some (String c line, rest)
           | None => None
           end
  end.

(** The header line and the records of a CSV text. *)
Definition read_csv (s : string) : option (string * list (list string)) :=
  match first_line s with
  | Some (header, body) =>
      match read_records AtRecord [] [] [] body with
      | Some records => Some (header, records)
      | None => None
      end
  | None => None
  end.

(** A key that holds no line feed. *)
Definition one_line (s : string) : bool :=
  negb (existsb (Ascii.eqb line_feed) (list_ascii_of_string s)).

(** The proof-of-identity types the walk-in form offers. *)
Definition walkIn_idType_options : list string :=
  ["Aadhaar"; "Passport"; "Driving License"; "Voter ID"].

(** ** Ordered selections *)

(** Insertion of a row before the first row it may precede. *)
Fixpoint insert_by {A : Type} (precedes : A -> A -> bool) (x : A) (l : list A)
  : list A :=
  match l with
  | [] => [x]
  | y :: l' => if precedes x y then x :: l else y :: insert_by precedes x l'
  end.

(** The rows sorted on an integer key; rows with equal keys stay in their
    table order (one of the orders the database may return them in). *)
Definition sorted_by {A : Type} (key : A -> Z) (ascending : bool) (l : list A)
  : list A :=
  fold_right
    (insert_by (fun x y => if ascending then key x <=? key y else key y <=? key x))
    [] l.

(** A row of [tax_config]. *)
Module TaxRow.
Record t (number : Type) : Type := mk {
  tax_name : string;
  tax_percentage : number;
  is_active : bool
}.
End TaxRow.

(** What the [Invoice] component shows. *)
Module InvoiceView.
Record t (number : Type) : Type := mk {
  invoiceNumber : string;
  totals : Totals.t number;
  balance_due : bool;
  paid_mark : bool
}.
End InvoiceView.

(** The columns of a document an export selects. *)
Module ExportedDocument.
Record t (number : Type) : Type := mk {
  document_type : string;
  document_number : string;
  document_data : DocumentData.t number
}.
End ExportedDocument.

(** An entry of [stay_history]: a booking with its charges and payments. *)
Module StayRecord.
Record t (number : Type) : Type := mk {
  booking : Booking.t number;
  charges : list (FolioCharge.t number);
  payments : list (Payment.t number)
}.
End StayRecord.

(** What [exportGuestDataJSON] returns. *)
Module GuestExport.
Record t (number : Type) : Type := mk {
  export_date : timestamp;
  export_type : string;
  guest : option Guest.t;
  stay_history : list (StayRecord.t number);
  archived_documents : option (list (ExportedDocument.t number))
}.
End GuestExport.

(** What [exportAllGuestsData] returns. *)
Module BulkExport.
Record t (number : Type) : Type := mk {
  export_date : timestamp;
  export_type : string;
  total_guests : Z;
  guests : list (GuestExport.t number)
}.
End BulkExport.

Section Pages.
Context {number : Type} {N : Number number} {T : Tests number}.
Variable rt : Runtime.t number.

Notation "x <- m ;; k" := (bind m (fun x => k))
  (at level 61, m at next level, right associativity).
Notation "m ;; k" := (bind m (fun _ => k))
  (at level 61, right associativity).

(** [.order(column, { ascending })] on an integer column (an instant or a
    day). *)
Definition order {A : Type} (key : A -> Z) (ascending : bool)
  (q : Query number (list A)) : Query number (list A) :=
  fun d =>
    match q d with
    | (Data rows, d') => (Data (sorted_by key ascending rows), d')
    | (Error m, d') => (Error m, d')
    end.

(** [.order('created_at', { ascending })]: a table holds its rows in the
    order they were created. *)
Definition order_by_created_at {A : Type} (ascending : bool)
  (q : Query number (list A)) : Query number (list A) :=
  fun d =>
    match q d with
    | (Data rows, d') => (Data (if ascending then rows else rev rows), d')
    | (Error m, d') => (Error m, d')
    end.

(** *** The in-house page: loads (src/pages/InHouse.tsx) *)

(** [row?.tax_percentage || 6] *)
Definition percentage_or (row : option (TaxRow.t number)) (fallback : number)
  : number :=
  match row with
  | Some t => number_or (TaxRow.tax_percentage t) fallback
  | None => fallback
  end.

(** [loadTaxes], over the rows of [tax_config]; the value is the new
    [taxes] of the page. *)
Definition loadTaxes (tax_config : list (TaxRow.t number))
  : Async number (TaxConfig.t number) :=
  r <- request rt (select (fun _ => tax_config) (@TaxRow.is_active number)) ;;
  let data := data_of r in
  let cgst :=
    match data with
    | Some rows => find (fun t => String.eqb (TaxRow.tax_name t) "CGST") rows
    | None => None
    end in
  let sgst :=
    match data with
    | Some rows => find (fun t => String.eqb (TaxRow.tax_name t) "SGST") rows
    | None => None
    end in
  ret {| TaxConfig.cgst := percentage_or cgst (of_Z 6);
         TaxConfig.sgst := percentage_or sgst (of_Z 6) |}.

(** [loadBookings]: the value is the new list of the page, which stays
    what it was when the request fails. *)
Definition loadBookings (bookings : list (Booking.t number))
  : Async number (list (Booking.t number)) :=
  try_catch
    (r <- request rt
            (order (@Booking.check_in_date number) false
               (select (@Db.bookings number)
                  (fun b => BookingStatus_eqb (Booking.status b) checked_in))) ;;
     match r with
     | Error e => throw e
     | Data data => ret data
     end)
    (fun _ => ret bookings).

(** [loadFolioAndPayments]: the new folio and payments of the page. *)
Definition loadFolioAndPayments (bookingId : uuid)
  : Async number (list (FolioCharge.t number) * list (Payment.t number)) :=
  charges <-
    request rt
      (order (@FolioCharge.charge_date number) true
         (select (@Db.folio_charges number)
            (fun c => String.eqb (FolioCharge.booking_id c) bookingId))) ;;
  paymentsData <-
    request rt
      (order (@Payment.payment_date number) true
         (select (@Db.payments number)
            (fun p => String.eqb (Payment.booking_id p) bookingId))) ;;
  ret (rows_of charges, rows_of paymentsData).

(** [handleViewFolio]: the booking selected, with its folio and payments. *)
Definition handleViewFolio (booking : Booking.t number)
  : Async number (option (Booking.t number)
                  * (list (FolioCharge.t number) * list (Payment.t number))) :=
  folio <- loadFolioAndPayments (Booking.id booking) ;;
  ret (Some booking, folio).

(** [handleCheckout], the first step of checkout: [parsed] is what
    [parseFloat] makes of the amount typed (NaN when it is no number); the
    value is the new [checkoutPaymentData]. *)
Definition handleCheckout (selectedBooking : option (Booking.t number))
  (parsed : number) (paymentMode : string)
  (checkoutPaymentData : option (CheckoutPaymentData.t number))
  : option (CheckoutPaymentData.t number) :=
  match selectedBooking with
  | None => checkoutPaymentData
  | Some _ =>
      let paymentAmount := number_or parsed (of_Z 0) in
      Some {| CheckoutPaymentData.amount := paymentAmount;
              CheckoutPaymentData.mode := paymentMode |}
  end.

(** *** The in-house page: room change *)

(** A booking moved to a room, with the room joined in. *)
Definition move_to (room : Room.t number) (b : Booking.t number)
  : Booking.t number :=
  {| Booking.id := Booking.id b; Booking.guest_id := Booking.guest_id b;
     Booking.room_id := Room.id room;
     Booking.check_in_date := Booking.check_in_date b;
     Booking.expected_check_out_date := Booking.expected_check_out_date b;
     Booking.actual_check_out_date := Booking.actual_check_out_date b;
     Booking.number_of_guests := Booking.number_of_guests b;
     Booking.advance_payment := Booking.advance_payment b;
     Booking.status := Booking.status b;
     Booking.checked_in_by := Booking.checked_in_by b;
     Booking.checked_out_by := Booking.checked_out_by b;
     Booking.guests := Booking.guests b;
     Booking.rooms :=
       {| BookingRoom.id := Room.id room;
          BookingRoom.room_number := Room.room_number room;
          BookingRoom.room_types := Room.room_types room |} |}.

(** [.from('bookings').update({ room_id }).eq('id', id)]: the rows with
    this id move to the room, which the foreign key wants to exist. *)
Definition update_room_id (id : uuid) (newRoomId : uuid) : Query number unit :=
  fun d =>
    if existsb (fun b => String.eqb (Booking.id b) id) (Db.bookings d) then
      match find (fun r => String.eqb (Room.id r) newRoomId) (Db.rooms d) with
      | Some room =>
          (Data tt,
           with_bookings d
             (map (fun b => if String.eqb (Booking.id b) id then move_to room b else b)
                  (Db.bookings d)))
      | None => (Error "violates foreign key constraint", d)
      end
    else (Data tt, d).

(** [handleRoomChange] *)
Definition handleRoomChange (selectedBooking : option (Booking.t number))
  (newRoomId : string) : Async number unit :=
  match selectedBooking with
  | None => ret tt
  | Some selectedBooking =>
      try_catch
        (request rt (update (@Db.rooms number) (@with_rooms number)
                       (fun r => String.eqb (Room.id r)
                                   (BookingRoom.id (Booking.rooms selectedBooking)))
                       (set_room_status vacant_dirty)) ;;
         request rt (update (@Db.rooms number) (@with_rooms number)
                       (fun r => String.eqb (Room.id r) newRoomId)
                       (set_room_status occupied)) ;;
         request rt (update_room_id (Booking.id selectedBooking) newRoomId) ;;
         alert "Room changed successfully!")
        (fun message =>
           alert ("Error changing room: " ++ or_else message "Unknown error"))
  end.

(** *** The invoice shown and printed (src/components/Invoice.tsx) *)

(** [Invoice]: the number and the amounts the component computes, and
    which of the balance due ([balance > 0]) and the paid mark
    ([balance <= 0]) it shows. *)
Definition Invoice (booking : Booking.t number)
  (folioCharges : list (FolioCharge.t number))
  (payments : list (Payment.t number)) (taxes : TaxConfig.t number)
  : InvoiceView.t number :=
  let invoiceNumber :=
    hotelConfig.invoice_prefix ++ "-" ++ toUpperCase (slice 0 8 (Booking.id booking)) in
  let subtotal :=
    fold_left (fun sum charge => (sum + Number_ (FolioCharge.amount charge))%num)
              folioCharges (of_Z 0) in
  let cgstAmount := ((subtotal * TaxConfig.cgst taxes) / of_Z 100)%num in
  let sgstAmount := ((subtotal * TaxConfig.sgst taxes) / of_Z 100)%num in
  let grandTotal := (subtotal + cgstAmount + sgstAmount)%num in
  let totalPaid :=
    fold_left (fun sum payment => (sum + Number_ (Payment.amount payment))%num)
              payments (of_Z 0) in
  let balance := (grandTotal - totalPaid)%num in
  {| InvoiceView.invoiceNumber := invoiceNumber;
     InvoiceView.totals :=
       {| Totals.subtotal := subtotal;
          Totals.cgst_amount := cgstAmount;
          Totals.sgst_amount := sgstAmount;
          Totals.grand_total := grandTotal;
          Totals.total_paid := totalPaid;
          Totals.balance := balance |};
     InvoiceView.balance_due := gt balance (of_Z 0);
     InvoiceView.paid_mark := ge (of_Z 0) balance |}.

(** *** Reading the archive (src/lib/documentArchiveService.ts) *)

(** [getArchivedDocuments] *)
Definition getArchivedDocuments (bookingId : uuid)
  : Async number (list (GuestDocument.t number)) :=
  r <- request rt
         (order_by_created_at true
            (select (@Db.guest_documents number)
               (fun doc => String.eqb (GuestDocument.booking_id doc) bookingId))) ;;
  match r with
  | Error e => throw e
  | Data data => ret data
  end.

(** [getGuestDocuments] *)
Definition getGuestDocuments (guestId : uuid)
  : Async number (list (GuestDocument.t number)) :=
  r <- request rt
         (order_by_created_at false
            (select (@Db.guest_documents number)
               (fun doc => String.eqb (GuestDocument.guest_id doc) guestId))) ;;
  match r with
  | Error e => throw e
  | Data data => ret data
  end.

(** The columns [document_type, document_number, document_data]. *)
Definition exported (doc : GuestDocument.t number) : ExportedDocument.t number :=
  {| ExportedDocument.document_type := GuestDocument.document_type doc;
     ExportedDocument.document_number := GuestDocument.document_number doc;
     ExportedDocument.document_data := GuestDocument.document_data doc |}.

(** [exportGuestDataJSON] *)
Definition exportGuestDataJSON (guestId : uuid)
  : Async number (GuestExport.t number) :=
  guest <-
    request rt (single (select (@Db.guests number)
                          (fun g => String.eqb (Guest.id g) guestId))) ;;
  bookings <-
    request rt
      (order (@Booking.check_in_date number) false
         (select (@Db.bookings number)
            (fun b => String.eqb (Booking.guest_id b) guestId))) ;;
  documents <-
    request rt
      (order_by_created_at false
         (select (@Db.guest_documents number)
            (fun doc => String.eqb (GuestDocument.guest_id doc) guestId))) ;;
  stayHistory <-
    for_each (rows_of bookings)
      (fun stayHistory booking =>
         charges <-
           request rt (select (@Db.folio_charges number)
                         (fun c => String.eqb (FolioCharge.booking_id c)
                                              (Booking.id booking))) ;;
         payments <-
           request rt (select (@Db.payments number)
                         (fun p => String.eqb (Payment.booking_id p)
                                              (Booking.id booking))) ;;
         ret (stayHistory
              ++ [{| StayRecord.booking := booking;
                     StayRecord.charges := rows_of charges;
                     StayRecord.payments := rows_of payments |}])%list)
      [] ;;
  now <- Date_now ;;
  ret {| GuestExport.export_date := now;
         GuestExport.export_type := "guest_full_record";
         GuestExport.guest := data_of guest;
         GuestExport.stay_history := stayHistory;
         GuestExport.archived_documents :=
           option_map (map exported) (data_of documents) |}.

(** [exportAllGuestsData] *)
Definition exportAllGuestsData : Async number (BulkExport.t number) :=
  guests <-
    request rt (order_by_created_at false
                  (select (@Db.guests number) (fun _ => true))) ;;
  allData <-
    for_each (rows_of guests)
      (fun allData guest =>
         guestData <- exportGuestDataJSON (Guest.id guest) ;;
         ret (allData ++ [guestData])%list)
      [] ;;
  now <- Date_now ;;
  ret {| BulkExport.export_date := now;
         BulkExport.export_type := "bulk_guest_records";
         BulkExport.total_guests := Z.of_nat (List.length allData);
         BulkExport.guests := allData |}.

End Pages.

(** ** The night-audit page in full *)

(** The statistics the page shows. *)
Module NightAuditStats.
Record t (number : Type) : Type := mk {
  totalRooms : Z;
  occupiedRooms : Z;
  vacantClean : Z;
  vacantDirty : Z;
  checkInsToday : Z;
  checkOutsToday : Z;
  stayovers : Z;
  todayRevenue : number;
  pendingCharges : Z
}.
End NightAuditStats.

(** The last instant a filter on a day admits: 23:59:59 of that day. *)
Definition LAST_SECOND : Z := ((23 * 60 + 59) * 60 + 59) * 1000.

(** [.gte(column, today T00:00:00).lte(column, today T23:59:59)]: the
    bounds name no time zone; they are read as the day itself is computed,
    in UTC. *)
Definition during (today : date) (t : timestamp) : bool :=
  (dateToTime today <=? t) && (t <=? dateToTime today + LAST_SECOND).

(** [rows?.length || 0] *)
Definition length_or_zero {A : Type} (rows : option (list A)) : Z :=
  match rows with
  | Some l => Z.of_nat (List.length l)
  | None => 0
  end.

(** [rows?.filter(p).length || 0] *)
Definition count_or_zero {A : Type} (p : A -> bool) (rows : option (list A)) : Z :=
  length_or_zero (option_map (filter p) rows).

Module NightAudit.
Section Page.
Context {number : Type} {N : Number number} {T : Tests number}.
Variable rt : Runtime.t number.

Notation "x <- m ;; k" := (bind m (fun x => k))
  (at level 61, m at next level, right associativity).

(** [loadAuditData] with all its loads, for the [today] of the render:
    the statistics and the bookings in house. *)
Definition loadAuditData (today : date)
  : Async number (NightAuditStats.t number * list (Booking.t number)) :=
  rooms <- request rt (select (@Db.rooms number) (fun _ => true)) ;;
  bookings <-
    request rt (select (@Db.bookings number)
                  (fun b => BookingStatus_eqb (Booking.status b) checked_in)) ;;
  checkIns <-
    request rt (select (@Db.bookings number)
                  (fun b => during today (Booking.check_in_date b))) ;;
  checkOuts <-
    request rt (select (@Db.bookings number)
                  (fun b => BookingStatus_eqb (Booking.status b) checked_out
                            && match Booking.actual_check_out_date b with
                               | Some t => during today t
                               | None => false
                               end)) ;;
  payments <-
    request rt (select (@Db.payments number)
                  (fun p => during today (Payment.payment_date p))) ;;
  let todayRevenue :=
    match data_of payments with
    | Some l =>
        number_or
          (fold_left (fun sum p => (sum + Number_ (Payment.amount p))%num) l (of_Z 0))
          (of_Z 0)
    | None => of_Z 0
    end in
  let stayovers :=
    count_or_zero (fun b => toISODate (Booking.check_in_date b) <? today)
                  (data_of bookings) in
  ret ({| NightAuditStats.totalRooms := length_or_zero (data_of rooms);
          NightAuditStats.occupiedRooms :=
            count_or_zero (fun r => RoomStatus_eqb (Room.status r) occupied)
                          (data_of rooms);
          NightAuditStats.vacantClean :=
            count_or_zero (fun r => RoomStatus_eqb (Room.status r) vacant_clean)
                          (data_of rooms);
          NightAuditStats.vacantDirty :=
            count_or_zero (fun r => RoomStatus_eqb (Room.status r) vacant_dirty)
                          (data_of rooms);
          NightAuditStats.checkInsToday := length_or_zero (data_of checkIns);
          NightAuditStats.checkOutsToday := length_or_zero (data_of checkOuts);
          NightAuditStats.stayovers := stayovers;
          NightAuditStats.todayRevenue := todayRevenue;
          NightAuditStats.pendingCharges := stayovers |},
       rows_of bookings).

End Page.
End NightAudit.

(** ** The guests page (src/pages/Guests.tsx) *)

Definition ReservationStatus_eqb (a b : ReservationStatus) : bool :=
  match a, b with
  | confirmed, confirmed | cancelled, cancelled | arrived, arrived => true
  | _, _ => false
  end.

(** A stay of the history, with its totals. *)
Module StayHistory.
Record t (number : Type) : Type := mk {
  booking : Booking.t number;
  totalCharges : number;
  totalPayments : number;
  archivedDocs : list (GuestDocument.t number)
}.
Arguments mk {number}.
Arguments booking {number}.
Arguments totalCharges {number}.
Arguments totalPayments {number}.
Arguments archivedDocs {number}.
End StayHistory.

Module GuestStats.
Record t (number : Type) : Type := mk {
  totalStays : Z;
  totalSpend : number;
  isVIP : bool
}.
Arguments mk {number}.
Arguments totalStays {number}.
Arguments totalSpend {number}.
Arguments isVIP {number}.
End GuestStats.

(** What the check-in form of the guests page submits, parsed: the
    number of guests by [parseInt] (NaN is [None]), the advance by
    [parseFloat]; the two fields of the id proof are on the form only for
    a guest without one, and [formData.get] is null otherwise. *)
Module CheckinForm.
Record t (number : Type) : Type := mk {
  room_id : string;
  check_out_date : date;
  number_of_guests : option Z;
  advance_payment : number;
  id_proof_type : option string;
  id_proof_number : option string
}.
Arguments mk {number}.
Arguments room_id {number}.
Arguments check_out_date {number}.
Arguments number_of_guests {number}.
Arguments advance_payment {number}.
Arguments id_proof_type {number}.
Arguments id_proof_number {number}.
End CheckinForm.

(** [update({ id_proof_type, id_proof_number })] on a guest. *)
Definition set_id_proof (id_proof_type id_proof_number : option string)
  (g : Guest.t) : Guest.t :=
  {| Guest.id := Guest.id g; Guest.full_name := Guest.full_name g;
     Guest.mobile := Guest.mobile g; Guest.email := Guest.email g;
     Guest.address := Guest.address g;
     Guest.id_proof_type := id_proof_type;
     Guest.id_proof_number := id_proof_number |}.

Module GuestsPage.
Section Page.
Context {number : Type} {N : Number number} {T : Tests number}.
Variable rt : Runtime.t number.

Notation "x <- m ;; k" := (bind m (fun x => k))
  (at level 61, m at next level, right associativity).
Notation "m ;; k" := (bind m (fun _ => k))
  (at level 61, right associativity).

(** [rows?.reduce((sum, r) => sum + Number(r.amount), 0) || 0] *)
Definition total_or_zero {A : Type} (amount : A -> number)
  (rows : option (list A)) : number :=
  match rows with
  | Some l =>
      number_or
        (fold_left (fun sum r => (sum + Number_ (amount r))%num) l (of_Z 0))
        (of_Z 0)
  | None => of_Z 0
  end.

(** The body of the loop of [handleSelectGuest], for one booking; the
    state carried along is [(totalSpend, historyWithTotals)]. *)
Definition stayWithTotals
  (state : number * list (StayHistory.t number)) (booking : Booking.t number)
  : Async number (number * list (StayHistory.t number)) :=
  let (totalSpend, historyWithTotals) := state in
  charges <-
    request rt (select (@Db.folio_charges number)
                  (fun c => String.eqb (FolioCharge.booking_id c)
                                       (Booking.id booking))) ;;
  payments <-
    request rt (select (@Db.payments number)
                  (fun p => String.eqb (Payment.booking_id p)
                                       (Booking.id booking))) ;;
  archivedDocs <-
    try_catch (getArchivedDocuments rt (Booking.id booking)) (fun _ => ret []) ;;
  let totalCharges :=
    total_or_zero (@FolioCharge.amount number) (data_of charges) in
  let totalPayments :=
    total_or_zero (@Payment.amount number) (data_of payments) in
  ret ((totalSpend + totalPayments)%num,
       (historyWithTotals
        ++ [{| StayHistory.booking := booking;
               StayHistory.totalCharges := totalCharges;
               StayHistory.totalPayments := totalPayments;
               StayHistory.archivedDocs := archivedDocs |}])%list).

(** [handleSelectGuest]: the reservations the guest can be checked in on,
    the stay history and the statistics. *)
Definition handleSelectGuest (guest : Guest.t)
  : Async number (list (Reservation.t number) * list (StayHistory.t number)
                  * GuestStats.t number) :=
  now <- Date_now ;;
  let today := toISODate now in
  reservationsData <-
    request rt
      (order (@Reservation.check_in_date number) true
         (select (@Db.reservations number)
            (fun r => String.eqb (Guest.id (Reservation.guests r)) (Guest.id guest)
                      && ReservationStatus_eqb (Reservation.status r) confirmed
                      && (Reservation.check_in_date r <=? today)))) ;;
  bookingsData <-
    request rt
      (order (@Booking.check_in_date number) false
         (select (@Db.bookings number)
            (fun b => String.eqb (Booking.guest_id b) (Guest.id guest)))) ;;
  state <- for_each (rows_of bookingsData) stayWithTotals (of_Z 0, []) ;;
  let (totalSpend, historyWithTotals) := state in
  let totalStays := Z.of_nat (List.length historyWithTotals) in
  ret (rows_of reservationsData, historyWithTotals,
       {| GuestStats.totalStays := totalStays;
          GuestStats.totalSpend := totalSpend;
          GuestStats.isVIP :=
            (3 <=? totalStays) || ge totalSpend (of_Z 50000) |}).

(** [.from('bookings').insert([{ reservation_id, ... }])]: besides the
    guest and the room, a row whose numbers the columns take references
    the reservation when it names one.  (The bookings of this model carry
    no [reservation_id].) *)
Definition insert_booking_for (reservation_id : option uuid)
  (b : NewBooking.t number) : Query number (Booking.t number) :=
  fun d =>
    match booking_numbers b, reservation_id with
    | Data _, Some id =>
        if existsb (fun r => String.eqb (Reservation.id r) id) (Db.reservations d)
        then insert_booking rt b d
        else (Error "violates foreign key constraint", d)
    | _, _ => insert_booking rt b d
    end.

(** [selectedReservation?.id || null] *)
Definition reservation_id_or_null
  (selectedReservation : option (Reservation.t number)) : option uuid :=
  match selectedReservation with
  | Some r => or_null (Reservation.id r)
  | None => None
  end.

(** [handleCheckin]: the check-in of the selected guest from the form of
    the page, with a room-rent charge for every night of the stay. *)
Definition handleCheckin (user : option uuid)
  (selectedGuest : option Guest.t)
  (selectedReservation : option (Reservation.t number))
  (availableRooms : list (Room.t number))
  (formData : CheckinForm.t number) : Async number unit :=
  match selectedGuest with
  | None => ret tt
  | Some selectedGuest =>
      let roomId := CheckinForm.room_id formData in
      let checkOutDate := CheckinForm.check_out_date formData in
      let advancePayment := CheckinForm.advance_payment formData in
      try_catch
        (request rt (update (@Db.guests number) (@with_guests number)
                       (fun g => String.eqb (Guest.id g) (Guest.id selectedGuest))
                       (set_id_proof (CheckinForm.id_proof_type formData)
                                     (CheckinForm.id_proof_number formData))) ;;
         now <- Date_now ;;
         booking <-
           request rt
             (insert_booking_for (reservation_id_or_null selectedReservation)
                {| NewBooking.guest_id := Guest.id selectedGuest;
                   NewBooking.room_id := roomId;
                   NewBooking.check_in_date := now;
                   NewBooking.expected_check_out_date := checkOutDate;
                   NewBooking.number_of_guests :=
                     integer (CheckinForm.number_of_guests formData);
                   NewBooking.advance_payment := decimal_10_2 advancePayment;
                   NewBooking.checked_in_by := user |}) ;;
         match booking with
         | Error bookingError => throw bookingError
         | Data booking =>
             request rt (update (@Db.rooms number) (@with_rooms number)
                           (fun r => String.eqb (Room.id r) roomId)
                           (set_room_status occupied)) ;;
             match selectedReservation with
             | Some selectedReservation =>
                 request rt
                   (update (@Db.reservations number) (@with_reservations number)
                      (fun r => String.eqb (Reservation.id r)
                                           (Reservation.id selectedReservation))
                      (set_reservation_status arrived)) ;;
                 ret tt
             | None => ret tt
             end ;;
             match find (fun r => String.eqb (Room.id r) roomId) availableRooms with
             | Some selectedRoom =>
                 now <- Date_now ;;
                 let nights := ceilDays (dateToTime checkOutDate - now) in
                 for_each (map Z.of_nat (seq 0 (Z.to_nat nights)))
                   (fun _ i =>
                      now <- Date_now ;;
                      let chargeDate := addDays rt now i in
                      request rt
                        (insert rt (@Db.folio_charges number)
                           (@with_folio_charges number)
                           (@folio_charges_violation number _) (@folio_charges_held number _)
                           (fun id =>
                              {| FolioCharge.id := id;
                                 FolioCharge.booking_id := Booking.id booking;
                                 FolioCharge.charge_date := toISODate chargeDate;
                                 FolioCharge.description :=
                                   "Room Rent - "
                                   ++ RoomType.name (Room.room_types selectedRoom)
                                   ++ " (Night " ++ Z_to_string (i + 1) ++ ")";
                                 FolioCharge.amount :=
                                   RoomType.base_rate (Room.room_types selectedRoom);
                                 FolioCharge.charge_type := "room_rent";
                                 FolioCharge.posted_by := user |})) ;;
                      ret tt)
                   tt
             | None => ret tt
             end ;;
             (if gt advancePayment (of_Z 0) then
                now <- Date_now ;;
                request rt
                  (insert rt (@Db.payments number) (@with_payments number)
                     (@payments_violation number _) (@payments_held number _)
                     (fun id =>
                        {| Payment.id := id;
                           Payment.booking_id := Booking.id booking;
                           Payment.payment_date := now;
                           Payment.amount := advancePayment;
                           Payment.payment_mode := "cash";
                           Payment.received_by := user |})) ;;
                ret tt
              else ret tt) ;;
             alert "Check-in completed successfully!"
         end)
        (fun message =>
           alert ("Error during check-in: " ++ or_else message "Unknown error"))
  end.

End Page.
End GuestsPage.

(** ** Notions the further properties are stated with *)

(** A computation that ends normally and shows the operator nothing. *)
Definition quiet {number A : Type} (m : Async number A) : Prop :=
  forall w, exists a w',
    m w = (Returned a, w') /\ World.alerts w' = World.alerts w.

(** No request reaches the database. *)
Definition unreachable {number : Type} (rt : Runtime.t number) : Prop :=
  forall n, Runtime.offline rt n = true.

(** The payments are what they were. *)
Definition payments_unchanged {number : Type} (d d' : Db.t number) : Prop :=
  Db.payments d' = Db.payments d.

(** What is compared of a charge and of a payment. *)
Definition charge_facts {number : Type} (c : FolioCharge.t number)
  : uuid * date * number * string :=
  (FolioCharge.booking_id c, FolioCharge.charge_date c, FolioCharge.amount c,
   FolioCharge.charge_type c).

Definition payment_facts {number : Type} (p : Payment.t number)
  : uuid * timestamp * number * string :=
  (Payment.booking_id p, Payment.payment_date p, Payment.amount p,
   Payment.payment_mode p).

(** ** Further samples: a clock in New York, a full house *)

Module Example.

(** 9 March and 2 November 2025, the days the clocks change in New York. *)
Definition march_9 : date := 20156.
Definition november_2 : date := 20394.

(** The offset of New York in 2025: five hours behind UTC, four from
    07:00 UTC on 9 March to 06:00 UTC on 2 November.  A local time that
    the change skips or repeats is read with the offset before it. *)
Definition EST : Z := - 5 * 3600000.
Definition EDT : Z := - 4 * 3600000.

Definition new_york_offset (t : timestamp) (isUTC : bool) : Z :=
  let spring := dateToTime march_9 + (if isUTC then 7 else 3) * 3600000 in
  let autumn := dateToTime november_2 + (if isUTC then 6 else 2) * 3600000 in
  if (spring <=? t) && (t <? autumn) then EDT else EST.

(** The runtime of the samples on a clock in New York. *)
Definition new_york (lost : nat -> bool) : Runtime.t float :=
  {| Runtime.offline := lost;
     Runtime.gen_random_uuid := Runtime.gen_random_uuid (Sample.runtime lost);
     Runtime.LocalTZA := new_york_offset;
     Runtime.toLocaleDateString := Runtime.toLocaleDateString (Sample.runtime lost);
     Runtime.generateInvoiceHTML := Runtime.generateInvoiceHTML (Sample.runtime lost);
     Runtime.generateGRCHTML := Runtime.generateGRCHTML (Sample.runtime lost) |}.

(** Meera's walk-in with the nights and the advance as typed. *)
Definition walk_in (roomId : uuid) (nights : option Z) (advance : float)
  : WalkInData.t float :=
  {| WalkInData.guestName := WalkInData.guestName (Sample.walk_in roomId);
     WalkInData.mobile := WalkInData.mobile (Sample.walk_in roomId);
     WalkInData.email := WalkInData.email (Sample.walk_in roomId);
     WalkInData.idType := WalkInData.idType (Sample.walk_in roomId);
     WalkInData.idNumber := WalkInData.idNumber (Sample.walk_in roomId);
     WalkInData.address := WalkInData.address (Sample.walk_in roomId);
     WalkInData.roomTypeId := WalkInData.roomTypeId (Sample.walk_in roomId);
     WalkInData.roomId := roomId;
     WalkInData.numberOfGuests := Some 1;
     WalkInData.nights := nights;
     WalkInData.advancePayment := advance;
     WalkInData.paymentMode := "cash" |}.

(** Half past midnight UTC on 9 March 2025 (the evening of 8 March in New
    York), with rooms 101 and 102 free and nobody in house. *)
Definition march_8_evening : World.t float :=
  Sample.world (dateToTime march_9 + 30 * 60000)
    [Sample.room101 vacant_clean; Sample.room102 vacant_clean] [] [] [] [].

(** The form of the guests page for room 102 with no advance. *)
Definition check_in_form (check_out_date : date) : CheckinForm.t float :=
  {| CheckinForm.room_id := Room.id (Sample.room102 vacant_clean);
     CheckinForm.check_out_date := check_out_date;
     CheckinForm.number_of_guests := Some 1;
     CheckinForm.advance_payment := 0%float;
     CheckinForm.id_proof_type := None;
     CheckinForm.id_proof_number := None |}.

(** Ravi's stay in room 102: checked in on the evening of [day0 + 1], due
    out on [day0 + 3]. *)
Definition stay102 : Booking.t float :=
  {| Booking.id := "7e8f9a0b-2222-4333-8444-555566667777";
     Booking.guest_id := Guest.id Sample.ravi;
     Booking.room_id := Room.id (Sample.room102 occupied);
     Booking.check_in_date := Sample.evening (Sample.day0 + 1);
     Booking.expected_check_out_date := Sample.day0 + 3;
     Booking.actual_check_out_date := None;
     Booking.number_of_guests := 1;
     Booking.advance_payment := Some 0%float;
     Booking.status := checked_in;
     Booking.checked_in_by := None;
     Booking.checked_out_by := None;
     Booking.guests := Sample.ravi;
     Booking.rooms :=
       {| BookingRoom.id := Room.id (Sample.room102 occupied);
          BookingRoom.room_number := "102";
          BookingRoom.room_types := Sample.standard |} |}.

(** The evening of [day0 + 2] with both rooms occupied. *)
Definition full_house : World.t float :=
  Sample.world (Sample.evening (Sample.day0 + 2))
    [Sample.room101 occupied; Sample.room102 occupied]
    [Sample.stay101; stay102] []
    [Sample.charge "c-1" Sample.day0 "room_rent" 1500;
     Sample.charge "c-2" (Sample.day0 + 1) "room_rent" 1500]
    [Sample.payment "p-1" 1000].

(** The same house half a second before the midnight that ends
    [day0 + 2]. *)
Definition before_midnight : World.t float :=
  Sample.world (dateToTime (Sample.day0 + 2) + LAST_SECOND + 500)
    [Sample.room101 occupied; Sample.room102 occupied]
    [Sample.stay101; stay102] []
    [Sample.charge "c-1" Sample.day0 "room_rent" 1500;
     Sample.charge "c-2" (Sample.day0 + 1) "room_rent" 1500]
    [Sample.payment "p-1" 1000].

(** A runtime none of whose requests gets through. *)
Definition cut_off : Runtime.t float := Sample.runtime (fun _ => true).

End Example.

(** The entry of [stay_history] for a booking, read from a database. *)
Definition stay_record {number : Type} (d : Db.t number) (b : Booking.t number)
  : StayRecord.t number :=
  {| StayRecord.booking := b;
     StayRecord.charges :=
       filter (fun c => String.eqb (FolioCharge.booking_id c) (Booking.id b))
              (Db.folio_charges d);
     StayRecord.payments :=
       filter (fun p => String.eqb (Payment.booking_id p) (Booking.id b))
              (Db.payments d) |}.

(** The number of stayovers of [today] in a list of bookings. *)
Definition stayovers_in {number : Type} (today : date)
  (l : list (Booking.t number)) : Z :=
  Z.of_nat (List.length (filter (stayover today) l)).


(** * Properties *)

Local Open Scope list_scope.

(** ** Arithmetic of the totals *)

Lemma fold_left_amounts {number A : Type} {N : Number number}
  (f : A -> number) (l : list A) (a : number) :
  fold_left (fun sum x => (sum + Number_ (f x))%num) l a
  = fold_left add (map f l) a.
Proof.
  revert a. induction l as [|x l IH]; intros a; simpl.
  - reflexivity.
  - unfold Number_ at 2. apply IH.
Qed.

(** In exact arithmetic the order of a sum does not matter: the sum from
    the left is the sum from the right. *)
Lemma sigma_exact_fold_right (amounts : list Qc) :
  sigma amounts = fold_right Qcplus 0%Qc amounts.
Proof.
  unfold sigma. simpl. change (Q2Qc (inject_Z 0)) with 0%Qc.
  assert (H : forall a, fold_left Qcplus amounts a
                        = (a + fold_right Qcplus 0%Qc amounts)%Qc).
  { induction amounts as [|x l IH]; intros a; simpl.
    - ring.
    - rewrite IH. ring. }
  rewrite H. ring.
Qed.

(** Zero times a finite rate, over 100, is a zero: [-0] for a negative
    rate. *)
Lemma zero_times_rate (c : float) :
  finite c = true ->
  ((0 * c) / 100 = 0 \/ (0 * c) / 100 = -0)%float.
Proof.
  unfold finite. intros H.
  assert (E : (0 * c = 0 \/ 0 * c = -0)%float).
  { destruct (Prim2SF c) as [[|]|[|]| |[|] m e] eqn:Ec; try discriminate;
      [right | left | right | left];
      apply Prim2SF_inj; rewrite mul_spec, Ec; reflexivity. }
  destruct E as [E | E]; rewrite E; [left | right]; reflexivity.
Qed.

(** Zero times a rate that is not finite is not a number. *)
Lemma zero_times_no_rate (c : float) :
  finite c = false -> ((0 * c) / 100)%float = nan.
Proof.
  unfold finite. intros H.
  assert (E : (0 * c)%float = nan).
  { destruct (Prim2SF c) as [[|]|[|]| |[|] m e] eqn:Ec; try discriminate;
      apply Prim2SF_inj; rewrite mul_spec, Ec; reflexivity. }
  rewrite E. reflexivity.
Qed.

(** ** What a handler leaves in place *)

(** For a reflexive and transitive relation, what a handler keeps follows
    from what the requests it sends keep. *)
Section Frames.
Context {number : Type} {N : Number number}.
Variable rt : Runtime.t number.
Variable R : Db.t number -> Db.t number -> Prop.
Hypothesis R_refl : forall d, R d d.
Hypothesis R_trans : forall a b c, R a b -> R b c -> R a c.

Lemma keeps_ret {A : Type} (a : A) : keeps R (ret a).
Proof. intros w. apply R_refl. Qed.

Lemma keeps_throw {A : Type} (message : string) : keeps R (@throw number A message).
Proof. intros w. apply R_refl. Qed.

Lemma keeps_alert (message : string) : keeps R (alert message).
Proof. intros w. apply R_refl. Qed.

Lemma keeps_Date_now : keeps R (@Date_now number).
Proof. intros w. apply R_refl. Qed.

Lemma keeps_bind {A B : Type} (m : Async number A) (k : A -> Async number B) :
  keeps R m -> (forall a, keeps R (k a)) -> keeps R (bind m k).
Proof.
  intros Hm Hk w. unfold bind.
  specialize (Hm w). destruct (m w) as [[a|e] w1]; simpl in *.
  - eapply R_trans; [exact Hm | apply Hk].
  - exact Hm.
Qed.

Lemma keeps_try_catch {A : Type} (body : Async number A)
  (handler : string -> Async number A) :
  keeps R body -> (forall e, keeps R (handler e)) -> keeps R (try_catch body handler).
Proof.
  intros Hm Hk w. unfold try_catch.
  specialize (Hm w). destruct (body w) as [[a|e] w1]; simpl in *.
  - exact Hm.
  - eapply R_trans; [exact Hm | apply Hk].
Qed.

Lemma keeps_request {A : Type} (q : Query number A) :
  keeps_query R q -> keeps R (request rt q).
Proof.
  intros Hq w. unfold request.
  destruct (Runtime.offline rt (World.sent w)); simpl.
  - apply R_refl.
  - specialize (Hq (World.db w)). destruct (q (World.db w)) as [r d]. exact Hq.
Qed.

Lemma keeps_for_each {A S : Type} (l : list A) (body : S -> A -> Async number S)
  (s : S) :
  (forall s x, keeps R (body s x)) -> keeps R (for_each l body s).
Proof.
  intros Hb. revert s. induction l as [|x l IH]; intros s; simpl.
  - apply keeps_ret.
  - apply keeps_bind; [apply Hb | intros s'; apply IH].
Qed.

Lemma keeps_select {A : Type} (table : Db.t number -> list A) (p : A -> bool) :
  keeps_query R (select table p).
Proof. intros d. apply R_refl. Qed.

Lemma keeps_single {A : Type} (q : Query number (list A)) :
  keeps_query R q -> keeps_query R (single q).
Proof.
  intros Hq d. unfold single. specialize (Hq d).
  destruct (q d) as [[[|x [|y l]]|m] d']; exact Hq.
Qed.

Lemma keeps_insert {A : Type} (table : Db.t number -> list A)
  (store : Db.t number -> list A -> Db.t number)
  (violation : Db.t number -> A -> option string) (held : A -> A)
  (row : uuid -> A) :
  (forall d id, violation d (row id) = None ->
                R d (next_serial (store d (table d ++ [held (row id)])))) ->
  keeps_query R (insert rt table store violation held row).
Proof.
  intros H d. unfold insert.
  destruct (violation d _) eqn:E; simpl.
  - apply R_refl.
  - apply H. exact E.
Qed.

Lemma keeps_update {A : Type} (table : Db.t number -> list A)
  (store : Db.t number -> list A -> Db.t number)
  (p : A -> bool) (change : A -> A) :
  (forall d l, R d (store d l)) ->
  keeps_query R (update table store p change).
Proof. intros H d. apply H. Qed.

Lemma keeps_insert_booking (b : NewBooking.t number) :
  (forall d row, Booking.room_id row = NewBooking.room_id b ->
                 R d (next_serial (with_bookings d (Db.bookings d ++ [row])))) ->
  keeps_query R (insert_booking rt b).
Proof.
  intros H d. unfold insert_booking.
  destruct (booking_numbers b) as [[n a]|m]; [|apply R_refl].
  destruct (find _ (Db.guests d)); [|apply R_refl].
  destruct (find _ (Db.rooms d)); [|apply R_refl].
  simpl. apply H. reflexivity.
Qed.

End Frames.

(** One step down the structure of a handler; [table] settles what an
    insert or an update does to the relation. *)
Ltac keeps_step table :=
  first
    [ apply keeps_ret; assumption
    | apply keeps_throw; assumption
    | apply keeps_alert; assumption
    | apply keeps_Date_now; assumption
    | apply keeps_bind; [assumption | | intros ?]
    | apply keeps_try_catch; [assumption | | intros ?]
    | apply keeps_for_each; [assumption | assumption | intros ? ?]
    | apply keeps_request; [assumption |]
    | apply keeps_single
    | apply keeps_select; assumption
    | apply keeps_insert; [assumption | intros ? ? ?; table]
    | apply keeps_update; intros ? ?; table
    | apply keeps_insert_booking; [assumption | intros ? ? ?; table]
    | match goal with
      | |- keeps _ (match ?x with _ => _ end) => destruct x eqn:?
      | |- keeps _ (let (_, _) := ?x in _) => destruct x eqn:?
      end ].

Ltac keeps_all table := repeat (keeps_step table).

Lemma documents_gained_refl {number : Type}
  (P : GuestDocument.t number -> Prop) (d : Db.t number) :
  documents_gained P d d.
Proof. exists []. split; [symmetry; apply app_nil_r | constructor]. Qed.

Lemma documents_gained_trans {number : Type}
  (P : GuestDocument.t number -> Prop) (a b c : Db.t number) :
  documents_gained P a b -> documents_gained P b c -> documents_gained P a c.
Proof.
  intros [l1 [H1 F1]] [l2 [H2 F2]]. exists (l1 ++ l2). split.
  - rewrite H2, H1. symmetry. apply app_assoc.
  - apply Forall_app. split; assumption.
Qed.

(** ** Totals *)

(** The document [archiveInvoice] stores carries, as its totals, the
    same formula over the folio it was given. *)
Lemma archiveInvoice_totals {number : Type} {N : Number number}
  (rt : Runtime.t number) (booking : Booking.t number)
  (folioCharges : list (FolioCharge.t number))
  (payments : list (Payment.t number)) (taxes : TaxConfig.t number) :
  keeps (documents_gained
           (fun doc =>
              DocumentData.charges (GuestDocument.document_data doc) = folioCharges
              /\ DocumentData.payments (GuestDocument.document_data doc) = payments
              /\ DocumentData.taxes (GuestDocument.document_data doc) = taxes
              /\ DocumentData.totals (GuestDocument.document_data doc)
                 = recomputed (GuestDocument.document_data doc)))
    (archiveInvoice rt booking folioCharges payments taxes).
Proof.
  match goal with
  | |- keeps (documents_gained ?P) _ =>
      pose proof (@documents_gained_refl number P) as Rr;
      pose proof (@documents_gained_trans number P) as Rt
  end.
  unfold archiveInvoice.
  keeps_all
    ltac:(unfold documents_gained; simpl; eexists; split;
          [ reflexivity
          | constructor; [repeat split | constructor] ]).
Qed.

(** C2. The folio totals computation returns the subtotal as the sum of
    the charge amounts, each tax as subtotal times rate over 100, the
    grand total as their sum, the total paid as the sum of the payment
    amounts and the balance as grand total minus total paid; on charges
    1500 and 1500 at 6 and 6 percent with one payment of 1000 it returns
    3000, 180, 180, 3360, 1000 and 2360; and the invoice the archive
    stores carries the totals of the same computation. *)
Theorem folio_totals_formula :
  (forall (number : Type) (N : Number number)
          (folioCharges : list (FolioCharge.t number))
          (payments : list (Payment.t number))
          (taxes : TaxConfig.t number),
      let t := calculateFolioTotal folioCharges payments taxes in
      let subtotal := sigma (map (@FolioCharge.amount number) folioCharges) in
      let cgst := ((subtotal * TaxConfig.cgst taxes) / of_Z 100)%num in
      let sgst := ((subtotal * TaxConfig.sgst taxes) / of_Z 100)%num in
      let grandTotal := (subtotal + cgst + sgst)%num in
      let totalPaid := sigma (map (@Payment.amount number) payments) in
      FolioTotal.subtotal t = subtotal
      /\ FolioTotal.cgstAmount t = cgst
      /\ FolioTotal.sgstAmount t = sgst
      /\ FolioTotal.grandTotal t = grandTotal
      /\ FolioTotal.totalPayments t = totalPaid
      /\ FolioTotal.balance t = (grandTotal - totalPaid)%num)
  /\ calculateFolioTotal
       [Sample.charge "c-1" Sample.day0 "room_rent" 1500;
        Sample.charge "c-2" (Sample.day0 + 1) "room_rent" 1500]
       [Sample.payment "p-1" 1000] (Sample.gst 6 6)
     = {| FolioTotal.subtotal := 3000%float;
          FolioTotal.cgstAmount := 180%float;
          FolioTotal.sgstAmount := 180%float;
          FolioTotal.grandTotal := 3360%float;
          FolioTotal.totalPayments := 1000%float;
          FolioTotal.balance := 2360%float |}
  /\ (forall (number : Type) (N : Number number) (rt : Runtime.t number)
             (booking : Booking.t number)
             (folioCharges : list (FolioCharge.t number))
             (payments : list (Payment.t number))
             (taxes : TaxConfig.t number) (w : World.t number),
         let t := calculateFolioTotal folioCharges payments taxes in
         exists produced,
           Db.guest_documents
             (World.db (snd (archiveInvoice rt booking folioCharges payments
                               taxes w)))
           = Db.guest_documents (World.db w) ++ produced
           /\ Forall (fun doc =>
                        DocumentData.totals (GuestDocument.document_data doc)
                        = {| Totals.subtotal := FolioTotal.subtotal t;
                             Totals.cgst_amount := FolioTotal.cgstAmount t;
                             Totals.sgst_amount := FolioTotal.sgstAmount t;
                             Totals.grand_total := FolioTotal.grandTotal t;
                             Totals.total_paid := FolioTotal.totalPayments t;
                             Totals.balance := FolioTotal.balance t |})
                     produced).
Proof.
  split; [|split].
  - intros number N folioCharges payments taxes.
    unfold calculateFolioTotal, sigma; simpl.
    rewrite !fold_left_amounts.
    repeat split; reflexivity.
  - vm_compute. reflexivity.
  - intros number N rt booking folioCharges payments taxes w t.
    destruct (archiveInvoice_totals rt booking folioCharges payments taxes w)
      as [produced [E F]].
    exists produced. split; [exact E |].
    apply (Forall_impl _ (P := fun doc =>
             DocumentData.charges (GuestDocument.document_data doc) = folioCharges
             /\ DocumentData.payments (GuestDocument.document_data doc) = payments
             /\ DocumentData.taxes (GuestDocument.document_data doc) = taxes
             /\ DocumentData.totals (GuestDocument.document_data doc)
                = recomputed (GuestDocument.document_data doc))); [| exact F].
    intros doc [Hc [Hp [Ht Htot]]]. rewrite Htot. unfold recomputed.
    rewrite Hc, Hp, Ht. reflexivity.
Qed.

(** C7, as stated, fails in the arithmetic the code runs in: for one
    charge of 1234 at 6 and 6 percent the computed grand total is the
    binary64 number nearest 1382.08, which is neither the closed form
    evaluated in binary64 nor the rational 1234 * (1 + 12/100). *)
Lemma closed_form_not_met_in_binary64 :
  let t := calculateFolioTotal
             [Sample.charge "c-1" Sample.day0 "room_rent" 1234] []
             (Sample.gst 6 6) in
  FolioTotal.grandTotal t <> closed_form (sigma [1234%float]) 6%float 6%float
  /\ forall q : Q,
       exact_value (FolioTotal.grandTotal t) = Some q ->
       ~ (q == 1234 * (1 + (6 + 6) / 100))%Q.
Proof.
  split.
  - intros H. apply (f_equal Prim2SF) in H.
    vm_compute in H. discriminate H.
  - intros q H. vm_compute in H. injection H as <-.
    intros E. vm_compute in E. discriminate E.
Qed.

(** C7, amended.  The grand total is the subtotal plus the two taxes,
    with no operation between the ones of the formula; in exact
    arithmetic that is the closed form, subtotal times (1 + (c + s)/100),
    and in binary64, where every operation rounds, it is the closed form
    when no operation has to round, as on the charges 1500 and 1500 at 6
    and 6 percent. *)
Theorem grand_total_closed_form :
  (forall (number : Type) (N : Number number)
          (folioCharges : list (FolioCharge.t number))
          (payments : list (Payment.t number))
          (taxes : TaxConfig.t number),
      let subtotal := sigma (map (@FolioCharge.amount number) folioCharges) in
      FolioTotal.grandTotal (calculateFolioTotal folioCharges payments taxes)
      = (subtotal + (subtotal * TaxConfig.cgst taxes) / of_Z 100
         + (subtotal * TaxConfig.sgst taxes) / of_Z 100)%num)
  /\ (forall (folioCharges : list (FolioCharge.t Qc))
             (payments : list (Payment.t Qc)) (taxes : TaxConfig.t Qc),
         FolioTotal.grandTotal (calculateFolioTotal folioCharges payments taxes)
         = closed_form (sigma (map (@FolioCharge.amount Qc) folioCharges))
             (TaxConfig.cgst taxes) (TaxConfig.sgst taxes))
  /\ (exists q : Q,
         exact_value
           (FolioTotal.grandTotal
              (calculateFolioTotal
                 [Sample.charge "c-1" Sample.day0 "room_rent" 1500;
                  Sample.charge "c-2" (Sample.day0 + 1) "room_rent" 1500]
                 [] (Sample.gst 6 6))) = Some q
         /\ (q == (1500 + 1500) * (1 + (6 + 6) / 100))%Q).
Proof.
  split; [|split].
  - intros number N folioCharges payments taxes.
    unfold calculateFolioTotal, sigma; simpl.
    rewrite fold_left_amounts. reflexivity.
  - intros folioCharges payments taxes.
    unfold calculateFolioTotal, closed_form, sigma.
    cbn [FolioTotal.grandTotal]. rewrite fold_left_amounts.
    generalize (fold_left add (map (@FolioCharge.amount Qc) folioCharges) (of_Z 0)).
    intros subtotal. simpl.
    change (Q2Qc (inject_Z 1)) with 1%Qc.
    field. discriminate.
  - eexists. split.
    + vm_compute. reflexivity.
    + vm_compute. reflexivity.
Qed.

(** ** Checkout *)

(** C1, on the code.  With the two inserts into the archive lost,
    [confirmCheckout] still closes the booking and frees the room, and
    tells the operator that the documents were archived: the results of
    [archiveInvoice] and [archiveGRC] are not read. *)
Theorem checkout_closes_without_archive :
  let w := snd (confirmCheckout (Sample.runtime Sample.archive_down)
                  (Some "u-1") (Some Sample.stay101)
                  (Some Sample.final_payment) (Sample.gst 6 6)
                  Sample.in_house) in
  Db.guest_documents (World.db w) = []
  /\ map (fun b => (Booking.id b, Booking.status b, Booking.checked_out_by b))
         (Db.bookings (World.db w))
     = [(Booking.id Sample.stay101, checked_out, Some "u-1")]
  /\ map (fun r => (Room.room_number r, Room.status r)) (Db.rooms (World.db w))
     = [("101", vacant_dirty); ("102", vacant_clean)]
  /\ map (@Payment.amount float) (Db.payments (World.db w))
     = [1000%float; 2360%float]
  /\ World.alerts w
     = ["Check-out completed successfully! Invoice and GRC have been archived."].
Proof.
  vm_compute. repeat split; reflexivity.
Qed.

Lemma payments_kept_refl {number : Type} (d : Db.t number) : payments_kept d d.
Proof. exists []. symmetry. apply app_nil_r. Qed.

Lemma payments_kept_trans {number : Type} (a b c : Db.t number) :
  payments_kept a b -> payments_kept b c -> payments_kept a c.
Proof.
  intros [l1 H1] [l2 H2]. exists (l1 ++ l2).
  rewrite H2, H1. symmetry. apply app_assoc.
Qed.

Ltac payments_table :=
  unfold payments_kept; simpl;
  first [ exists []; symmetry; apply app_nil_r | eexists; reflexivity ].

Lemma confirmCheckout_payments {number : Type} {N : Number number}
  (rt : Runtime.t number) (user : option uuid)
  (selectedBooking : option (Booking.t number))
  (checkoutPaymentData : option (CheckoutPaymentData.t number))
  (taxes : TaxConfig.t number) :
  keeps payments_kept
    (confirmCheckout rt user selectedBooking checkoutPaymentData taxes).
Proof.
  pose proof (@payments_kept_refl number) as Rr.
  pose proof (@payments_kept_trans number) as Rt.
  unfold confirmCheckout, archiveInvoice, archiveGRC.
  keeps_all payments_table.
Qed.

(** What the checks of a table say of an amount the column takes. *)
Lemma amount_accepted {number : Type} {N : Number number}
  (amount stored : number) :
  decimal_10_2 amount = accepted stored ->
  amount_violation amount = None /\ amount_held amount = stored.
Proof.
  intros E. unfold amount_violation, amount_held. rewrite E. split; reflexivity.
Qed.

(** An amount is refused exactly when its column does not take it. *)
Lemma amount_refused {number : Type} {N : Number number} (amount : number) :
  (forall stored, decimal_10_2 amount <> accepted stored) ->
  amount_violation amount <> None.
Proof.
  intros H. unfold amount_violation.
  destruct (decimal_10_2 amount) as [a| |]; try discriminate.
  exfalso. exact (H a eq_refl).
Qed.

(** A charge of a type the schema knows, with an amount its column
    holds, is stored as sent. *)
Lemma insert_charge_stored {number : Type} {N : Number number}
  (rt : Runtime.t number) (row : uuid -> FolioCharge.t number)
  (d : Db.t number) :
  column_value (FolioCharge.amount (row (Runtime.gen_random_uuid rt (Db.serial d)))) ->
  valid_charge_type
    (FolioCharge.charge_type (row (Runtime.gen_random_uuid rt (Db.serial d))))
  = true ->
  insert rt (@Db.folio_charges number) (@with_folio_charges number)
    (@folio_charges_violation number _) (@folio_charges_held number _) row d
  = (Data (row (Runtime.gen_random_uuid rt (Db.serial d))),
     next_serial
       (with_folio_charges d
          (Db.folio_charges d
           ++ [row (Runtime.gen_random_uuid rt (Db.serial d))]))).
Proof.
  intros Hcol Hvalid. destruct (@amount_accepted _ _ _ _ Hcol) as [Hv Hh].
  unfold insert, folio_charges_violation. rewrite Hv, Hvalid.
  assert (E : folio_charges_held (row (Runtime.gen_random_uuid rt (Db.serial d)))
              = row (Runtime.gen_random_uuid rt (Db.serial d))).
  { unfold folio_charges_held. rewrite Hh.
    destruct (row (Runtime.gen_random_uuid rt (Db.serial d))). reflexivity. }
  rewrite E. reflexivity.
Qed.

(** A payment in a mode the schema knows, with an amount its column
    holds, is stored as sent. *)
Lemma insert_payment_stored {number : Type} {N : Number number}
  (rt : Runtime.t number) (row : uuid -> Payment.t number) (d : Db.t number) :
  column_value (Payment.amount (row (Runtime.gen_random_uuid rt (Db.serial d)))) ->
  valid_payment_mode
    (Payment.payment_mode (row (Runtime.gen_random_uuid rt (Db.serial d))))
  = true ->
  insert rt (@Db.payments number) (@with_payments number)
    (@payments_violation number _) (@payments_held number _) row d
  = (Data (row (Runtime.gen_random_uuid rt (Db.serial d))),
     next_serial
       (with_payments d
          (Db.payments d ++ [row (Runtime.gen_random_uuid rt (Db.serial d))]))).
Proof.
  intros Hcol Hvalid. destruct (@amount_accepted _ _ _ _ Hcol) as [Hv Hh].
  unfold insert, payments_violation. rewrite Hv, Hvalid.
  assert (E : payments_held (row (Runtime.gen_random_uuid rt (Db.serial d)))
              = row (Runtime.gen_random_uuid rt (Db.serial d))).
  { unfold payments_held. rewrite Hh.
    destruct (row (Runtime.gen_random_uuid rt (Db.serial d))). reflexivity. }
  rewrite E. reflexivity.
Qed.

(** Where the zone keeps one offset, [setDate] moves an instant by whole
    days. *)
Lemma addDays_fixed_offset {number : Type} (rt : Runtime.t number)
  (t : timestamp) (i : Z) :
  fixed_offset rt -> addDays rt t i = t + i * MS_PER_DAY.
Proof.
  intros [offset H]. unfold addDays, UTC, LocalTime. rewrite !H. lia.
Qed.

(** Once the final payment is stored, the rest of checkout is the
    checkout without a final payment. *)
Lemma confirmCheckout_after_payment {number : Type} {N : Number number}
  (rt : Runtime.t number) (user : option uuid)
  (selectedBooking : Booking.t number)
  (payment : CheckoutPaymentData.t number) (stored : number)
  (taxes : TaxConfig.t number) (w : World.t number) :
  gt (CheckoutPaymentData.amount payment) (of_Z 0) = true ->
  decimal_10_2 (CheckoutPaymentData.amount payment) = accepted stored ->
  valid_payment_mode (CheckoutPaymentData.mode payment) = true ->
  Runtime.offline rt (World.sent w) = false ->
  confirmCheckout rt user (Some selectedBooking) (Some payment) taxes w
  = confirmCheckout rt user (Some selectedBooking) None taxes
      {| World.db :=
           next_serial
             (with_payments (World.db w)
                (Db.payments (World.db w)
                 ++ [{| Payment.id :=
                          Runtime.gen_random_uuid rt (Db.serial (World.db w));
                        Payment.booking_id := Booking.id selectedBooking;
                        Payment.payment_date := World.clock w;
                        Payment.amount := stored;
                        Payment.payment_mode := CheckoutPaymentData.mode payment;
                        Payment.received_by := user |}]));
         World.sent := S (World.sent w);
         World.alerts := World.alerts w;
         World.clock := World.clock w |}.
Proof.
  intros Hgt Hdec Hmode Hup.
  destruct (@amount_accepted _ _ _ _ Hdec) as [Hv Hh].
  unfold confirmCheckout, try_catch, bind at 1 2 3 4 5 6 7 8.
  rewrite Hgt. unfold bind at 1 2, Date_now at 1, request at 1.
  rewrite Hup. unfold insert, payments_violation, payments_held.
  cbn [Payment.amount Payment.payment_mode Payment.id Payment.booking_id
       Payment.payment_date Payment.received_by].
  rewrite Hv, Hh, Hmode. reflexivity.
Qed.

(** C8. Checkout never deletes or changes a payment row, whatever
    happens to the archive: whichever requests are lost, the payments
    after [confirmCheckout] are the payments before it followed by what
    was added; and a final payment that was stored (a positive amount
    that its [decimal(10,2)] column takes, in a mode the schema knows,
    sent while the backend answers) stays stored as the column holds it,
    first among the rows added, however the rest of the checkout goes. *)
Theorem checkout_keeps_payments :
  forall (number : Type) (N : Number number) (rt : Runtime.t number)
         (user : option uuid) (taxes : TaxConfig.t number) (w : World.t number),
    (forall (selectedBooking : option (Booking.t number))
            (checkoutPaymentData : option (CheckoutPaymentData.t number)),
        exists added,
          Db.payments
            (World.db (snd (confirmCheckout rt user selectedBooking
                              checkoutPaymentData taxes w)))
          = Db.payments (World.db w) ++ added)
    /\ (forall (selectedBooking : Booking.t number)
               (payment : CheckoutPaymentData.t number) (stored : number),
           gt (CheckoutPaymentData.amount payment) (of_Z 0) = true ->
           decimal_10_2 (CheckoutPaymentData.amount payment) = accepted stored ->
           valid_payment_mode (CheckoutPaymentData.mode payment) = true ->
           Runtime.offline rt (World.sent w) = false ->
           exists id added,
             Db.payments
               (World.db (snd (confirmCheckout rt user (Some selectedBooking)
                                 (Some payment) taxes w)))
             = Db.payments (World.db w)
               ++ {| Payment.id := id;
                     Payment.booking_id := Booking.id selectedBooking;
                     Payment.payment_date := World.clock w;
                     Payment.amount := stored;
                     Payment.payment_mode := CheckoutPaymentData.mode payment;
                     Payment.received_by := user |} :: added).
Proof.
  intros number N rt user taxes w. split.
  - intros selectedBooking checkoutPaymentData.
    apply (confirmCheckout_payments rt user selectedBooking
             checkoutPaymentData taxes w).
  - intros selectedBooking payment stored Hgt Hdec Hmode Hup.
    rewrite (@confirmCheckout_after_payment number N rt user selectedBooking
               payment stored taxes w Hgt Hdec Hmode Hup).
    match goal with
    | |- context [confirmCheckout rt user (Some selectedBooking) None taxes ?w1] =>
        destruct (confirmCheckout_payments rt user (Some selectedBooking) None
                    taxes w1) as [added E]
    end.
    eexists _, added. rewrite E. simpl.
    rewrite <- app_assoc. reflexivity.
Qed.

Lemma checkout_keeps_payments_witness :
  map (fun p => (Payment.amount p, Payment.payment_mode p))
      (Db.payments
         (World.db (snd (confirmCheckout (Sample.runtime Sample.archive_down)
                           (Some "u-1") (Some Sample.stay101)
                           (Some Sample.final_payment) (Sample.gst 6 6)
                           Sample.in_house))))
  = [(1000%float, "cash"); (2360%float, "upi")]
  /\ exists id added,
       Db.payments
         (World.db (snd (confirmCheckout (Sample.runtime Sample.archive_down)
                           (Some "u-1") (Some Sample.stay101)
                           (Some Sample.final_payment) (Sample.gst 6 6)
                           Sample.in_house)))
       = Db.payments (World.db Sample.in_house)
         ++ {| Payment.id := id;
               Payment.booking_id := Booking.id Sample.stay101;
               Payment.payment_date := World.clock Sample.in_house;
               Payment.amount := 2360%float;
               Payment.payment_mode := "upi";
               Payment.received_by := Some "u-1" |} :: added.
Proof.
  split; [vm_compute; reflexivity |].
  apply (proj2 (@checkout_keeps_payments float binary64
                  (Sample.runtime Sample.archive_down) (Some "u-1")
                  (Sample.gst 6 6) Sample.in_house)
           Sample.stay101 Sample.final_payment 2360%float
           eq_refl eq_refl eq_refl eq_refl).
Defined.

(** The totals of an empty folio are zeros exactly when the rates are
    finite. *)
Lemma empty_folio_binary64 (taxes : TaxConfig.t float) :
  let t := calculateFolioTotal [] [] taxes in
  PrimFloat.eqb (FolioTotal.subtotal t) 0 = true
  /\ PrimFloat.eqb (FolioTotal.cgstAmount t) 0 = true
  /\ PrimFloat.eqb (FolioTotal.sgstAmount t) 0 = true
  /\ PrimFloat.eqb (FolioTotal.grandTotal t) 0 = true
  /\ PrimFloat.eqb (FolioTotal.totalPayments t) 0 = true
  /\ PrimFloat.eqb (FolioTotal.balance t) 0 = true
  <-> finite (TaxConfig.cgst taxes) = true /\ finite (TaxConfig.sgst taxes) = true.
Proof.
  unfold calculateFolioTotal. simpl.
  change (float_of_Z 100) with 100%float.
  split.
  - intros [_ [Hc [Hs _]]]. split.
    + destruct (finite (TaxConfig.cgst taxes)) eqn:F; [reflexivity |].
      rewrite (zero_times_no_rate _ F) in Hc. discriminate Hc.
    + destruct (finite (TaxConfig.sgst taxes)) eqn:F; [reflexivity |].
      rewrite (zero_times_no_rate _ F) in Hs. discriminate Hs.
  - intros [Hc Hs].
    destruct (zero_times_rate _ Hc) as [Ec | Ec],
             (zero_times_rate _ Hs) as [Es | Es];
      rewrite Ec, Es; repeat split; reflexivity.
Qed.

(** An invoice reproduces its totals as it is built; a registration card
    does, up to the sign of a zero, exactly when the rates are finite. *)
Ltac documents_table :=
  unfold documents_gained; simpl;
  first
    [ exists []; split; [symmetry; apply app_nil_r | constructor]
    | eexists; split;
      [ reflexivity
      | constructor; [| constructor];
        unfold reproduces, strictly_equal, recomputed;
        cbn [GuestDocument.document_data GuestDocument.document_type
             DocumentData.charges DocumentData.payments DocumentData.taxes
             DocumentData.totals Totals.subtotal Totals.cgst_amount
             Totals.sgst_amount Totals.grand_total Totals.total_paid
             Totals.balance];
        split; [first [left; reflexivity | right; reflexivity] |];
        split;
        [ let Hd := fresh "Hd" in
          intros Hd; first [reflexivity | discriminate Hd]
        | let Hd := fresh "Hd" in
          intros Hd;
          first [ discriminate Hd
                | exact (empty_folio_binary64 _) ] ] ] ].

(** Checkout adds to the archive only documents that reproduce their own
    totals. *)
Lemma checkout_documents_reproduce (rt : Runtime.t float) (user : option uuid)
  (selectedBooking : option (Booking.t float))
  (checkoutPaymentData : option (CheckoutPaymentData.t float))
  (taxes : TaxConfig.t float) :
  keeps (documents_gained (reproduces taxes))
    (confirmCheckout rt user selectedBooking checkoutPaymentData taxes).
Proof.
  pose proof (@documents_gained_refl float (reproduces taxes)) as Rr.
  pose proof (@documents_gained_trans float (reproduces taxes)) as Rt.
  unfold confirmCheckout, archiveInvoice, archiveGRC.
  keeps_all documents_table.
Qed.

(** C5. Every document checkout adds to the archive, whichever requests
    are lost, is an invoice or a registration card.  An invoice stores the
    very subtotal, tax amounts, grand total, total paid and balance that
    the formula gives again on the charges, payments and tax rates of its
    payload.  A registration card stores zeros beside an empty folio, and
    the formula gives numbers that are [===] to them exactly when the two
    rates are finite, whatever their sign (a negative rate gives the tax
    amount -0, which is written 0 in JSON; a rate that is no number gives
    NaN).  At the rates -6 and 6 the run of the sample stay archives both
    documents, and the recomputed CGST of the card is -0. *)
Theorem archived_totals_reproduce :
  (forall (rt : Runtime.t float) (user : option uuid)
          (selectedBooking : option (Booking.t float))
          (checkoutPaymentData : option (CheckoutPaymentData.t float))
          (taxes : TaxConfig.t float) (w : World.t float),
      exists produced,
        Db.guest_documents
          (World.db (snd (confirmCheckout rt user selectedBooking
                            checkoutPaymentData taxes w)))
        = Db.guest_documents (World.db w) ++ produced
        /\ Forall (fun doc =>
                     (GuestDocument.document_type doc = "invoice"
                      \/ GuestDocument.document_type doc = "grc")
                     /\ (GuestDocument.document_type doc = "invoice" ->
                         recomputed (GuestDocument.document_data doc)
                         = DocumentData.totals (GuestDocument.document_data doc))
                     /\ (GuestDocument.document_type doc = "grc" ->
                         (strictly_equal
                            (recomputed (GuestDocument.document_data doc))
                            (DocumentData.totals (GuestDocument.document_data doc))
                          <-> finite (TaxConfig.cgst taxes) = true
                              /\ finite (TaxConfig.sgst taxes) = true)))
                  produced)
  /\ map (fun doc =>
            (GuestDocument.document_type doc,
             Prim2SF (Totals.cgst_amount
                        (recomputed (GuestDocument.document_data doc))),
             Prim2SF (Totals.cgst_amount
                        (DocumentData.totals (GuestDocument.document_data doc)))))
         (Db.guest_documents
            (World.db (snd (confirmCheckout (Sample.runtime Sample.reachable)
                              (Some "u-1") (Some Sample.stay101)
                              (Some Sample.final_payment)
                              (Sample.gst (-6) 6) Sample.in_house))))
     = [("invoice", Prim2SF (-180), Prim2SF (-180));
        ("grc", S754_zero true, S754_zero false)].
Proof.
  split.
  - intros rt user selectedBooking checkoutPaymentData taxes w.
    exact (checkout_documents_reproduce rt user selectedBooking
             checkoutPaymentData taxes w).
  - vm_compute. reflexivity.
Qed.

Lemma archived_totals_reproduce_witness :
  Forall (fun doc =>
            GuestDocument.document_type doc = "grc" ->
            strictly_equal (recomputed (GuestDocument.document_data doc))
                           (DocumentData.totals (GuestDocument.document_data doc)))
         (Db.guest_documents
            (World.db (snd (confirmCheckout (Sample.runtime Sample.reachable)
                              (Some "u-1") (Some Sample.stay101)
                              (Some Sample.final_payment)
                              (Sample.gst (-6) 6) Sample.in_house)))).
Proof.
  destruct (proj1 archived_totals_reproduce (Sample.runtime Sample.reachable)
              (Some "u-1") (Some Sample.stay101) (Some Sample.final_payment)
              (Sample.gst (-6) 6) Sample.in_house) as [produced [E F]].
  rewrite E. simpl.
  apply (Forall_impl _ (P := fun doc =>
           (GuestDocument.document_type doc = "invoice"
            \/ GuestDocument.document_type doc = "grc")
           /\ (GuestDocument.document_type doc = "invoice" ->
               recomputed (GuestDocument.document_data doc)
               = DocumentData.totals (GuestDocument.document_data doc))
           /\ (GuestDocument.document_type doc = "grc" ->
               (strictly_equal
                  (recomputed (GuestDocument.document_data doc))
                  (DocumentData.totals (GuestDocument.document_data doc))
                <-> finite (-6) = true /\ finite 6 = true))));
    [| exact F].
  intros doc [_ [_ H]] Hd. exact (proj2 (H Hd) (conj eq_refl eq_refl)).
Defined.

(** ** Check-in *)

Lemma folio_unchanged_refl {number : Type} (d : Db.t number) :
  folio_unchanged d d.
Proof. reflexivity. Qed.

Lemma folio_unchanged_trans {number : Type} (a b c : Db.t number) :
  folio_unchanged a b -> folio_unchanged b c -> folio_unchanged a c.
Proof. unfold folio_unchanged. intros H1 H2. rewrite H2. exact H1. Qed.

(** The schema admits no charge of type 'room'. *)
Lemma room_charge_rejected {number : Type} {N : Number number}
  (d : Db.t number) (r : FolioCharge.t number) :
  FolioCharge.charge_type r = "room" -> folio_charges_violation d r <> None.
Proof.
  intros E. unfold folio_charges_violation. rewrite E.
  destruct (amount_violation (FolioCharge.amount r)); discriminate.
Qed.

Ltac folio_table :=
  first
    [ match goal with
      | H : folio_charges_violation ?d ?r = None |- _ =>
          exfalso; exact (room_charge_rejected d r eq_refl H)
      end
    | reflexivity ].

Lemma processCheckIn_folio {number : Type} {N : Number number}
  (rt : Runtime.t number) (user : option uuid)
  (availableRooms : list (Room.t number))
  (selectedReservation : option (Reservation.t number)) (selectedRoom : string) :
  keeps folio_unchanged
    (processCheckIn rt user availableRooms selectedReservation selectedRoom).
Proof.
  pose proof (@folio_unchanged_refl number) as Rr.
  pose proof (@folio_unchanged_trans number) as Rt.
  unfold processCheckIn. keeps_all folio_table.
Qed.

Lemma processWalkIn_folio {number : Type} {N : Number number}
  (rt : Runtime.t number) (user : option uuid)
  (availableRooms : list (Room.t number)) (walkInData : WalkInData.t number) :
  keeps folio_unchanged (processWalkIn rt user availableRooms walkInData).
Proof.
  pose proof (@folio_unchanged_refl number) as Rr.
  pose proof (@folio_unchanged_trans number) as Rt.
  unfold processWalkIn. keeps_all folio_table.
Qed.

(** C9, on the code.  The charge a check-in sends has type 'room', which
    the CHECK constraint of [folio_charges] rejects; the response is not
    read, so neither desk ever adds a row to the folio, and a check-in
    that the operator is told succeeded leaves the booking open for two
    nights with no charge of its own. *)
Theorem check_in_posts_no_charge :
  (forall (number : Type) (N : Number number) (rt : Runtime.t number)
          (user : option uuid) (availableRooms : list (Room.t number))
          (selectedReservation : option (Reservation.t number))
          (selectedRoom : string) (walkInData : WalkInData.t number)
          (w : World.t number),
      Db.folio_charges
        (World.db (snd (processCheckIn rt user availableRooms
                          selectedReservation selectedRoom w)))
      = Db.folio_charges (World.db w)
      /\ Db.folio_charges
           (World.db (snd (processWalkIn rt user availableRooms walkInData w)))
         = Db.folio_charges (World.db w))
  /\ (let w := snd (checkInDesk (Sample.runtime Sample.reachable) (Some "u-1")
                      (Some Sample.arrival)
                      (Room.id (Sample.room102 vacant_clean)) Sample.in_house) in
      map (fun b => (Booking.room_id b, Booking.status b,
                     Booking.expected_check_out_date b - toISODate (Booking.check_in_date b)))
          (Db.bookings (World.db w))
      = [(Room.id (Sample.room101 occupied), checked_in, 2);
         (Room.id (Sample.room102 vacant_clean), checked_in, 2)]
      /\ map (@Room.status float) (Db.rooms (World.db w)) = [occupied; occupied]
      /\ World.alerts w = ["Guest Ravi Kumar checked in successfully to Room 102!"]
      /\ filter (fun c => String.eqb (FolioCharge.charge_type c) "room")
                (Db.folio_charges (World.db w)) = []
      /\ Db.folio_charges (World.db w) = Db.folio_charges (World.db Sample.in_house)).
Proof.
  split.
  - intros number N rt user availableRooms selectedReservation selectedRoom
           walkInData w.
    split.
    + apply (processCheckIn_folio rt user availableRooms selectedReservation
               selectedRoom w).
    + apply (processWalkIn_folio rt user availableRooms walkInData w).
  - vm_compute. repeat split; reflexivity.
Qed.

Lemma checked_into_refl {number : Type} (availableRooms : list (Room.t number))
  (selectedRoom : uuid) (d : Db.t number) :
  checked_into availableRooms selectedRoom d d.
Proof. exists []. split; [symmetry; apply app_nil_r | constructor]. Qed.

Lemma checked_into_trans {number : Type} (availableRooms : list (Room.t number))
  (selectedRoom : uuid) (a b c : Db.t number) :
  checked_into availableRooms selectedRoom a b ->
  checked_into availableRooms selectedRoom b c ->
  checked_into availableRooms selectedRoom a c.
Proof.
  intros [l1 [H1 F1]] [l2 [H2 F2]]. exists (l1 ++ l2). split.
  - rewrite H2, H1. symmetry. apply app_assoc.
  - apply Forall_app. split; assumption.
Qed.

(** What [find] by id returns is a room of the list with that id. *)
Lemma find_room_by_id {number : Type} (rooms : list (Room.t number))
  (id : uuid) (room : Room.t number) :
  find (fun r => String.eqb (Room.id r) id) rooms = Some room ->
  In room rooms /\ Room.id room = id.
Proof.
  intros H. apply find_some in H. destruct H as [Hin Heq].
  split; [exact Hin | apply String.eqb_eq; exact Heq].
Qed.

Ltac bookings_table :=
  unfold checked_into; simpl;
  first
    [ exists []; split; [symmetry; apply app_nil_r | constructor]
    | eexists; split;
      [ reflexivity
      | constructor; [| constructor];
        match goal with
        | H : find _ _ = Some ?room |- _ =>
            apply find_room_by_id in H; destruct H as [? ?];
            split; [assumption | exists room; split; assumption]
        end ] ].

Lemma processCheckIn_bookings {number : Type} {N : Number number}
  (rt : Runtime.t number) (user : option uuid)
  (availableRooms : list (Room.t number))
  (selectedReservation : option (Reservation.t number)) (selectedRoom : string) :
  keeps (checked_into availableRooms selectedRoom)
    (processCheckIn rt user availableRooms selectedReservation selectedRoom).
Proof.
  pose proof (@checked_into_refl number availableRooms selectedRoom) as Rr.
  pose proof (@checked_into_trans number availableRooms selectedRoom) as Rt.
  unfold processCheckIn. keeps_all bookings_table.
Qed.

Lemma processWalkIn_bookings {number : Type} {N : Number number}
  (rt : Runtime.t number) (user : option uuid)
  (availableRooms : list (Room.t number)) (walkInData : WalkInData.t number) :
  keeps (checked_into availableRooms (WalkInData.roomId walkInData))
    (processWalkIn rt user availableRooms walkInData).
Proof.
  pose proof (@checked_into_refl number availableRooms
                (WalkInData.roomId walkInData)) as Rr.
  pose proof (@checked_into_trans number availableRooms
                (WalkInData.roomId walkInData)) as Rt.
  unfold processWalkIn. keeps_all bookings_table.
Qed.

(** A check-in into a room that is not among the candidates creates no
    booking. *)
Lemma checked_into_none {number : Type} (availableRooms : list (Room.t number))
  (selectedRoom : uuid) (d d' : Db.t number) :
  (forall r, In r availableRooms -> Room.id r <> selectedRoom) ->
  checked_into availableRooms selectedRoom d d' ->
  Db.bookings d' = Db.bookings d.
Proof.
  intros Hnone [created [E F]]. destruct created as [|b l].
  - rewrite E. apply app_nil_r.
  - apply Forall_inv in F. destruct F as [_ [r [Hin Hid]]].
    exfalso. exact (Hnone r Hin Hid).
Qed.

(** [loadData] offers rooms of the database that are vacant and clean,
    and leaves the database as it is. *)
Lemma loadData_candidates {number : Type} {N : Number number}
  (rt : Runtime.t number) (w : World.t number) :
  World.db (snd (loadData rt w)) = World.db w
  /\ exists availableRooms,
       fst (loadData rt w) = Returned availableRooms
       /\ Forall (fun r => In r (Db.rooms (World.db w))
                           /\ Room.status r = vacant_clean) availableRooms.
Proof.
  unfold loadData, bind, request, select, ret.
  destruct (Runtime.offline rt (World.sent w)); simpl.
  - split; [reflexivity | exists []; split; [reflexivity | constructor]].
  - split; [reflexivity |]. eexists. split; [reflexivity |].
    apply Forall_forall. intros r Hr. apply filter_In in Hr.
    destruct Hr as [Hin Hst]. split; [exact Hin |].
    destruct (Room.status r); simpl in Hst; try discriminate. reflexivity.
Qed.




(** ** Night audit *)

Lemma request_online {number A : Type} (rt : Runtime.t number)
  (q : Query number A) (w : World.t number) :
  online rt ->
  request rt q w
  = (Returned (fst (q (World.db w))),
     {| World.db := snd (q (World.db w)); World.sent := S (World.sent w);
        World.alerts := World.alerts w; World.clock := World.clock w |}).
Proof.
  intros H. unfold request. rewrite H.
  destruct (q (World.db w)); reflexivity.
Qed.

Lemma room_rent_on_app {number : Type} (id : uuid) (today : date)
  (l p : list (FolioCharge.t number)) :
  room_rent_on id today (l ++ p) = room_rent_on id today l ++ room_rent_on id today p.
Proof. unfold room_rent_on. apply filter_app. Qed.

Lemma room_rent_on_rent {number : Type} (id : uuid) (today : date)
  (c : FolioCharge.t number) :
  rent_of today c ->
  room_rent_on id today [c]
  = if String.eqb (FolioCharge.booking_id c) id then [c] else [].
Proof.
  intros [Hd Ht]. unfold room_rent_on. simpl.
  rewrite Hd, Ht, Z.eqb_refl. simpl.
  destruct (String.eqb (FolioCharge.booking_id c) id); reflexivity.
Qed.

(** One turn of the loop, with the backend reachable: it ends normally,
    touches only the folio, and appends one room-rent charge of [today]
    for the booking exactly when [audit_posts] says so. *)
Lemma auditBooking_online {number : Type} {N : Number number}
  (rt : Runtime.t number) (user : option uuid) (today : date)
  (counters : Z * number) (b : Booking.t number) (w : World.t number) :
  online rt ->
  column_value (RoomType.base_rate (BookingRoom.room_types (Booking.rooms b))) ->
  exists counters' w' posted,
    auditBooking rt user today counters b w = (Returned counters', w')
    /\ Db.folio_charges (World.db w') = Db.folio_charges (World.db w) ++ posted
    /\ Db.bookings (World.db w') = Db.bookings (World.db w)
    /\ World.clock w' = World.clock w
    /\ World.alerts w' = World.alerts w
    /\ if audit_posts today (Db.folio_charges (World.db w)) b
       then exists c, posted = [c] /\ rent_of today c
                      /\ FolioCharge.booking_id c = Booking.id b
                      /\ FolioCharge.amount c
                         = RoomType.base_rate (BookingRoom.room_types (Booking.rooms b))
       else posted = [] /\ counters' = counters.
Proof.
  intros Hon Hcol. destruct (@amount_accepted _ _ _ _ Hcol) as [Hv Hh].
  unfold auditBooking, audit_posts, stayover.
  destruct counters as [chargesPosted totalAmount].
  destruct (toISODate (Booking.check_in_date b) <? today); simpl.
  - unfold bind. rewrite (request_online _ _ Hon). unfold select. simpl.
    fold (room_rent_on (Booking.id b) today (Db.folio_charges (World.db w))).
    destruct (room_rent_on (Booking.id b) today (Db.folio_charges (World.db w)))
      as [|c l].
    + rewrite (request_online _ _ Hon).
      unfold insert, folio_charges_violation, folio_charges_held.
      cbn [FolioCharge.amount FolioCharge.charge_type]. rewrite Hv, Hh. simpl.
      eexists _, _, _. split; [reflexivity |]. simpl.
      repeat split; eexists; repeat split; reflexivity.
    + unfold ret. eexists _, _, []. split; [reflexivity |]. simpl.
      rewrite app_nil_r. repeat split; reflexivity.
  - unfold ret. eexists _, _, []. split; [reflexivity |].
    rewrite app_nil_r. repeat split; reflexivity.
Qed.

(** The whole loop, with the backend reachable: what it appends to the
    folio holds one room-rent charge of [today] for an id exactly when the
    folio held none and the list holds a stayover with that id. *)
Lemma audit_loop_online {number : Type} {N : Number number}
  (rt : Runtime.t number) (user : option uuid) (today : date) :
  online rt ->
  forall (l : list (Booking.t number)) (counters : Z * number) (w : World.t number),
  Forall (fun b => column_value
                     (RoomType.base_rate (BookingRoom.room_types (Booking.rooms b))))
         l ->
  exists counters' w' posted,
    for_each l (auditBooking rt user today) counters w = (Returned counters', w')
    /\ Db.folio_charges (World.db w') = Db.folio_charges (World.db w) ++ posted
    /\ Db.bookings (World.db w') = Db.bookings (World.db w)
    /\ World.clock w' = World.clock w
    /\ Forall (rent_of today) posted
    /\ forall id,
         List.length (room_rent_on id today posted)
         = match room_rent_on id today (Db.folio_charges (World.db w)) with
           | [] => if has_stayover today id l then 1%nat else 0%nat
           | _ :: _ => 0%nat
           end.
Proof.
  intros Hon. induction l as [|b l IH]; intros counters w Hcol.
  - exists counters, w, []. simpl. rewrite app_nil_r.
    repeat split; try constructor.
    intros id. destruct (room_rent_on id today _); reflexivity.
  - inversion Hcol as [|b' l' Hrate Hrates]; subst b' l'.
    destruct (auditBooking_online user today counters b w Hon Hrate)
      as [c1 [w1 [p1 [E1 [F1 [B1 [C1 [_ P1]]]]]]]].
    destruct (IH c1 w1 Hrates) as [c2 [w2 [p2 [E2 [F2 [B2 [C2 [R2 Hcount]]]]]]]].
    exists c2, w2, (p1 ++ p2). simpl. unfold bind. rewrite E1, E2.
    split; [reflexivity |].
    split; [rewrite F2, F1; symmetry; apply app_assoc |].
    split; [rewrite B2; exact B1 |].
    split; [rewrite C2; exact C1 |].
    assert (Hp1 : Forall (rent_of today) p1).
    { destruct (audit_posts today _ b).
      - destruct P1 as [c [-> [Hr _]]]. constructor; [exact Hr | constructor].
      - destruct P1 as [-> _]. constructor. }
    split; [apply Forall_app; split; assumption |].
    intros id. rewrite room_rent_on_app, length_app.
    specialize (Hcount id). rewrite F1, room_rent_on_app in Hcount.
    rewrite Hcount. clear Hcount.
    unfold audit_posts in P1.
    destruct (String.eqb (Booking.id b) id) eqn:Eid.
    + apply String.eqb_eq in Eid. subst id.
      destruct (room_rent_on (Booking.id b) today (Db.folio_charges (World.db w)))
        as [|c0 l0] eqn:Eold.
      * destruct (stayover today b) eqn:Est; simpl in P1 |- *.
        -- destruct P1 as [c [-> [Hr [Hb _]]]].
           rewrite (room_rent_on_rent _ Hr), Hb, String.eqb_refl. reflexivity.
        -- destruct P1 as [-> _]. reflexivity.
      * rewrite andb_false_r in P1. destruct P1 as [-> _]. reflexivity.
    + assert (Hnone : room_rent_on id today p1 = []).
      { destruct (_ && _) in P1.
        - destruct P1 as [c [-> [Hr [Hb _]]]].
          rewrite (room_rent_on_rent _ Hr), Hb, Eid. reflexivity.
        - destruct P1 as [-> _]. reflexivity. }
      rewrite Hnone, app_nil_r. reflexivity.
Qed.

(** A booking that is due no charge takes one request at most and
    leaves the folio and the counters as they are. *)
Lemma auditBooking_settled {number : Type} {N : Number number}
  (rt : Runtime.t number) (user : option uuid) (today : date)
  (counters : Z * number) (b : Booking.t number) (w : World.t number) :
  online rt ->
  audit_posts today (Db.folio_charges (World.db w)) b = false ->
  exists w',
    auditBooking rt user today counters b w = (Returned counters, w')
    /\ World.db w' = World.db w
    /\ World.clock w' = World.clock w
    /\ World.alerts w' = World.alerts w.
Proof.
  intros Hon. unfold auditBooking, audit_posts, stayover.
  destruct counters as [chargesPosted totalAmount].
  destruct (toISODate (Booking.check_in_date b) <? today); simpl.
  - unfold bind. rewrite (request_online _ _ Hon). unfold select. simpl.
    fold (room_rent_on (Booking.id b) today (Db.folio_charges (World.db w))).
    destruct (room_rent_on (Booking.id b) today (Db.folio_charges (World.db w)))
      as [|c l]; [discriminate |].
    intros _. unfold ret. eexists. split; [reflexivity |].
    repeat split; reflexivity.
  - intros _. unfold ret. exists w. repeat split; reflexivity.
Qed.

(** Once no booking of the list is due a charge, the loop changes
    neither the folio nor its counters. *)
Lemma audit_loop_settled {number : Type} {N : Number number}
  (rt : Runtime.t number) (user : option uuid) (today : date) :
  online rt ->
  forall (l : list (Booking.t number)) (counters : Z * number) (w : World.t number),
    (forall b, In b l -> audit_posts today (Db.folio_charges (World.db w)) b = false) ->
    exists w',
      for_each l (auditBooking rt user today) counters w = (Returned counters, w')
      /\ Db.folio_charges (World.db w') = Db.folio_charges (World.db w).
Proof.
  intros Hon. induction l as [|b l IH]; intros counters w Hsettled.
  - exists w. split; reflexivity.
  - destruct (@auditBooking_settled _ _ rt user today counters b w Hon
                (Hsettled b (or_introl eq_refl)))
      as [w1 [E1 [D1 _]]].
    destruct (IH counters w1) as [w2 [E2 F2]].
    + intros b' Hb'. rewrite D1. apply Hsettled. right. exact Hb'.
    + exists w2. simpl. unfold bind. rewrite E1, E2.
      split; [reflexivity | rewrite F2, D1; reflexivity].
Qed.

(** The page's run with the backend reachable: the audit ends with a
    report, and the loop has run over the bookings that are checked in,
    for the day of the clock. *)
Lemma nightAudit_online {number : Type} {N : Number number}
  (rt : Runtime.t number) (user : option uuid) (w : World.t number) :
  online rt ->
  exists w0,
    World.db w0 = World.db w /\ World.clock w0 = World.clock w
    /\ forall counters w',
         for_each
           (filter (fun b => BookingStatus_eqb (Booking.status b) checked_in)
                   (Db.bookings (World.db w)))
           (auditBooking rt user (toISODate (World.clock w)))
           (0, of_Z 0) w0 = (Returned counters, w') ->
         nightAudit rt user w
         = (Returned (Some {| AuditResults.chargesPosted := fst counters;
                              AuditResults.totalAmount := snd counters |}), w').
Proof.
  intros Hon.
  unfold nightAudit, loadAuditData, runNightAudit, try_catch, bind, Date_now.
  rewrite (request_online _ _ Hon). unfold select, ret. simpl.
  exists {| World.db := World.db w; World.sent := S (World.sent w);
            World.alerts := World.alerts w; World.clock := World.clock w |}.
  split; [reflexivity | split; [reflexivity |]].
  intros counters w' E. rewrite E. reflexivity.
Qed.

(** C3, on the code.  With every request answered (and room rates as
    their column holds them), one run of the night audit appends to the
    folio only room-rent charges dated today, and for every checked-in
    booking whose check-in day precedes today it appends exactly one if
    the folio held no room-rent charge of today for that booking and none
    if it held one; a second run on the same day then leaves the folio as
    the first run left it and reports no charge posted.  But the audit
    reads an existence check that got no answer as no charge found: with
    the check of the second run lost (the fifth request of the two runs),
    the second run posts Asha's room rent of the day again and reports one
    charge posted. *)
Theorem night_audit_posts_twice_when_check_is_lost :
  (forall (number : Type) (N : Number number) (rt : Runtime.t number)
          (user : option uuid) (w : World.t number),
      (forall n, Runtime.offline rt n = false) ->
      Forall (fun b => column_value
                         (RoomType.base_rate
                            (BookingRoom.room_types (Booking.rooms b))))
             (Db.bookings (World.db w)) ->
      let today := toISODate (World.clock w) in
      let w1 := snd (nightAudit rt user w) in
      let w2 := snd (nightAudit rt user w1) in
      (exists posted,
          Db.folio_charges (World.db w1) = Db.folio_charges (World.db w) ++ posted
          /\ Forall (fun c => FolioCharge.charge_date c = today
                              /\ FolioCharge.charge_type c = "room_rent") posted
          /\ forall b,
               In b (Db.bookings (World.db w)) ->
               Booking.status b = checked_in ->
               toISODate (Booking.check_in_date b) < today ->
               List.length (room_rent_on (Booking.id b) today posted)
               = match room_rent_on (Booking.id b) today
                         (Db.folio_charges (World.db w)) with
                 | [] => 1%nat
                 | _ :: _ => 0%nat
                 end)
      /\ Db.folio_charges (World.db w2) = Db.folio_charges (World.db w1)
      /\ fst (nightAudit rt user w1)
         = Returned (Some {| AuditResults.chargesPosted := 0;
                             AuditResults.totalAmount := of_Z 0 |}))
  /\ (let rt := Sample.runtime (fun n => Nat.eqb n 4) in
      let today := toISODate (World.clock Sample.in_house) in
      let first := nightAudit rt (Some "u-1") Sample.in_house in
      let second := nightAudit rt (Some "u-1") (snd first) in
      fst first
      = Returned (Some {| AuditResults.chargesPosted := 1;
                          AuditResults.totalAmount := 1500%float |})
      /\ fst second
         = Returned (Some {| AuditResults.chargesPosted := 1;
                             AuditResults.totalAmount := 1500%float |})
      /\ map (fun c => (FolioCharge.charge_date c - today,
                        FolioCharge.charge_type c, FolioCharge.amount c))
             (room_rent_on (Booking.id Sample.stay101) today
                (Db.folio_charges (World.db (snd first))))
         = [(0, "room_rent", 1500%float)]
      /\ map (fun c => (FolioCharge.charge_date c - today,
                        FolioCharge.charge_type c, FolioCharge.amount c))
             (room_rent_on (Booking.id Sample.stay101) today
                (Db.folio_charges (World.db (snd second))))
         = [(0, "room_rent", 1500%float); (0, "room_rent", 1500%float)]
      /\ World.sent (snd second) = 6%nat
      /\ World.alerts (snd second) = []).
Proof.
  split; [| vm_compute; repeat split; reflexivity].
  intros number N rt user w Hon Hcol today w1 w2.
  set (inHouse := filter (fun b => BookingStatus_eqb (Booking.status b) checked_in)
                         (Db.bookings (World.db w))).
  assert (Hrates :
            Forall (fun b => column_value
                               (RoomType.base_rate
                                  (BookingRoom.room_types (Booking.rooms b))))
                   inHouse).
  { apply Forall_forall. intros b Hb. apply filter_In in Hb.
    exact (proj1 (Forall_forall _ _) Hcol b (proj1 Hb)). }
  destruct (nightAudit_online user w Hon) as [w0 [D0 [C0 E1]]].
  fold inHouse today in E1.
  destruct (audit_loop_online user today Hon (0, of_Z 0) w0 Hrates)
    as [c1 [w1' [posted [L1 [F1 [B1 [K1 [R1 Hcount]]]]]]]].
  specialize (E1 _ _ L1).
  assert (Ew1 : w1 = w1') by (unfold w1; rewrite E1; reflexivity).
  rewrite D0 in F1, B1, Hcount. rewrite C0 in K1.
  assert (Hposted : forall b, In b inHouse -> stayover today b = true ->
            room_rent_on (Booking.id b) today (Db.folio_charges (World.db w1')) <> []).
  { intros b Hb Hs Hnil. rewrite F1, room_rent_on_app in Hnil.
    apply app_eq_nil in Hnil. destruct Hnil as [Hold Hnew].
    specialize (Hcount (Booking.id b)). rewrite Hold, Hnew in Hcount.
    assert (Hhas : has_stayover today (Booking.id b) inHouse = true).
    { apply existsb_exists. exists b. split; [exact Hb |].
      rewrite String.eqb_refl, Hs. reflexivity. }
    rewrite Hhas in Hcount. discriminate Hcount. }
  split; [|].
  - exists posted. rewrite Ew1. split; [exact F1 | split; [exact R1 |]].
    intros b Hin Hst Hlt. rewrite (Hcount (Booking.id b)).
    destruct (room_rent_on (Booking.id b) today (Db.folio_charges (World.db w)));
      [| reflexivity].
    assert (Hhas : has_stayover today (Booking.id b) inHouse = true).
    { apply existsb_exists. exists b. split.
      - apply filter_In. split; [exact Hin | rewrite Hst; reflexivity].
      - rewrite String.eqb_refl. unfold stayover.
        apply Z.ltb_lt in Hlt. rewrite Hlt. reflexivity. }
    rewrite Hhas. reflexivity.
  - destruct (nightAudit_online user w1 Hon) as [w0' [D0' [C0' E2]]].
    rewrite Ew1 in D0', C0', E2. rewrite B1, K1 in E2. fold inHouse today in E2.
    destruct (audit_loop_settled user today Hon inHouse (0, of_Z 0) w0')
      as [w2' [L2 F2]].
    + intros b Hb. rewrite D0'. unfold audit_posts.
      destruct (stayover today b) eqn:Hs; [| reflexivity].
      pose proof (Hposted b Hb Hs) as Hne.
      destruct (room_rent_on (Booking.id b) today (Db.folio_charges (World.db w1')));
        [contradiction | reflexivity].
    + specialize (E2 _ _ L2). unfold w2. rewrite Ew1, E2. simpl.
      split; [rewrite F2, D0'; reflexivity | reflexivity].
Qed.

Lemma night_audit_posts_twice_when_check_is_lost_witness :
  List.length (Db.folio_charges (World.db Sample.in_house)) = 2%nat
  /\ List.length
       (Db.folio_charges
          (World.db (snd (nightAudit (Sample.runtime Sample.reachable) (Some "u-1")
                            Sample.in_house)))) = 3%nat
  /\ Db.folio_charges
       (World.db
          (snd (nightAudit (Sample.runtime Sample.reachable) (Some "u-1")
                  (snd (nightAudit (Sample.runtime Sample.reachable) (Some "u-1")
                          Sample.in_house)))))
     = Db.folio_charges
         (World.db (snd (nightAudit (Sample.runtime Sample.reachable) (Some "u-1")
                           Sample.in_house))).
Proof.
  split; [reflexivity | split; [vm_compute; reflexivity |]].
  assert (Hrates :
            Forall (fun b => column_value
                               (RoomType.base_rate
                                  (BookingRoom.room_types (Booking.rooms b))))
                   (Db.bookings (World.db Sample.in_house))).
  { constructor; [vm_compute; reflexivity | constructor]. }
  apply (proj1 (proj2 (proj1 night_audit_posts_twice_when_check_is_lost
                         float binary64
                         (Sample.runtime Sample.reachable) (Some "u-1")
                         Sample.in_house (fun n => eq_refl) Hrates))).
Defined.

(** C4, on the code.  Only the night audit looks for an existing charge.
    After the audit of the day Asha is due out has posted her room rent,
    extending her stay by a night posts room rent for that same day
    again, and the charge dialog adds a third. *)
Theorem room_rent_posted_twice :
  let rt := Sample.runtime Sample.reachable in
  let due := (Sample.day0 + 2)%Z in
  let w1 := snd (nightAudit rt (Some "u-1") Sample.in_house) in
  let w2 := snd (handleExtendStay rt (Some "u-1") (Some Sample.stay101)
                   (due + 1)%Z w1) in
  let w3 := snd (handleAddCharge rt (Some "u-1") (Some Sample.stay101) due
                   "Room Rent" 1500%float "room_rent" w2) in
  List.length (room_rent_on (Booking.id Sample.stay101) due
                 (Db.folio_charges (World.db Sample.in_house))) = 0%nat
  /\ List.length (room_rent_on (Booking.id Sample.stay101) due
                    (Db.folio_charges (World.db w1))) = 1%nat
  /\ List.length (room_rent_on (Booking.id Sample.stay101) due
                    (Db.folio_charges (World.db w2))) = 2%nat
  /\ List.length (room_rent_on (Booking.id Sample.stay101) due
                    (Db.folio_charges (World.db w3))) = 3%nat
  /\ World.alerts w2 = ["Stay extended by 1 night(s). Room charges added."].
Proof.
  vm_compute. repeat split; reflexivity.
Qed.

(** ** Document numbers *)

Lemma archiveInvoice_online {number : Type} {N : Number number}
  (rt : Runtime.t number) (booking : Booking.t number)
  (folioCharges : list (FolioCharge.t number))
  (payments : list (Payment.t number)) (taxes : TaxConfig.t number)
  (w : World.t number) :
  online rt ->
  exists doc,
    Db.guest_documents
      (World.db (snd (archiveInvoice rt booking folioCharges payments taxes w)))
    = Db.guest_documents (World.db w) ++ [doc]
    /\ listing doc
       = ("invoice",
          ("INV" ++ "-" ++ toUpperCase (slice 0 8 (Booking.id booking)))%string,
          Booking.id booking)
    /\ ArchiveResult.success
         (match fst (archiveInvoice rt booking folioCharges payments taxes w) with
          | Returned r => r
          | Thrown _ => {| ArchiveResult.success := false;
                           ArchiveResult.documentNumber := None;
                           ArchiveResult.error := None |}
          end) = true.
Proof.
  intros Hon. unfold archiveInvoice, try_catch, bind, Date_now.
  rewrite (request_online _ _ Hon). unfold insert. simpl.
  eexists. repeat split.
Qed.

Lemma archiveGRC_online {number : Type} {N : Number number}
  (rt : Runtime.t number) (booking : Booking.t number)
  (taxes : TaxConfig.t number) (w : World.t number) :
  online rt ->
  exists doc,
    Db.guest_documents (World.db (snd (archiveGRC rt booking taxes w)))
    = Db.guest_documents (World.db w) ++ [doc]
    /\ listing doc
       = ("grc",
          ("GRC" ++ "-" ++ toUpperCase (slice 0 8 (Booking.id booking)))%string,
          Booking.id booking).
Proof.
  intros Hon. unfold archiveGRC, try_catch, bind, Date_now.
  rewrite (request_online _ _ Hon). unfold insert. simpl.
  eexists. repeat split.
Qed.

(** C10. The number of an archived document is the prefix, a dash and
    the first eight characters of the booking id in upper case, whatever
    the time, the folio and the state of the archive; nothing in the
    archive is unique per booking, so archiving a booking again (with the
    backend reachable) appends an invoice and a registration card with
    the numbers of the first two. *)
Theorem document_number_repeats :
  forall (number : Type) (N : Number number) (rt : Runtime.t number)
         (booking : Booking.t number)
         (charges charges' : list (FolioCharge.t number))
         (payments payments' : list (Payment.t number))
         (taxes taxes' : TaxConfig.t number) (w : World.t number),
    (forall n, Runtime.offline rt n = false) ->
    let w1 := snd (archiveInvoice rt booking charges payments taxes w) in
    let w2 := snd (archiveGRC rt booking taxes w1) in
    let w3 := snd (archiveInvoice rt booking charges' payments' taxes' w2) in
    let w4 := snd (archiveGRC rt booking taxes' w3) in
    let id8 := toUpperCase (slice 0 8 (Booking.id booking)) in
    map listing (Db.guest_documents (World.db w4))
    = map listing (Db.guest_documents (World.db w))
      ++ [("invoice", ("INV" ++ "-" ++ id8)%string, Booking.id booking);
          ("grc", ("GRC" ++ "-" ++ id8)%string, Booking.id booking);
          ("invoice", ("INV" ++ "-" ++ id8)%string, Booking.id booking);
          ("grc", ("GRC" ++ "-" ++ id8)%string, Booking.id booking)].
Proof.
  intros number N rt booking charges charges' payments payments' taxes taxes' w
         Hon w1 w2 w3 w4 id8.
  destruct (archiveInvoice_online booking charges payments taxes w Hon)
    as [d1 [E1 [L1 _]]].
  destruct (archiveGRC_online booking taxes w1 Hon) as [d2 [E2 L2]].
  destruct (archiveInvoice_online booking charges' payments' taxes' w2 Hon)
    as [d3 [E3 [L3 _]]].
  destruct (archiveGRC_online booking taxes' w3 Hon) as [d4 [E4 L4]].
  fold w1 in E1. fold w2 in E2. fold w3 in E3. fold w4 in E4.
  rewrite E4, E3, E2, E1. rewrite !map_app. simpl.
  rewrite L1, L2, L3, L4. rewrite <- !app_assoc. reflexivity.
Qed.

Lemma document_number_repeats_witness :
  map (@GuestDocument.document_number float)
    (Db.guest_documents
       (World.db
          (snd (confirmCheckout (Sample.runtime Sample.reachable) (Some "u-1")
                  (Some Sample.stay101) None (Sample.gst 6 6)
                  (snd (confirmCheckout (Sample.runtime Sample.reachable)
                          (Some "u-1") (Some Sample.stay101) None
                          (Sample.gst 6 6) Sample.in_house))))))
  = ["INV-0A1B2C3D"; "GRC-0A1B2C3D"; "INV-0A1B2C3D"; "GRC-0A1B2C3D"]
  /\ (let rt := Sample.runtime Sample.reachable in
      let w1 := snd (archiveInvoice rt Sample.stay101
                       (Db.folio_charges (World.db Sample.in_house))
                       (Db.payments (World.db Sample.in_house))
                       (Sample.gst 6 6) Sample.in_house) in
      let w2 := snd (archiveGRC rt Sample.stay101 (Sample.gst 6 6) w1) in
      let w3 := snd (archiveInvoice rt Sample.stay101 [] [] (Sample.gst 9 9) w2) in
      let w4 := snd (archiveGRC rt Sample.stay101 (Sample.gst 9 9) w3) in
      map listing (Db.guest_documents (World.db w4))
      = [("invoice", "INV-0A1B2C3D", Booking.id Sample.stay101);
         ("grc", "GRC-0A1B2C3D", Booking.id Sample.stay101);
         ("invoice", "INV-0A1B2C3D", Booking.id Sample.stay101);
         ("grc", "GRC-0A1B2C3D", Booking.id Sample.stay101)]).
Proof.
  split; [vm_compute; reflexivity |].
  apply (@document_number_repeats float binary64 (Sample.runtime Sample.reachable)
           Sample.stay101 (Db.folio_charges (World.db Sample.in_house)) []
           (Db.payments (World.db Sample.in_house)) []
           (Sample.gst 6 6) (Sample.gst 9 9) Sample.in_house (fun n => eq_refl)).
Defined.

(** * Properties of the rest of the pages *)

(** ** The CSV writer *)

Lemma append_assoc (a b c : string) : ((a ++ b) ++ c = a ++ (b ++ c))%string.
Proof. induction a as [|x a IH]; simpl; [reflexivity | rewrite IH; reflexivity]. Qed.

Lemma append_nil_r (a : string) : (a ++ "")%string = a.
Proof. induction a as [|x a IH]; simpl; [reflexivity | rewrite IH; reflexivity]. Qed.

(** Inside a cell, the reader takes the escaped text for the text. *)
Lemma read_in_cell (v : string) (cell : list ascii) (record : list string)
  (records : list (list string)) (rest : string) :
  read_records InCell cell record records (double_quotes v ++ rest)%string
  = read_records InCell (rev (list_ascii_of_string v) ++ cell) record records rest.
Proof.
  revert cell. induction v as [|c v IH]; intros cell; simpl.
  - reflexivity.
  - destruct (Ascii.eqb c dquote) eqn:E.
    + apply Ascii.eqb_eq in E. subst c. simpl.
      rewrite IH. rewrite <- app_assoc. reflexivity.
    + simpl. rewrite E. rewrite IH. rewrite <- app_assoc. reflexivity.
Qed.

(** At the start of a record or after a comma, a cell is read up to its
    closing quote. *)
Lemma read_cell (state : ReaderState) (value : option string)
  (record : list string) (records : list (list string)) (rest : string) :
  state = AtRecord \/ state = AtCell ->
  read_records state [] record records (cell value ++ rest)%string
  = read_records AfterQuote (rev (list_ascii_of_string (String_or_empty value)))
      record records rest.
Proof.
  intros Hst. unfold cell.
  assert (E : (String dquote (double_quotes (String_or_empty value)
                              ++ String dquote EmptyString) ++ rest)%string
              = String dquote (double_quotes (String_or_empty value)
                               ++ String dquote rest)%string).
  { simpl. rewrite append_assoc. reflexivity. }
  rewrite E.
  assert (S : read_records state [] record records
                (String dquote (double_quotes (String_or_empty value)
                                ++ String dquote rest)%string)
              = read_records InCell [] record records
                  (double_quotes (String_or_empty value) ++ String dquote rest)%string).
  { destruct Hst; subst state; reflexivity. }
  rewrite S, read_in_cell, app_nil_r. reflexivity.
Qed.

Lemma text_of_cell (s : string) :
  string_of_list_ascii (rev (rev (list_ascii_of_string s))) = s.
Proof. rewrite rev_involutive. apply string_of_list_ascii_of_string. Qed.

(** A line of cells that ends the text. *)
Lemma read_line_at_end (values : list (option string)) :
  forall (value : option string) (state : ReaderState) (record : list string)
         (records : list (list string)),
    state = AtRecord \/ state = AtCell ->
    read_records state [] record records (join "," (map cell (value :: values)))
    = Some (rev ((rev record ++ map String_or_empty (value :: values)) :: records)).
Proof.
  induction values as [|value' values IH]; intros value state record records Hst.
  - unfold join. simpl String.concat.
    rewrite <- (append_nil_r (cell value)).
    rewrite (read_cell value record records EmptyString Hst).
    simpl. rewrite text_of_cell. reflexivity.
  - unfold join. change (map cell (value :: value' :: values))
      with (cell value :: map cell (value' :: values)).
    change (String.concat "," (cell value :: map cell (value' :: values)))
      with (cell value ++ "," ++ String.concat "," (map cell (value' :: values)))%string.
    rewrite (read_cell value record records _ Hst).
    simpl read_records at 1. rewrite text_of_cell.
    change (String.concat "," (map cell (value' :: values)))
      with (join "," (map cell (value' :: values))).
    rewrite (IH value' AtCell _ records (or_intror eq_refl)).
    simpl. rewrite <- app_assoc. reflexivity.
Qed.

(** A line of cells followed by a line feed. *)
Lemma read_line_then_more (values : list (option string)) :
  forall (value : option string) (state : ReaderState) (record : list string)
         (records : list (list string)) (more : string),
    state = AtRecord \/ state = AtCell ->
    read_records state [] record records
      (join "," (map cell (value :: values)) ++ String line_feed more)%string
    = read_records AtRecord [] []
        ((rev record ++ map String_or_empty (value :: values)) :: records) more.
Proof.
  induction values as [|value' values IH];
    intros value state record records more Hst.
  - unfold join. simpl String.concat.
    rewrite (read_cell value record records _ Hst).
    simpl. rewrite text_of_cell. reflexivity.
  - unfold join. change (map cell (value :: value' :: values))
      with (cell value :: map cell (value' :: values)).
    change (String.concat "," (cell value :: map cell (value' :: values)))
      with (cell value ++ "," ++ String.concat "," (map cell (value' :: values)))%string.
    rewrite !append_assoc.
    rewrite (read_cell value record records _ Hst).
    simpl read_records at 1. rewrite text_of_cell.
    change (String.concat "," (map cell (value' :: values)))
      with (join "," (map cell (value' :: values))).
    rewrite (IH value' AtCell _ records more (or_intror eq_refl)).
    simpl. rewrite <- app_assoc. reflexivity.
Qed.

Lemma join_one (sep a : string) : join sep [a] = a.
Proof. reflexivity. Qed.

Lemma join_more (sep a b : string) (l : list string) :
  join sep (a :: b :: l) = (a ++ sep ++ join sep (b :: l))%string.
Proof. reflexivity. Qed.

Lemma read_empty_line (records : list (list string)) (more : string) :
  read_records AtRecord [] [] records (String line_feed more)
  = read_records AtRecord [] [] ([] :: records) more.
Proof. reflexivity. Qed.

(** The lines below the header, read back: one record per row, one text
    per header. *)
Lemma read_body (headers : list string) (rows : list JsObject) :
  forall (row : JsObject) (records : list (list string)),
    read_records AtRecord [] [] records
      (join (String line_feed EmptyString)
         (map (fun row => join "," (map (fun header => cell (property row header))
                                        headers))
              (row :: rows)))
    = Some (rev records
            ++ map (fun row => map (fun header => String_or_empty (property row header))
                                   headers)
                   (row :: rows)).
Proof.
  induction rows as [|row' rows IH]; intros row records.
  - cbn [map]. rewrite join_one.
    destruct headers as [|header headers].
    + reflexivity.
    + rewrite <- (map_map (property row) cell).
      change (map (property row) (header :: headers))
        with (property row header :: map (property row) headers).
      rewrite (read_line_at_end _ _ [] records (or_introl eq_refl)).
      simpl. rewrite map_map. reflexivity.
  - change (map (fun row0 => join "," (map (fun header => cell (property row0 header))
                                           headers))
                (row :: row' :: rows))
      with (join "," (map (fun header => cell (property row header)) headers)
            :: join "," (map (fun header => cell (property row' header)) headers)
            :: map (fun row0 => join "," (map (fun header => cell (property row0 header))
                                              headers))
                   rows).
    rewrite join_more.
    change (join "," (map (fun header => cell (property row' header)) headers)
            :: map (fun row0 => join "," (map (fun header => cell (property row0 header))
                                              headers))
                   rows)
      with (map (fun row0 => join "," (map (fun header => cell (property row0 header))
                                           headers))
                (row' :: rows)).
    change (String line_feed EmptyString ++ ?x)%string with (String line_feed x).
    destruct headers as [|header headers].
    + change (join "," (map (fun header => cell (property row header)) []))
        with EmptyString.
      change (EmptyString ++ ?x)%string with x.
      rewrite read_empty_line, IH. simpl.
      rewrite <- app_assoc. reflexivity.
    + rewrite <- (map_map (property row) cell).
      change (map (property row) (header :: headers))
        with (property row header :: map (property row) headers).
      rewrite (read_line_then_more _ _ [] records _ (or_introl eq_refl)).
      rewrite IH. simpl. rewrite map_map, <- app_assoc. reflexivity.
Qed.

Lemma one_line_append (a b : string) :
  one_line (a ++ b)%string = one_line a && one_line b.
Proof.
  unfold one_line. induction a as [|c a IH].
  - reflexivity.
  - cbn [append list_ascii_of_string existsb].
    destruct (Ascii.eqb line_feed c); [reflexivity | exact IH].
Qed.

Lemma one_line_join (keys : list string) :
  forallb one_line keys = true -> one_line (join "," keys) = true.
Proof.
  induction keys as [|key keys IH]; intros H.
  - reflexivity.
  - cbn [forallb] in H. apply andb_true_iff in H. destruct H as [Hk Hr].
    destruct keys as [|key' keys].
    + exact Hk.
    + rewrite join_more, !one_line_append, Hk, (IH Hr). reflexivity.
Qed.

Lemma first_line_append (line rest : string) :
  one_line line = true ->
  first_line (line ++ String line_feed rest)%string = Some (line, rest).
Proof.
  unfold one_line. induction line as [|c line IH]; intros H.
  - reflexivity.
  - cbn [append first_line]. cbn [list_ascii_of_string existsb] in H.
    rewrite Ascii.eqb_sym. destruct (Ascii.eqb line_feed c).
    + discriminate H.
    + rewrite (IH H). reflexivity.
Qed.

(** X1. With no data the writer returns the empty text.  Otherwise the
    keys of the first record alone decide the columns, and the text reads
    back as it was written: a header line, then for each record (in order)
    the text of its value under each key of the first record, the empty
    text where the value is null, undefined or the key is missing;
    quotes, commas and line feeds inside a value come back unchanged.
    (The keys are written bare: the statement is for keys without a line
    feed.) *)
Theorem convertToCSV_reads_back :
  convertToCSV [] = ""%string
  /\ forall (first : JsObject) (rest : list JsObject),
       forallb one_line (Object_keys first) = true ->
       read_csv (convertToCSV (first :: rest))
       = Some (join "," (Object_keys first),
               map (fun row => map (fun header => String_or_empty (property row header))
                                   (Object_keys first))
                   (first :: rest)).
Proof.
  split; [reflexivity |].
  intros first rest Hkeys. unfold convertToCSV, read_csv.
  set (headers := Object_keys first) in *.
  unfold join at 1.
  change (String.concat (String line_feed EmptyString)
            (join "," headers
             :: map (fun row => join "," (map (fun header => cell (property row header))
                                              headers))
                    (first :: rest)))
    with (join "," headers
          ++ String line_feed
               (join (String line_feed EmptyString)
                  (map (fun row => join "," (map (fun header => cell (property row header))
                                                 headers))
                       (first :: rest))))%string.
  rewrite (@first_line_append _ _ (@one_line_join headers Hkeys)).
  rewrite read_body. reflexivity.
Qed.

Lemma convertToCSV_reads_back_witness :
  let quoted := String dquote ("Suite" ++ String dquote EmptyString)%string in
  let first := [("name", Some "Verma, Asha"); ("room", Some quoted)]%string in
  let second := [("room", None); ("note", Some "late")]%string in
  forallb one_line (Object_keys first) = true
  /\ read_csv (convertToCSV [first; second])
     = Some ("name,room"%string,
             [["Verma, Asha"; quoted]; [""; ""]]%string).
Proof.
  split; [reflexivity |].
  apply (proj2 convertToCSV_reads_back
           [("name", Some "Verma, Asha");
            ("room", Some (String dquote ("Suite" ++ String dquote EmptyString)))]%string
           [[("room", None); ("note", Some "late")]%string]).
  reflexivity.
Defined.

(** ** The day counter *)

Lemma ceilDays_bounds (ms : Z) :
  (ceilDays ms - 1) * MS_PER_DAY < ms <= ceilDays ms * MS_PER_DAY.
Proof.
  unfold ceilDays.
  assert (H : 0 < MS_PER_DAY) by reflexivity.
  pose proof (Z.div_mod (- ms) MS_PER_DAY ltac:(lia)) as E.
  pose proof (Z.mod_pos_bound (- ms) MS_PER_DAY H) as B.
  nia.
Qed.

(** X2. The day shown beside an in-house guest is never 0: it is 1 from
    the instant of check-in to the end of the first 24 hours, and from
    then on the number of 24-hour periods begun since check-in (not the
    number of calendar days); a check-in instant in the future counts like
    one as far in the past. *)
Theorem getDaysStayed_counts_periods :
  forall (now checkInDate : timestamp),
    let day := getDaysStayed now checkInDate in
    let elapsed := Z.abs (now - checkInDate) in
    1 <= day
    /\ elapsed <= day * MS_PER_DAY
    /\ ((day - 1) * MS_PER_DAY < elapsed \/ now = checkInDate)
    /\ getDaysStayed checkInDate now = day.
Proof.
  intros now checkInDate. cbv zeta. unfold getDaysStayed.
  replace (Z.abs (checkInDate - now)) with (Z.abs (now - checkInDate)) by lia.
  pose proof (ceilDays_bounds (Z.abs (now - checkInDate))) as B.
  assert (H : 0 < MS_PER_DAY) by reflexivity.
  destruct (ceilDays (Z.abs (now - checkInDate)) =? 0) eqn:E.
  - apply Z.eqb_eq in E. rewrite E in B. repeat split; lia.
  - apply Z.eqb_neq in E. repeat split; lia.
Qed.

(** ** The CHECK on a guest's proof of identity *)

(** X3. As the rebuilt schema writes it, with NULL in its list, the CHECK
    on a guest's proof-of-identity type rejects nothing (a comparison with
    NULL is unknown, and a CHECK rejects only what is false): what is left
    on a guest row is the unique mobile number, as [guests_violation]
    has it.  As first declared the CHECK admits NULL and its four types
    only, none of which the walk-in form offers. *)
Theorem valid_id_proof_type_rejects_nothing :
  (forall id_proof_type : option string, valid_id_proof_type id_proof_type = true)
  /\ (forall (number : Type) (d : Db.t number) (r : Guest.t),
         guests_constraints d r = true <-> guests_violation d r = None)
  /\ (forall id_proof_type : option string,
         valid_id_proof_type_first id_proof_type = true
         <-> id_proof_type = None
             \/ In id_proof_type
                  [Some "aadhaar"; Some "passport"; Some "driving_license";
                   Some "other"]%string)
  /\ forallb (fun option => negb (valid_id_proof_type_first (Some option)))
       walkIn_idType_options = true.
Proof.
  split; [|split; [|split]].
  - intros [s|]; [|reflexivity].
    unfold valid_id_proof_type, sql_in. cbn [existsb].
    destruct (_ || _); reflexivity.
  - intros number d r. unfold guests_constraints, guests_violation.
    assert (H : valid_id_proof_type (Guest.id_proof_type r) = true).
    { destruct (Guest.id_proof_type r) as [s|]; [|reflexivity].
      unfold valid_id_proof_type, sql_in. cbn [existsb].
      destruct (_ || _); reflexivity. }
    rewrite H. simpl.
    destruct (existsb _ (Db.guests d)); simpl; split; intros E;
      try reflexivity; discriminate E.
  - intros [s|].
    + unfold valid_id_proof_type_first, sql_in. cbn [existsb In].
      rewrite orb_false_r.
      destruct (String.eqb_spec s "aadhaar") as [E1|E1];
        [subst; simpl; split; [intros _; right; left; reflexivity | reflexivity] |].
      destruct (String.eqb_spec s "passport") as [E2|E2];
        [subst; simpl; split;
         [intros _; right; right; left; reflexivity | reflexivity] |].
      destruct (String.eqb_spec s "driving_license") as [E3|E3];
        [subst; simpl; split;
         [intros _; right; right; right; left; reflexivity | reflexivity] |].
      destruct (String.eqb_spec s "other") as [E4|E4];
        [subst; simpl; split;
         [intros _; right; right; right; right; left; reflexivity | reflexivity] |].
      simpl. split; [intros H; discriminate H |].
      intros [H | [H | [H | [H | [H | []]]]]];
        try discriminate H; inversion H; congruence.
    + split; [intros _; left; reflexivity | reflexivity].
  - reflexivity.
Qed.

(** ** The in-house page: tax rates *)

Lemma percentage_or_six (row : option (TaxRow.t float)) :
  falsy (percentage_or row 6%float) = false
  /\ (percentage_or row 6%float = 6%float
      \/ exists t, row = Some t /\ TaxRow.tax_percentage t = percentage_or row 6%float).
Proof.
  destruct row as [t|]; simpl.
  - unfold number_or. destruct (falsy (TaxRow.tax_percentage t)) eqn:E.
    + split; [reflexivity | left; reflexivity].
    + split; [exact E | right; exists t; split; reflexivity].
  - split; [reflexivity | left; reflexivity].
Qed.

Lemma find_active (name : string) (tax_config : list (TaxRow.t float))
  (t : TaxRow.t float) :
  find (fun t => String.eqb (TaxRow.tax_name t) name)
       (filter (@TaxRow.is_active float) tax_config) = Some t ->
  In t tax_config /\ TaxRow.is_active t = true /\ TaxRow.tax_name t = name.
Proof.
  intros H. apply find_some in H. destruct H as [Hin Hname].
  apply filter_In in Hin. destruct Hin as [Hin Hact].
  apply String.eqb_eq in Hname. repeat split; assumption.
Qed.

(** X4. The tax rates the in-house page loads are never zero (nor NaN):
    each is 6 or the percentage of an active row of [tax_config] with its
    name.  A rate configured as 0, a missing or inactive row and a lost
    request all give 6; the load never fails and changes nothing. *)
Theorem loadTaxes_never_zero :
  forall (rt : Runtime.t float) (tax_config : list (TaxRow.t float))
         (w : World.t float),
  exists taxes : TaxConfig.t float,
    fst (loadTaxes rt tax_config w) = Returned taxes
    /\ World.db (snd (loadTaxes rt tax_config w)) = World.db w
    /\ falsy (TaxConfig.cgst taxes) = false
    /\ falsy (TaxConfig.sgst taxes) = false
    /\ (TaxConfig.cgst taxes = 6%float
        \/ exists t, In t tax_config /\ TaxRow.is_active t = true
                     /\ TaxRow.tax_name t = "CGST"%string
                     /\ TaxRow.tax_percentage t = TaxConfig.cgst taxes)
    /\ (TaxConfig.sgst taxes = 6%float
        \/ exists t, In t tax_config /\ TaxRow.is_active t = true
                     /\ TaxRow.tax_name t = "SGST"%string
                     /\ TaxRow.tax_percentage t = TaxConfig.sgst taxes)
    /\ (Runtime.offline rt (World.sent w) = false
        \/ taxes = {| TaxConfig.cgst := 6%float; TaxConfig.sgst := 6%float |}).
Proof.
  intros rt tax_config w. unfold loadTaxes, bind, request, select.
  destruct (Runtime.offline rt (World.sent w)) eqn:Off.
  - eexists. split; [reflexivity |]. simpl.
    repeat split; try reflexivity; try (left; reflexivity).
    right. reflexivity.
  - eexists. split; [reflexivity |]. cbn [snd World.db data_of TaxConfig.cgst
                                           TaxConfig.sgst].
    split; [reflexivity |].
    set (cgst := find _ (filter _ tax_config)).
    set (sgst := find (fun t => String.eqb (TaxRow.tax_name t) "SGST") _).
    destruct (percentage_or_six cgst) as [Fc Hc].
    destruct (percentage_or_six sgst) as [Fs Hs].
    split; [exact Fc |]. split; [exact Fs |].
    split; [|split].
    + destruct Hc as [Hc | [t [Et Hc]]]; [left; exact Hc | right].
      exists t. destruct (find_active _ _ Et) as [H1 [H2 H3]].
      repeat split; assumption.
    + destruct Hs as [Hs | [t [Et Hs]]]; [left; exact Hs | right].
      exists t. destruct (find_active _ _ Et) as [H1 [H2 H3]].
      repeat split; assumption.
    + left. reflexivity.
Qed.

(** ** The in-house page: charges *)

(** X5. A charge entered by hand is stored exactly when its request
    reaches the database, its amount fits the [decimal(10,2)] column and
    its type is one of the five of the schema: the folio then gains that
    one row, as entered but for the amount, which is rounded to two
    decimals.  A charge that is not stored (an amount that is not a
    number or has more than eight digits before the point included) is
    dropped in silence: the handler ends normally and shows no message
    either way.  So 0.125 is stored as 0.13 and 100000000 is not stored. *)
Theorem handleAddCharge_stores_or_drops :
  (forall (number : Type) (N : Number number) (rt : Runtime.t number)
          (user : option uuid) (selectedBooking : Booking.t number)
          (charge_date : date) (description : string) (amount : number)
          (charge_type : string) (w : World.t number),
      let run := handleAddCharge rt user (Some selectedBooking) charge_date
                   description amount charge_type w in
      fst run = Returned tt
      /\ World.alerts (snd run) = World.alerts w
      /\ Db.folio_charges (World.db (snd run))
         = match decimal_10_2 amount with
           | accepted stored =>
               if negb (Runtime.offline rt (World.sent w))
                  && valid_charge_type charge_type
               then Db.folio_charges (World.db w)
                    ++ [{| FolioCharge.id :=
                             Runtime.gen_random_uuid rt (Db.serial (World.db w));
                           FolioCharge.booking_id := Booking.id selectedBooking;
                           FolioCharge.charge_date := charge_date;
                           FolioCharge.description := description;
                           FolioCharge.amount := stored;
                           FolioCharge.charge_type := charge_type;
                           FolioCharge.posted_by := user |}]
               else Db.folio_charges (World.db w)
           | _ => Db.folio_charges (World.db w)
           end)
  /\ (let amounts amount :=
        map (@FolioCharge.amount float)
          (Db.folio_charges
             (World.db (snd (handleAddCharge (Sample.runtime Sample.reachable)
                               (Some "u-1") (Some Sample.stay101)
                               (Sample.day0 + 2) "Extra bed" amount "extra_bed"
                               Sample.in_house)))) in
      amounts 0.125%float = [1500; 1500; 13 / 100]%float
      /\ amounts 100000000%float = [1500; 1500]%float
      /\ amounts nan = [1500; 1500]%float).
Proof.
  split; [| vm_compute; repeat split; reflexivity].
  intros number N rt user selectedBooking charge_date description amount
         charge_type w. cbv zeta.
  unfold handleAddCharge, bind, request, insert, folio_charges_violation,
    folio_charges_held, amount_violation, amount_held.
  cbn [FolioCharge.amount FolioCharge.charge_type].
  destruct (Runtime.offline rt (World.sent w)); simpl.
  - destruct (decimal_10_2 amount); repeat split.
  - destruct (decimal_10_2 amount); simpl; [| repeat split | repeat split].
    destruct (valid_charge_type charge_type); simpl; repeat split.
Qed.

(** ** The in-house page: extending a stay *)

Lemma ceilDays_of_days (n : Z) : ceilDays (n * MS_PER_DAY) = n.
Proof.
  unfold ceilDays. rewrite <- Z.mul_opp_l, Z.div_mul by discriminate. lia.
Qed.

Lemma toISODate_addDays {number : Type} (rt : Runtime.t number) (day i : Z) :
  fixed_offset rt -> toISODate (addDays rt (dateToTime day) i) = day + i.
Proof.
  intros H. rewrite (addDays_fixed_offset _ _ H). unfold toISODate, dateToTime.
  rewrite <- Z.mul_add_distr_r. apply Z.div_mul. discriminate.
Qed.

(** What is compared of a charge: the booking, the day, the amount and
    the type. *)
Lemma extend_loop_online {number : Type} {N : Number number}
  (rt : Runtime.t number) (user : option uuid)
  (selectedBooking : Booking.t number) :
  online rt ->
  column_value
    (RoomType.base_rate (BookingRoom.room_types (Booking.rooms selectedBooking))) ->
  forall (l : list Z) (w : World.t number),
  exists w',
    for_each l
      (fun (_ : unit) (i : Z) =>
         bind
           (request rt
              (insert rt (@Db.folio_charges number) (@with_folio_charges number)
                 (@folio_charges_violation number _) (@folio_charges_held number _)
                 (fun id =>
                    {| FolioCharge.id := id;
                       FolioCharge.booking_id := Booking.id selectedBooking;
                       FolioCharge.charge_date :=
                         toISODate
                           (addDays rt
                              (dateToTime
                                 (Booking.expected_check_out_date selectedBooking))
                              i);
                       FolioCharge.description :=
                         ("Room Rent - "
                          ++ RoomType.name
                               (BookingRoom.room_types (Booking.rooms selectedBooking))
                          ++ " (Extended)")%string;
                       FolioCharge.amount :=
                         RoomType.base_rate
                           (BookingRoom.room_types (Booking.rooms selectedBooking));
                       FolioCharge.charge_type := "room_rent"%string;
                       FolioCharge.posted_by := user |})))
           (fun _ => ret tt))
      tt w
    = (Returned tt, w')
    /\ map (fun c => (FolioCharge.booking_id c, FolioCharge.charge_date c,
                      FolioCharge.amount c, FolioCharge.charge_type c))
           (Db.folio_charges (World.db w'))
       = map (fun c => (FolioCharge.booking_id c, FolioCharge.charge_date c,
                        FolioCharge.amount c, FolioCharge.charge_type c))
             (Db.folio_charges (World.db w))
         ++ map (fun i =>
                   (Booking.id selectedBooking,
                    toISODate
                      (addDays rt
                         (dateToTime
                            (Booking.expected_check_out_date selectedBooking))
                         i),
                    RoomType.base_rate
                      (BookingRoom.room_types (Booking.rooms selectedBooking)),
                    "room_rent"%string))
                l
    /\ Db.bookings (World.db w') = Db.bookings (World.db w)
    /\ World.alerts w' = World.alerts w.
Proof.
  intros Hon Hcol. induction l as [|i l IH]; intros w.
  - exists w. simpl. rewrite app_nil_r. repeat split.
  - cbn [for_each]. unfold bind at 1. unfold bind at 1.
    rewrite (request_online _ _ Hon).
    match goal with
    | |- context [insert rt _ _ _ _ ?row (World.db w)] =>
        rewrite (insert_charge_stored rt row (World.db w) Hcol eq_refl)
    end.
    cbn [fst snd]. unfold ret at 1.
    match goal with
    | |- context [for_each l _ tt ?w1] => destruct (IH w1) as [w' [E [F [B A]]]]
    end.
    exists w'. split; [exact E |]. split; [|split].
    + rewrite F. cbn [World.db next_serial with_folio_charges Db.folio_charges].
      rewrite map_app. cbn [map FolioCharge.booking_id FolioCharge.charge_date
                              FolioCharge.amount FolioCharge.charge_type].
      rewrite <- app_assoc. reflexivity.
    + rewrite B. reflexivity.
    + rewrite A. reflexivity.
Qed.

(** X6. With the backend reachable, extending a stay from day D to day D'
    posts one room-rent charge at the base rate (a rate as its column
    holds it) for each of the D' - D added nights, and sets the expected
    check-out of the booking to D'.  The charge of night i is dated by
    moving midnight UTC of D by i days on the local clock and reading the
    day in UTC: that is day D + i where the zone keeps one offset all
    year, and it is not across a change of the clocks (in New York an
    extension from 2025-03-09 to 2025-03-11 dates both charges
    2025-03-09).  When D' is not after D (the form admits D' = D) no
    charge is posted, the check-out date is still overwritten, and the
    message still says that room charges were added. *)
Theorem handleExtendStay_posts_each_night :
  (forall (number : Type) (N : Number number) (rt : Runtime.t number)
          (user : option uuid) (selectedBooking : Booking.t number)
          (newCheckoutDate : date) (w : World.t number),
      online rt ->
      column_value
        (RoomType.base_rate
           (BookingRoom.room_types (Booking.rooms selectedBooking))) ->
      let due := Booking.expected_check_out_date selectedBooking in
      let nights := newCheckoutDate - due in
      let w' := snd (handleExtendStay rt user (Some selectedBooking)
                       newCheckoutDate w) in
      map (fun c => (FolioCharge.booking_id c, FolioCharge.charge_date c,
                     FolioCharge.amount c, FolioCharge.charge_type c))
          (Db.folio_charges (World.db w'))
      = map (fun c => (FolioCharge.booking_id c, FolioCharge.charge_date c,
                       FolioCharge.amount c, FolioCharge.charge_type c))
            (Db.folio_charges (World.db w))
        ++ map (fun i =>
                  (Booking.id selectedBooking,
                   toISODate (addDays rt (dateToTime due) i),
                   RoomType.base_rate
                     (BookingRoom.room_types (Booking.rooms selectedBooking)),
                   "room_rent"%string))
               (map Z.of_nat (seq 0 (Z.to_nat nights)))
      /\ (fixed_offset rt ->
          forall i, toISODate (addDays rt (dateToTime due) i) = due + i)
      /\ Db.bookings (World.db w')
         = map (fun b => if String.eqb (Booking.id b) (Booking.id selectedBooking)
                         then set_expected_check_out newCheckoutDate b else b)
               (Db.bookings (World.db w))
      /\ World.alerts w'
         = World.alerts w
           ++ [("Stay extended by " ++ Z_to_string nights
                ++ " night(s). Room charges added.")%string])
  /\ (let due := Example.march_9 in
      let w' := snd (handleExtendStay (Example.new_york Sample.reachable)
                       (Some "u-1"%string)
                       (Some (set_expected_check_out due Sample.stay101))
                       (due + 2) Sample.in_house) in
      map (fun c => FolioCharge.charge_date c - due)
          (skipn (List.length (Db.folio_charges (World.db Sample.in_house)))
                 (Db.folio_charges (World.db w')))
      = [0; 0]
      /\ World.alerts w'
         = ["Stay extended by 2 night(s). Room charges added."%string]).
Proof.
  split; [| vm_compute; split; reflexivity].
  intros number N rt user selectedBooking newCheckoutDate w Hon Hcol. cbv zeta.
  destruct (handleExtendStay rt user (Some selectedBooking) newCheckoutDate w)
    as [o w'] eqn:Run.
  cbn [snd]. unfold handleExtendStay in Run.
  replace (dateToTime newCheckoutDate
           - dateToTime (Booking.expected_check_out_date selectedBooking))
    with ((newCheckoutDate - Booking.expected_check_out_date selectedBooking)
          * MS_PER_DAY) in Run
    by (unfold dateToTime; ring).
  rewrite ceilDays_of_days in Run.
  set (nights := newCheckoutDate - Booking.expected_check_out_date selectedBooking)
    in *.
  split; [| split; [intros Hfixed i; apply (toISODate_addDays _ _ Hfixed) |]].
  - unfold try_catch in Run. unfold bind at 1 in Run.
    destruct (0 <? nights) eqn:Epos.
    + destruct (extend_loop_online user selectedBooking Hon Hcol
                  (map Z.of_nat (seq 0 (Z.to_nat nights))) w)
        as [w1 [E [F [B A]]]].
      rewrite E in Run. unfold bind at 1 in Run.
      rewrite (request_online _ _ Hon) in Run.
      unfold update, alert in Run. cbn [fst snd World.db World.alerts] in Run.
      injection Run as _ <-.
      cbn [World.db World.alerts with_bookings Db.folio_charges Db.bookings].
      rewrite F. reflexivity.
    + assert (Hn : Z.to_nat nights = 0%nat) by (apply Z.ltb_ge in Epos; lia).
      unfold ret at 1 in Run. unfold bind at 1 in Run.
      rewrite (request_online _ _ Hon) in Run.
      unfold update, alert in Run. cbn [fst snd World.db World.alerts] in Run.
      injection Run as _ <-.
      cbn [World.db World.alerts with_bookings Db.folio_charges Db.bookings].
      rewrite Hn. cbn [seq map]. rewrite app_nil_r. reflexivity.
  - unfold try_catch in Run. unfold bind at 1 in Run.
    destruct (0 <? nights) eqn:Epos.
    + destruct (extend_loop_online user selectedBooking Hon Hcol
                  (map Z.of_nat (seq 0 (Z.to_nat nights))) w)
        as [w1 [E [F [B A]]]].
      rewrite E in Run. unfold bind at 1 in Run.
      rewrite (request_online _ _ Hon) in Run.
      unfold update, alert in Run. cbn [fst snd World.db World.alerts] in Run.
      injection Run as _ <-.
      cbn [World.db World.alerts with_bookings Db.folio_charges Db.bookings].
      rewrite B, A. split; reflexivity.
    + unfold ret at 1 in Run. unfold bind at 1 in Run.
      rewrite (request_online _ _ Hon) in Run.
      unfold update, alert in Run. cbn [fst snd World.db World.alerts] in Run.
      injection Run as _ <-.
      cbn [World.db World.alerts with_bookings Db.folio_charges Db.bookings].
      split; reflexivity.
Qed.

Lemma handleExtendStay_posts_each_night_witness :
  let w' := snd (handleExtendStay (Sample.runtime Sample.reachable) (Some "u-1")
                   (Some Sample.stay101) (Sample.day0 + 4) Sample.in_house) in
  online (Sample.runtime Sample.reachable)
  /\ fixed_offset (Sample.runtime Sample.reachable)
  /\ map (fun c => (FolioCharge.charge_date c, FolioCharge.charge_type c))
         (Db.folio_charges (World.db w'))
     = [(Sample.day0, "room_rent"); (Sample.day0 + 1, "room_rent");
        (Sample.day0 + 2, "room_rent"); (Sample.day0 + 3, "room_rent")]%string
  /\ map (@Booking.expected_check_out_date float) (Db.bookings (World.db w'))
     = [Sample.day0 + 4].
Proof.
  cbv zeta.
  assert (Hfixed : fixed_offset (Sample.runtime Sample.reachable))
    by (exists Sample.IST; intros t isUTC; reflexivity).
  pose proof (proj1 handleExtendStay_posts_each_night float binary64
                (Sample.runtime Sample.reachable) (Some "u-1"%string)
                Sample.stay101 (Sample.day0 + 4) Sample.in_house
                (fun n => eq_refl) eq_refl) as H.
  cbv zeta in H. destruct H as [F [D [B _]]].
  split; [intros n; reflexivity |]. split; [exact Hfixed |]. split.
  - apply (f_equal (map (fun k => (snd (fst (fst k)), snd k)))) in F.
    rewrite !map_map in F. cbn [fst snd] in F. rewrite F. reflexivity.
  - rewrite B. reflexivity.
Defined.

(** ** The in-house page: what the handlers report *)

Lemma quiet_ret {number A : Type} (a : A) : quiet (@ret number A a).
Proof. intros w. exists a, w. split; reflexivity. Qed.

Lemma quiet_request {number A : Type} (rt : Runtime.t number)
  (q : Query number A) : quiet (request rt q).
Proof.
  intros w. unfold request. destruct (Runtime.offline rt (World.sent w)).
  - eexists _, _. split; reflexivity.
  - destruct (q (World.db w)) as [r d]. eexists _, _. split; reflexivity.
Qed.

Lemma quiet_bind {number A B : Type} (m : Async number A)
  (k : A -> Async number B) :
  quiet m -> (forall a, quiet (k a)) -> quiet (bind m k).
Proof.
  intros Hm Hk w. destruct (Hm w) as [a [w1 [E A1]]].
  destruct (Hk a w1) as [b [w2 [E2 A2]]].
  exists b, w2. unfold bind. rewrite E, E2.
  split; [reflexivity | rewrite A2; exact A1].
Qed.

Lemma quiet_for_each {number A S : Type} (l : list A)
  (body : S -> A -> Async number S) (s : S) :
  (forall s x, quiet (body s x)) -> quiet (for_each l body s).
Proof.
  intros Hb. revert s. induction l as [|x l IH]; intros s; simpl.
  - apply quiet_ret.
  - apply quiet_bind; [apply Hb | intros s'; apply IH].
Qed.

(** A body that is quiet, followed by a message, inside [try]: the
    message is shown and the handler of [catch] is not run. *)
Lemma quiet_then_alert {number A : Type} (body : Async number A)
  (message : string) (handler : string -> Async number unit)
  (w : World.t number) :
  quiet body ->
  World.alerts (snd (try_catch (bind body (fun _ => alert message)) handler w))
  = World.alerts w ++ [message].
Proof.
  intros Hq. destruct (Hq w) as [a [w1 [E A1]]].
  unfold try_catch, bind. rewrite E. simpl. rewrite A1. reflexivity.
Qed.

Lemma request_unreachable {number A : Type} (rt : Runtime.t number)
  (q : Query number A) :
  unreachable rt -> keeps eq (request rt q).
Proof. intros H w. unfold request. rewrite H. reflexivity. Qed.

(** One step down a handler none of whose requests gets through. *)
Ltac unreachable_step :=
  first
    [ apply request_unreachable; assumption
    | apply keeps_ret; assumption
    | apply keeps_throw; assumption
    | apply keeps_alert; assumption
    | apply keeps_Date_now; assumption
    | apply keeps_bind; [assumption | | intros ?]
    | apply keeps_try_catch; [assumption | | intros ?]
    | apply keeps_for_each; [assumption | assumption | intros ? ?]
    | match goal with
      | |- keeps _ (match ?x with _ => _ end) => destruct x eqn:?
      | |- keeps _ (let (_, _) := ?x in _) => destruct x eqn:?
      end ].

(** X7. The handlers that extend a stay and change a room never report a
    failure: a request that fails resolves to an error that is not read,
    so the branch that would show the error is never taken.  Whatever is
    lost, the operator reads that the stay was extended and charges added,
    or that the room was changed; with every request lost, the database is
    what it was. *)
Theorem in_house_handlers_always_report_success :
  forall (number : Type) (N : Number number) (rt : Runtime.t number)
         (user : option uuid) (selectedBooking : Booking.t number)
         (newCheckoutDate : date) (newRoomId : string) (w : World.t number),
    let extended := snd (handleExtendStay rt user (Some selectedBooking)
                           newCheckoutDate w) in
    let changed := snd (handleRoomChange rt (Some selectedBooking) newRoomId w) in
    World.alerts extended
    = World.alerts w
      ++ [("Stay extended by "
           ++ Z_to_string
                (ceilDays (dateToTime newCheckoutDate
                           - dateToTime
                               (Booking.expected_check_out_date selectedBooking)))
           ++ " night(s). Room charges added.")%string]
    /\ World.alerts changed = World.alerts w ++ ["Room changed successfully!"%string]
    /\ (unreachable rt ->
        World.db extended = World.db w /\ World.db changed = World.db w).
Proof.
  intros number N rt user selectedBooking newCheckoutDate newRoomId w. cbv zeta.
  split; [|split].
  - unfold handleExtendStay.
    match goal with
    | |- context [try_catch (bind ?m (fun _ => bind ?u (fun _ => alert ?msg))) ?h] =>
        assert (Q : quiet (bind m (fun _ => u)))
    end.
    { apply quiet_bind.
      - destruct (0 <? _).
        + apply quiet_for_each. intros s x.
          apply quiet_bind; [apply quiet_request | intros; apply quiet_ret].
        + apply quiet_ret.
      - intros _. apply quiet_request. }
    destruct (Q w) as [a [w1 [E A1]]].
    unfold try_catch, bind in *.
    destruct (if 0 <? _ then _ else _) as [[x|e] w0] eqn:E0 in E |- *.
    + destruct (request rt _ w0) as [[y|e] w2] eqn:E2 in E |- *.
      * injection E as _ <-. simpl. rewrite A1. reflexivity.
      * discriminate E.
    + discriminate E.
  - unfold handleRoomChange.
    assert (Q : forall q1 q2 q3 : Query number unit,
               quiet (bind (request rt q1)
                        (fun _ => bind (request rt q2) (fun _ => request rt q3)))).
    { intros q1 q2 q3. apply quiet_bind; [apply quiet_request | intros _].
      apply quiet_bind; [apply quiet_request | intros _]. apply quiet_request. }
    match goal with
    | |- context [bind (request rt ?q1)
                    (fun _ => bind (request rt ?q2)
                                (fun _ => bind (request rt ?q3) _))] =>
        destruct (Q q1 q2 q3 w) as [a [w1 [E A1]]]
    end.
    unfold try_catch, bind in *.
    destruct (request rt _ w) as [[x|e] w0] eqn:E0 in E |- *; [|discriminate E].
    destruct (request rt _ w0) as [[y|e] w2] eqn:E2 in E |- *; [|discriminate E].
    destruct (request rt _ w2) as [[z|e] w3] eqn:E3 in E |- *; [|discriminate E].
    injection E as _ <-. simpl. rewrite A1. reflexivity.
  - intros Hun.
    pose proof (@eq_refl (Db.t number)) as Rr.
    pose proof (@eq_trans (Db.t number)) as Rt.
    split.
    + assert (K : keeps eq (handleExtendStay rt user (Some selectedBooking)
                              newCheckoutDate)).
      { unfold handleExtendStay. repeat unreachable_step. }
      symmetry. apply (K w).
    + assert (K : keeps eq (handleRoomChange rt (Some selectedBooking) newRoomId)).
      { unfold handleRoomChange. repeat unreachable_step. }
      symmetry. apply (K w).
Qed.

Lemma in_house_handlers_always_report_success_witness :
  let rt := Example.cut_off in
  let extended := snd (handleExtendStay rt (Some "u-1"%string) (Some Sample.stay101)
                         (Sample.day0 + 3) Sample.in_house) in
  let changed := snd (handleRoomChange rt (Some Sample.stay101)
                        (Room.id (Sample.room102 vacant_clean)) Sample.in_house) in
  unreachable rt
  /\ World.db extended = World.db Sample.in_house
  /\ World.db changed = World.db Sample.in_house
  /\ World.alerts extended
     = ["Stay extended by 1 night(s). Room charges added."%string]
  /\ World.alerts changed = ["Room changed successfully!"%string].
Proof.
  cbv zeta.
  pose proof (@in_house_handlers_always_report_success float binary64
                Example.cut_off (Some "u-1"%string)
                Sample.stay101 (Sample.day0 + 3)
                (Room.id (Sample.room102 vacant_clean)) Sample.in_house) as H.
  cbv zeta in H. destruct H as [A1 [A2 D]].
  assert (Hun : unreachable Example.cut_off) by (intros n; reflexivity).
  destruct (D Hun) as [D1 D2].
  split; [exact Hun |]. split; [exact D1 |]. split; [exact D2 |].
  split; [rewrite A1; reflexivity | rewrite A2; reflexivity].
Defined.

(** ** The in-house page: changing the room *)

Lemma find_room_after {number : Type} (f : Room.t number -> Room.t number)
  (id : uuid) (rooms : list (Room.t number)) :
  (forall r, Room.id (f r) = Room.id r) ->
  find (fun r => String.eqb (Room.id r) id) (map f rooms)
  = option_map f (find (fun r => String.eqb (Room.id r) id) rooms).
Proof.
  intros Hid. induction rooms as [|r rooms IH]; simpl.
  - reflexivity.
  - rewrite Hid. destruct (String.eqb (Room.id r) id); [reflexivity | exact IH].
Qed.

Lemma move_to_same {number : Type} (r r' : Room.t number) :
  Room.id r = Room.id r' ->
  Room.room_number r = Room.room_number r' ->
  Room.room_types r = Room.room_types r' ->
  move_to r = move_to r'.
Proof.
  destruct r, r'. simpl. intros -> -> ->. reflexivity.
Qed.

(** X8. With the backend reachable, changing the room of a booking to
    any room the database holds marks the old room vacant and dirty, the
    new room occupied, and moves every booking row with that id to the new
    room.  The status of the new room is not looked at: a booking can be
    moved into a room another booking occupies. *)
Theorem handleRoomChange_moves_booking :
  forall (number : Type) (N : Number number) (rt : Runtime.t number)
         (selectedBooking : Booking.t number) (newRoomId : string)
         (room : Room.t number) (w : World.t number),
    online rt ->
    find (fun r => String.eqb (Room.id r) newRoomId) (Db.rooms (World.db w))
    = Some room ->
    let w' := snd (handleRoomChange rt (Some selectedBooking) newRoomId w) in
    map (fun r => (Room.id r, Room.status r)) (Db.rooms (World.db w'))
    = map (fun r =>
             (Room.id r,
              if String.eqb (Room.id r) newRoomId then occupied
              else if String.eqb (Room.id r)
                        (BookingRoom.id (Booking.rooms selectedBooking))
                   then vacant_dirty
                   else Room.status r))
          (Db.rooms (World.db w))
    /\ Db.bookings (World.db w')
       = map (fun b => if String.eqb (Booking.id b) (Booking.id selectedBooking)
                       then move_to room b else b)
             (Db.bookings (World.db w))
    /\ Db.folio_charges (World.db w') = Db.folio_charges (World.db w)
    /\ Db.payments (World.db w') = Db.payments (World.db w).
Proof.
  intros number N rt selectedBooking newRoomId room w Hon Hroom. cbv zeta.
  destruct (handleRoomChange rt (Some selectedBooking) newRoomId w)
    as [o w'] eqn:Run.
  cbn [snd]. unfold handleRoomChange, try_catch in Run.
  unfold bind at 1 in Run. rewrite (request_online _ _ Hon) in Run.
  unfold bind at 1 in Run. rewrite (request_online _ _ Hon) in Run.
  unfold bind at 1 in Run. rewrite (request_online _ _ Hon) in Run.
  unfold update, update_room_id, alert in Run.
  cbn [fst snd World.db World.alerts World.sent World.clock with_rooms
       Db.rooms Db.bookings] in Run.
  rewrite !find_room_after in Run
    by (intros r; cbv beta; destruct (String.eqb _ _); reflexivity).
  rewrite Hroom in Run. cbn [option_map] in Run.
  set (old := BookingRoom.id (Booking.rooms selectedBooking)) in *.
  match type of Run with
  | context [move_to ?X] =>
      replace (move_to X) with (move_to room) in Run
        by (apply move_to_same;
            repeat match goal with
                   | |- context [if ?c then _ else _] => destruct c
                   end; reflexivity)
  end.
  assert (Hrooms :
            map (fun r => (Room.id r, Room.status r))
                (map (fun r => if String.eqb (Room.id r) newRoomId
                               then set_room_status occupied r else r)
                     (map (fun r => if String.eqb (Room.id r) old
                                    then set_room_status vacant_dirty r else r)
                          (Db.rooms (World.db w))))
            = map (fun r =>
                     (Room.id r,
                      if String.eqb (Room.id r) newRoomId then occupied
                      else if String.eqb (Room.id r) old then vacant_dirty
                           else Room.status r))
                  (Db.rooms (World.db w))).
  { rewrite !map_map. apply map_ext. intros r.
    destruct (String.eqb (Room.id r) old) eqn:Eo; simpl;
      [| destruct (String.eqb (Room.id r) newRoomId); reflexivity].
    destruct (String.eqb (Room.id r) newRoomId); reflexivity. }
  destruct (existsb _ (Db.bookings (World.db w))) eqn:Ex in Run.
  - cbn [fst snd World.db World.alerts with_bookings with_rooms
         Db.rooms Db.bookings Db.folio_charges Db.payments] in Run.
    injection Run as _ <-.
    cbn [World.db with_bookings with_rooms Db.rooms Db.bookings
         Db.folio_charges Db.payments].
    rewrite Hrooms. repeat split.
  - cbn [fst snd World.db World.alerts with_bookings with_rooms
         Db.rooms Db.bookings Db.folio_charges Db.payments] in Run.
    injection Run as _ <-.
    cbn [World.db with_bookings with_rooms Db.rooms Db.bookings
         Db.folio_charges Db.payments].
    rewrite Hrooms. repeat split.
    symmetry. rewrite <- (map_id (Db.bookings (World.db w))) at 2.
    apply map_ext_in. intros b Hb.
    destruct (String.eqb (Booking.id b) (Booking.id selectedBooking)) eqn:Eb;
      [|reflexivity].
    exfalso.
    assert (Hex : existsb (fun b0 => String.eqb (Booking.id b0)
                                       (Booking.id selectedBooking))
                    (Db.bookings (World.db w)) = true).
    { apply existsb_exists. exists b. split; assumption. }
    rewrite Hex in Ex. discriminate Ex.
Qed.

Lemma handleRoomChange_moves_booking_witness :
  let rt := Sample.runtime Sample.reachable in
  let w' := snd (handleRoomChange rt (Some Sample.stay101)
                   (Room.id (Sample.room102 occupied)) Example.full_house) in
  online rt
  /\ find (fun r => String.eqb (Room.id r) (Room.id (Sample.room102 occupied)))
          (Db.rooms (World.db Example.full_house))
     = Some (Sample.room102 occupied)
  /\ map (@Room.status float) (Db.rooms (World.db w')) = [vacant_dirty; occupied]
  /\ map (fun b => (Booking.room_id b, Booking.status b))
         (Db.bookings (World.db w'))
     = [(Room.id (Sample.room102 occupied), checked_in);
        (Room.id (Sample.room102 occupied), checked_in)].
Proof.
  cbv zeta.
  pose proof (@handleRoomChange_moves_booking float binary64
                (Sample.runtime Sample.reachable) Sample.stay101
                (Room.id (Sample.room102 occupied)) (Sample.room102 occupied)
                Example.full_house (fun n => eq_refl) eq_refl) as H.
  cbv zeta in H. destruct H as [R [B _]].
  split; [intros n; reflexivity |]. split; [reflexivity |]. split.
  - apply (f_equal (map snd)) in R. rewrite !map_map in R. cbn [snd] in R.
    exact (eq_trans R eq_refl).
  - rewrite B. reflexivity.
Defined.

(** ** Checkout: the final payment *)

Lemma payments_unchanged_refl {number : Type} (d : Db.t number) :
  payments_unchanged d d.
Proof. reflexivity. Qed.

Lemma payments_unchanged_trans {number : Type} (a b c : Db.t number) :
  payments_unchanged a b -> payments_unchanged b c -> payments_unchanged a c.
Proof. unfold payments_unchanged. intros H1 H2. rewrite H2. exact H1. Qed.

(** Without a final payment, checkout leaves the payments as they are. *)
Lemma confirmCheckout_without_payment {number : Type} {N : Number number}
  (rt : Runtime.t number) (user : option uuid)
  (selectedBooking : Booking.t number) (taxes : TaxConfig.t number) :
  keeps payments_unchanged
    (confirmCheckout rt user (Some selectedBooking) None taxes).
Proof.
  pose proof (@payments_unchanged_refl number) as Rr.
  pose proof (@payments_unchanged_trans number) as Rt.
  unfold confirmCheckout, archiveInvoice, archiveGRC.
  keeps_all ltac:(unfold payments_unchanged; reflexivity).
Qed.

(** A final payment that is not positive is no payment. *)
Lemma confirmCheckout_not_positive {number : Type} {N : Number number}
  (rt : Runtime.t number) (user : option uuid)
  (selectedBooking : Booking.t number) (payment : CheckoutPaymentData.t number)
  (taxes : TaxConfig.t number) (w : World.t number) :
  gt (CheckoutPaymentData.amount payment) (of_Z 0) = false ->
  confirmCheckout rt user (Some selectedBooking) (Some payment) taxes w
  = confirmCheckout rt user (Some selectedBooking) None taxes w.
Proof.
  intros Hgt. unfold confirmCheckout. rewrite Hgt. reflexivity.
Qed.

(** A final payment whose insert does not get through, or is refused. *)
Lemma confirmCheckout_payment_not_stored {number : Type} {N : Number number}
  (rt : Runtime.t number) (user : option uuid)
  (selectedBooking : Booking.t number) (payment : CheckoutPaymentData.t number)
  (taxes : TaxConfig.t number) (w : World.t number) :
  gt (CheckoutPaymentData.amount payment) (of_Z 0) = true ->
  Runtime.offline rt (World.sent w) = true
  \/ valid_payment_mode (CheckoutPaymentData.mode payment) = false
  \/ amount_violation (CheckoutPaymentData.amount payment) <> None ->
  confirmCheckout rt user (Some selectedBooking) (Some payment) taxes w
  = confirmCheckout rt user (Some selectedBooking) None taxes
      {| World.db := World.db w; World.sent := S (World.sent w);
         World.alerts := World.alerts w; World.clock := World.clock w |}.
Proof.
  intros Hgt Hno.
  unfold confirmCheckout, try_catch, bind at 1 2 3 4 5 6 7 8.
  rewrite Hgt. unfold bind at 1 2, Date_now at 1, request at 1.
  destruct (Runtime.offline rt (World.sent w)) eqn:Off.
  - reflexivity.
  - unfold insert, payments_violation.
    cbn [Payment.amount Payment.payment_mode].
    destruct (amount_violation (CheckoutPaymentData.amount payment)) eqn:Ev;
      [reflexivity |].
    destruct (valid_payment_mode (CheckoutPaymentData.mode payment)) eqn:Em.
    + exfalso. destruct Hno as [H | [H | H]];
        [discriminate H | discriminate H | exact (H eq_refl)].
    + reflexivity.
Qed.

Lemma falsy_is_not_positive (x : float) :
  falsy x = true -> PrimFloat.ltb 0 x = false.
Proof.
  unfold falsy. simpl. unfold PrimFloat.is_nan.
  rewrite FloatAxioms.ltb_spec, !FloatAxioms.eqb_spec.
  destruct (Prim2SF x) as [[|]|[|]| |[|] m e]; simpl; try reflexivity.
  - intros H. discriminate H.
  - unfold SFeqb, SFcompare. rewrite Z.compare_refl, Pos.compare_refl.
    intros H. discriminate H.
Qed.

(** X9. Checkout records a final payment exactly when the amount typed
    parses to a number greater than zero that fits the [decimal(10,2)]
    column, its mode is one the schema admits and the request gets
    through; the payments then gain that one row, for the amount rounded
    to two decimals, and nothing else.  An amount that is blank or no
    number (NaN), zero or negative, or too large for the column, records
    nothing, whatever else happens at checkout: a final payment of
    100000000 leaves the payments as they were. *)
Theorem checkout_records_positive_payment_only :
  (forall (rt : Runtime.t float) (user : option uuid)
          (selectedBooking : Booking.t float) (parsed : float)
          (paymentMode : string)
          (checkoutPaymentData : option (CheckoutPaymentData.t float))
          (taxes : TaxConfig.t float) (w : World.t float),
      let entered := handleCheckout (Some selectedBooking) parsed paymentMode
                       checkoutPaymentData in
      let w' := snd (confirmCheckout rt user (Some selectedBooking) entered
                       taxes w) in
      Db.payments (World.db w')
      = match decimal_10_2 parsed with
        | accepted stored =>
            if PrimFloat.ltb 0 parsed && valid_payment_mode paymentMode
               && negb (Runtime.offline rt (World.sent w))
            then Db.payments (World.db w)
                 ++ [{| Payment.id :=
                          Runtime.gen_random_uuid rt (Db.serial (World.db w));
                        Payment.booking_id := Booking.id selectedBooking;
                        Payment.payment_date := World.clock w;
                        Payment.amount := stored;
                        Payment.payment_mode := paymentMode;
                        Payment.received_by := user |}]
            else Db.payments (World.db w)
        | _ => Db.payments (World.db w)
        end)
  /\ (let paid parsed :=
        map (@Payment.amount float)
          (Db.payments
             (World.db
                (snd (confirmCheckout (Sample.runtime Sample.reachable)
                        (Some "u-1") (Some Sample.stay101)
                        (handleCheckout (Some Sample.stay101) parsed "upi" None)
                        (Sample.gst 6 6) Sample.in_house)))) in
      paid 2360%float = [1000; 2360]%float
      /\ paid 0.125%float = [1000; 13 / 100]%float
      /\ paid 100000000%float = [1000]%float).
Proof.
  split; [| vm_compute; repeat split; reflexivity].
  intros rt user selectedBooking parsed paymentMode checkoutPaymentData taxes w.
  cbv zeta. unfold handleCheckout, number_or.
  destruct (PrimFloat.ltb 0 parsed) eqn:Epos.
  - assert (Hf : falsy parsed = false).
    { destruct (falsy parsed) eqn:F; [|reflexivity].
      rewrite (falsy_is_not_positive _ F) in Epos. discriminate Epos. }
    rewrite Hf.
    assert (Hdrop :
              Runtime.offline rt (World.sent w) = true
              \/ valid_payment_mode paymentMode = false
              \/ amount_violation parsed <> None ->
              Db.payments
                (World.db
                   (snd (confirmCheckout rt user (Some selectedBooking)
                           (Some {| CheckoutPaymentData.amount := parsed;
                                    CheckoutPaymentData.mode := paymentMode |})
                           taxes w)))
              = Db.payments (World.db w)).
    { intros Hno.
      rewrite (@confirmCheckout_payment_not_stored float binary64 rt user
                 selectedBooking
                 {| CheckoutPaymentData.amount := parsed;
                    CheckoutPaymentData.mode := paymentMode |}
                 taxes w Epos Hno).
      match goal with
      | |- context [confirmCheckout rt user _ None taxes ?w1] =>
          exact (confirmCheckout_without_payment rt user selectedBooking taxes w1)
      end. }
    destruct (decimal_10_2 parsed) as [stored| |] eqn:Hdec.
    + destruct (valid_payment_mode paymentMode) eqn:Emode;
        [destruct (Runtime.offline rt (World.sent w)) eqn:Off |].
      * apply Hdrop. left. reflexivity.
      * rewrite (@confirmCheckout_after_payment float binary64 rt user
                   selectedBooking
                   {| CheckoutPaymentData.amount := parsed;
                      CheckoutPaymentData.mode := paymentMode |}
                   stored taxes w Epos Hdec Emode Off).
        match goal with
        | |- context [confirmCheckout rt user _ None taxes ?w1] =>
            rewrite (confirmCheckout_without_payment rt user selectedBooking
                       taxes w1)
        end.
        reflexivity.
      * apply Hdrop. right. left. reflexivity.
    + apply Hdrop. right. right. apply amount_refused.
      intros stored E. cbn [CheckoutPaymentData.amount] in E.
      rewrite Hdec in E. discriminate E.
    + apply Hdrop. right. right. apply amount_refused.
      intros stored E. cbn [CheckoutPaymentData.amount] in E.
      rewrite Hdec in E. discriminate E.
  - assert (E : Db.payments
                  (World.db
                     (snd (confirmCheckout rt user (Some selectedBooking)
                             (Some {| CheckoutPaymentData.amount :=
                                        if falsy parsed then of_Z 0 else parsed;
                                      CheckoutPaymentData.mode := paymentMode |})
                             taxes w)))
                = Db.payments (World.db w)).
    { rewrite confirmCheckout_not_positive.
      - exact (confirmCheckout_without_payment rt user selectedBooking taxes w).
      - destruct (falsy parsed); [reflexivity | exact Epos]. }
    rewrite E. destruct (decimal_10_2 parsed); reflexivity.
Qed.

(** ** Checkout with the backend reachable *)

Lemma archiveInvoice_run_online {number : Type} {N : Number number}
  (rt : Runtime.t number) (booking : Booking.t number)
  (folioCharges : list (FolioCharge.t number))
  (payments : list (Payment.t number)) (taxes : TaxConfig.t number)
  (w : World.t number) :
  online rt ->
  exists doc,
    archiveInvoice rt booking folioCharges payments taxes w
    = (Returned
         {| ArchiveResult.success := true;
            ArchiveResult.documentNumber :=
              Some (documentNumber hotelConfig.invoice_prefix (Booking.id booking));
            ArchiveResult.error := None |},
       {| World.db :=
            next_serial
              (with_guest_documents (World.db w)
                 (Db.guest_documents (World.db w) ++ [doc]));
          World.sent := S (World.sent w);
          World.alerts := World.alerts w;
          World.clock := World.clock w |})
    /\ listing doc
       = ("invoice"%string,
          documentNumber hotelConfig.invoice_prefix (Booking.id booking),
          Booking.id booking)
    /\ GuestDocument.guest_id doc = Guest.id (Booking.guests booking)
    /\ DocumentData.charges (GuestDocument.document_data doc) = folioCharges
    /\ DocumentData.payments (GuestDocument.document_data doc) = payments
    /\ DocumentData.taxes (GuestDocument.document_data doc) = taxes
    /\ reproduces_totals doc.
Proof.
  intros Hon. unfold archiveInvoice, try_catch, bind, Date_now.
  rewrite (request_online _ _ Hon). unfold insert. simpl.
  eexists. split; [reflexivity |]. repeat split.
Qed.

Lemma archiveGRC_run_online {number : Type} {N : Number number}
  (rt : Runtime.t number) (booking : Booking.t number)
  (taxes : TaxConfig.t number) (w : World.t number) :
  online rt ->
  exists doc,
    archiveGRC rt booking taxes w
    = (Returned
         {| ArchiveResult.success := true;
            ArchiveResult.documentNumber :=
              Some (documentNumber hotelConfig.grc_prefix (Booking.id booking));
            ArchiveResult.error := None |},
       {| World.db :=
            next_serial
              (with_guest_documents (World.db w)
                 (Db.guest_documents (World.db w) ++ [doc]));
          World.sent := S (World.sent w);
          World.alerts := World.alerts w;
          World.clock := World.clock w |})
    /\ listing doc
       = ("grc"%string,
          documentNumber hotelConfig.grc_prefix (Booking.id booking),
          Booking.id booking)
    /\ GuestDocument.guest_id doc = Guest.id (Booking.guests booking).
Proof.
  intros Hon. unfold archiveGRC, try_catch, bind, Date_now.
  rewrite (request_online _ _ Hon). unfold insert. simpl.
  eexists. split; [reflexivity |]. repeat split.
Qed.

(** Checkout without a final payment, step by step. *)
Lemma confirmCheckout_run_online {number : Type} {N : Number number}
  (rt : Runtime.t number) (user : option uuid)
  (selectedBooking : Booking.t number) (taxes : TaxConfig.t number)
  (w : World.t number) :
  online rt ->
  exists w',
    confirmCheckout rt user (Some selectedBooking) None taxes w = (Returned tt, w')
    /\ Db.bookings (World.db w')
       = map (fun b => if String.eqb (Booking.id b) (Booking.id selectedBooking)
                       then close_booking (World.clock w) user b else b)
             (Db.bookings (World.db w))
    /\ Db.rooms (World.db w')
       = map (fun r => if String.eqb (Room.id r)
                            (BookingRoom.id (Booking.rooms selectedBooking))
                       then set_room_status vacant_dirty r else r)
             (Db.rooms (World.db w))
    /\ Db.folio_charges (World.db w') = Db.folio_charges (World.db w)
    /\ Db.payments (World.db w') = Db.payments (World.db w)
    /\ World.alerts w'
       = World.alerts w
         ++ ["Check-out completed successfully! Invoice and GRC have been archived."%string]
    /\ World.clock w' = World.clock w
    /\ match filter (fun b => String.eqb (Booking.id b) (Booking.id selectedBooking))
                    (Db.bookings (World.db w)) with
       | [bookingData] =>
           exists invoice grc,
             Db.guest_documents (World.db w')
             = Db.guest_documents (World.db w) ++ [invoice; grc]
             /\ listing invoice
                = ("invoice"%string,
                   documentNumber hotelConfig.invoice_prefix
                     (Booking.id selectedBooking),
                   Booking.id selectedBooking)
             /\ listing grc
                = ("grc"%string,
                   documentNumber hotelConfig.grc_prefix (Booking.id selectedBooking),
                   Booking.id selectedBooking)
             /\ GuestDocument.guest_id invoice = Booking.guest_id bookingData
             /\ GuestDocument.guest_id grc = Booking.guest_id bookingData
             /\ DocumentData.charges (GuestDocument.document_data invoice)
                = filter (fun c => String.eqb (FolioCharge.booking_id c)
                                     (Booking.id selectedBooking))
                         (Db.folio_charges (World.db w))
             /\ DocumentData.payments (GuestDocument.document_data invoice)
                = filter (fun p => String.eqb (Payment.booking_id p)
                                     (Booking.id selectedBooking))
                         (Db.payments (World.db w))
             /\ DocumentData.taxes (GuestDocument.document_data invoice) = taxes
             /\ reproduces_totals invoice
       | _ => Db.guest_documents (World.db w') = Db.guest_documents (World.db w)
       end.
Proof.
  intros Hon.
  destruct (confirmCheckout rt user (Some selectedBooking) None taxes w)
    as [o w'] eqn:Run.
  unfold confirmCheckout, try_catch in Run.
  unfold bind at 1, ret at 1 in Run.
  unfold bind at 1 in Run. rewrite (request_online _ _ Hon) in Run.
  unfold bind at 1 in Run. rewrite (request_online _ _ Hon) in Run.
  unfold bind at 1 in Run. rewrite (request_online _ _ Hon) in Run.
  unfold single, select in Run.
  cbn [fst snd World.db World.sent World.alerts World.clock] in Run.
  set (found := filter (fun b => String.eqb (Booking.id b) (Booking.id selectedBooking))
                       (Db.bookings (World.db w))) in *.
  assert (Skip : forall (r : Response (Booking.t number)) (w0 : World.t number),
             data_of r = None ->
             World.db w0 = World.db w -> World.alerts w0 = World.alerts w ->
             World.clock w0 = World.clock w ->
             forall o1 w1,
               bind (match data_of r with
                     | Some bookingData =>
                         bind (archiveInvoice rt
                                 (with_guest_id selectedBooking
                                    (Booking.guest_id bookingData))
                                 (filter (fun c => String.eqb (FolioCharge.booking_id c)
                                                     (Booking.id selectedBooking))
                                         (Db.folio_charges (World.db w)))
                                 (filter (fun p => String.eqb (Payment.booking_id p)
                                                     (Booking.id selectedBooking))
                                         (Db.payments (World.db w)))
                                 taxes)
                           (fun _ =>
                              bind (archiveGRC rt
                                      (with_guest_id selectedBooking
                                         (Booking.guest_id bookingData))
                                      taxes)
                                (fun _ => ret tt))
                     | None => ret tt
                     end)
                 (fun _ =>
                    bind Date_now
                      (fun now =>
                         bind (request rt
                                 (update (@Db.bookings number) (@with_bookings number)
                                    (fun b => String.eqb (Booking.id b)
                                                (Booking.id selectedBooking))
                                    (close_booking now user)))
                           (fun _ =>
                              bind (request rt
                                      (update (@Db.rooms number) (@with_rooms number)
                                         (fun r => String.eqb (Room.id r)
                                                     (BookingRoom.id
                                                        (Booking.rooms selectedBooking)))
                                         (set_room_status vacant_dirty)))
                                (fun _ =>
                                   alert "Check-out completed successfully! Invoice and GRC have been archived."))))
                 w0 = (o1, w1) ->
               o1 = Returned tt
               /\ Db.bookings (World.db w1)
                  = map (fun b => if String.eqb (Booking.id b) (Booking.id selectedBooking)
                                  then close_booking (World.clock w) user b else b)
                        (Db.bookings (World.db w))
               /\ Db.rooms (World.db w1)
                  = map (fun r => if String.eqb (Room.id r)
                                       (BookingRoom.id (Booking.rooms selectedBooking))
                                  then set_room_status vacant_dirty r else r)
                        (Db.rooms (World.db w))
               /\ Db.folio_charges (World.db w1) = Db.folio_charges (World.db w)
               /\ Db.payments (World.db w1) = Db.payments (World.db w)
               /\ World.alerts w1
                  = World.alerts w
                    ++ ["Check-out completed successfully! Invoice and GRC have been archived."%string]
               /\ World.clock w1 = World.clock w
               /\ Db.guest_documents (World.db w1) = Db.guest_documents (World.db w)).
  { intros r w0 Hr Hd Ha Hc o1 w1 E. rewrite Hr in E.
    unfold bind at 1, ret at 1 in E.
    unfold bind at 1, Date_now at 1 in E.
    unfold bind at 1 in E. rewrite (request_online _ _ Hon) in E.
    unfold bind at 1 in E. rewrite (request_online _ _ Hon) in E.
    unfold update, alert in E.
    cbn [fst snd World.db World.sent World.alerts World.clock] in E.
    injection E as <- <-.
    cbn [World.db World.alerts World.clock with_rooms with_bookings Db.bookings
         Db.rooms Db.folio_charges Db.payments Db.guest_documents].
    rewrite Hd, Ha, Hc. repeat split. }
  destruct found as [|bookingData [|other others]] eqn:Efound.
  - cbn [fst snd] in Run.
    match type of Run with
    | (let (_, _) := ?m in _) = _ => destruct m as [o1 w1] eqn:E1
    end.
    match type of E1 with
    | bind _ _ ?w0 = _ =>
        destruct (Skip (Error "JSON object requested, multiple (or no) rows returned")
                    w0 eq_refl eq_refl eq_refl eq_refl _ _ E1)
          as [-> [B [R [F [P [A [C D]]]]]]]
    end.
    injection Run as <- <-. exists w1. repeat split; assumption.
  - cbn [fst snd data_of] in Run.
    match type of Run with
    | (let (_, _) := ?m in _) = _ => destruct m as [o1 w1] eqn:E1
    end.
    unfold bind at 1 in E1. unfold bind at 1 in E1.
    match type of E1 with
    | context [archiveInvoice rt ?ab ?fc ?fp taxes ?w0] =>
        destruct (archiveInvoice_run_online ab fc fp taxes w0 Hon)
          as [invoice [EI [LI [GI [CI [PI [TI RI]]]]]]]
    end.
    rewrite EI in E1. unfold bind at 1 in E1.
    match type of E1 with
    | context [archiveGRC rt ?ab taxes ?w0] =>
        destruct (archiveGRC_run_online ab taxes w0 Hon) as [grc [EG [LG GG]]]
    end.
    rewrite EG in E1. unfold ret at 1 in E1.
    unfold bind at 1, Date_now at 1 in E1.
    unfold bind at 1 in E1. rewrite (request_online _ _ Hon) in E1.
    unfold bind at 1 in E1. rewrite (request_online _ _ Hon) in E1.
    unfold update, alert in E1.
    cbn [fst snd World.db World.sent World.alerts World.clock] in E1.
    injection E1 as <- <-. injection Run as <- <-.
    eexists. split; [reflexivity |].
    cbn [World.db World.alerts World.clock with_rooms with_bookings
         with_guest_documents next_serial Db.bookings
         Db.rooms Db.folio_charges Db.payments Db.guest_documents].
    repeat split.
    exists invoice, grc. rewrite <- app_assoc.
    repeat split; assumption.
  - cbn [fst snd] in Run.
    match type of Run with
    | (let (_, _) := ?m in _) = _ => destruct m as [o1 w1] eqn:E1
    end.
    match type of E1 with
    | bind _ _ ?w0 = _ =>
        destruct (Skip (Error "JSON object requested, multiple (or no) rows returned")
                    w0 eq_refl eq_refl eq_refl eq_refl _ _ E1)
          as [-> [B [R [F [P [A [C D]]]]]]]
    end.
    injection Run as <- <-. exists w1. repeat split; assumption.
Qed.

(** Whatever the payment entered, checkout goes on as a checkout without
    a final payment, from a world that differs only in its payments. *)
Lemma confirmCheckout_after_payment_step {number : Type} {N : Number number}
  (rt : Runtime.t number) (user : option uuid)
  (selectedBooking : Booking.t number)
  (checkoutPaymentData : option (CheckoutPaymentData.t number))
  (taxes : TaxConfig.t number) (w : World.t number) :
  exists w1,
    confirmCheckout rt user (Some selectedBooking) checkoutPaymentData taxes w
    = confirmCheckout rt user (Some selectedBooking) None taxes w1
    /\ Db.bookings (World.db w1) = Db.bookings (World.db w)
    /\ Db.rooms (World.db w1) = Db.rooms (World.db w)
    /\ Db.folio_charges (World.db w1) = Db.folio_charges (World.db w)
    /\ Db.guest_documents (World.db w1) = Db.guest_documents (World.db w)
    /\ World.alerts w1 = World.alerts w
    /\ World.clock w1 = World.clock w.
Proof.
  destruct checkoutPaymentData as [payment|].
  - destruct (gt (CheckoutPaymentData.amount payment) (of_Z 0)) eqn:Hgt.
    + assert (Hdrop :
                Runtime.offline rt (World.sent w) = true
                \/ valid_payment_mode (CheckoutPaymentData.mode payment) = false
                \/ amount_violation (CheckoutPaymentData.amount payment) <> None ->
                exists w1,
                  confirmCheckout rt user (Some selectedBooking) (Some payment)
                    taxes w
                  = confirmCheckout rt user (Some selectedBooking) None taxes w1
                  /\ Db.bookings (World.db w1) = Db.bookings (World.db w)
                  /\ Db.rooms (World.db w1) = Db.rooms (World.db w)
                  /\ Db.folio_charges (World.db w1) = Db.folio_charges (World.db w)
                  /\ Db.guest_documents (World.db w1)
                     = Db.guest_documents (World.db w)
                  /\ World.alerts w1 = World.alerts w
                  /\ World.clock w1 = World.clock w).
      { intros Hno. eexists. split;
          [apply (confirmCheckout_payment_not_stored rt user selectedBooking
                    payment taxes w Hgt Hno) |].
        repeat split. }
      destruct (Runtime.offline rt (World.sent w)) eqn:Off;
        [apply Hdrop; left; reflexivity |].
      destruct (valid_payment_mode (CheckoutPaymentData.mode payment)) eqn:Hmode;
        [| apply Hdrop; right; left; reflexivity].
      destruct (decimal_10_2 (CheckoutPaymentData.amount payment))
        as [stored| |] eqn:Hdec.
      * eexists. split;
          [apply (@confirmCheckout_after_payment number N rt user selectedBooking
                    payment stored taxes w Hgt Hdec Hmode Off) |].
        repeat split.
      * apply Hdrop. right. right. apply amount_refused.
        intros stored E. rewrite Hdec in E. discriminate E.
      * apply Hdrop. right. right. apply amount_refused.
        intros stored E. rewrite Hdec in E. discriminate E.
    + exists w. split;
        [apply (confirmCheckout_not_positive rt user selectedBooking payment
                  taxes w Hgt) |].
      repeat split.
  - exists w. repeat split.
Qed.

(** X10. With the backend reachable, a checkout closes every booking row
    with the id of the selected booking (status checked_out, checked out
    at the instant of the clock by the user), marks its room vacant and
    dirty and reports success.  When the database holds exactly one
    booking with that id, the archive gains an invoice and a registration
    card, in this order, numbered from the booking id and filed under the
    guest of that row; the invoice embeds the charges and the payments of
    the booking as the database holds them after the final payment, and
    totals that its own payload reproduces. *)
Theorem confirmCheckout_closes_and_archives :
  forall (number : Type) (N : Number number) (rt : Runtime.t number)
         (user : option uuid) (selectedBooking : Booking.t number)
         (checkoutPaymentData : option (CheckoutPaymentData.t number))
         (taxes : TaxConfig.t number) (w : World.t number),
    online rt ->
    let w' := snd (confirmCheckout rt user (Some selectedBooking)
                     checkoutPaymentData taxes w) in
    Db.bookings (World.db w')
    = map (fun b => if String.eqb (Booking.id b) (Booking.id selectedBooking)
                    then close_booking (World.clock w) user b else b)
          (Db.bookings (World.db w))
    /\ Db.rooms (World.db w')
       = map (fun r => if String.eqb (Room.id r)
                            (BookingRoom.id (Booking.rooms selectedBooking))
                       then set_room_status vacant_dirty r else r)
             (Db.rooms (World.db w))
    /\ World.alerts w'
       = World.alerts w
         ++ ["Check-out completed successfully! Invoice and GRC have been archived."%string]
    /\ forall bookingData : Booking.t number,
         filter (fun b => String.eqb (Booking.id b) (Booking.id selectedBooking))
                (Db.bookings (World.db w)) = [bookingData] ->
         exists invoice grc,
           Db.guest_documents (World.db w')
           = Db.guest_documents (World.db w) ++ [invoice; grc]
           /\ listing invoice
              = ("invoice"%string,
                 ("INV-" ++ toUpperCase (slice 0 8 (Booking.id selectedBooking)))%string,
                 Booking.id selectedBooking)
           /\ listing grc
              = ("grc"%string,
                 ("GRC-" ++ toUpperCase (slice 0 8 (Booking.id selectedBooking)))%string,
                 Booking.id selectedBooking)
           /\ GuestDocument.guest_id invoice = Booking.guest_id bookingData
           /\ GuestDocument.guest_id grc = Booking.guest_id bookingData
           /\ DocumentData.charges (GuestDocument.document_data invoice)
              = filter (fun c => String.eqb (FolioCharge.booking_id c)
                                   (Booking.id selectedBooking))
                       (Db.folio_charges (World.db w'))
           /\ DocumentData.payments (GuestDocument.document_data invoice)
              = filter (fun p => String.eqb (Payment.booking_id p)
                                   (Booking.id selectedBooking))
                       (Db.payments (World.db w'))
           /\ reproduces_totals invoice.
Proof.
  intros number N rt user selectedBooking checkoutPaymentData taxes w Hon.
  cbv zeta.
  destruct (confirmCheckout_after_payment_step rt user selectedBooking
              checkoutPaymentData taxes w)
    as [w1 [E [B1 [R1 [F1 [D1 [A1 C1]]]]]]].
  rewrite E.
  destruct (confirmCheckout_run_online user selectedBooking taxes w1 Hon)
    as [w' [E' [B [R [F [P [A [C D]]]]]]]].
  rewrite E'. cbn [snd].
  rewrite B, R, A, B1, R1, A1, C1.
  split; [reflexivity |]. split; [reflexivity |]. split; [reflexivity |].
  intros bookingData Hone. rewrite B1, Hone in D.
  destruct D as [invoice [grc [Hd [LI [LG [GI [GG [CI [PI [TI RI]]]]]]]]]].
  exists invoice, grc. rewrite Hd, D1, LI, LG, GI, GG, CI, PI, F, P.
  repeat split. exact RI.
Qed.

Lemma confirmCheckout_closes_and_archives_witness :
  let rt := Sample.runtime Sample.reachable in
  let w' := snd (confirmCheckout rt (Some "u-1"%string) (Some Sample.stay101)
                   (Some Sample.final_payment) (Sample.gst 6 6) Sample.in_house) in
  online rt
  /\ map (fun b => (Booking.status b, Booking.actual_check_out_date b))
         (Db.bookings (World.db w'))
     = [(checked_out, Some (Sample.evening (Sample.day0 + 2)))]
  /\ map (@Room.status float) (Db.rooms (World.db w')) = [vacant_dirty; vacant_clean]
  /\ map (fun doc =>
            (listing doc,
             Totals.total_paid (DocumentData.totals (GuestDocument.document_data doc))))
         (Db.guest_documents (World.db w'))
     = [(("invoice", "INV-0A1B2C3D", Booking.id Sample.stay101), 3360%float);
        (("grc", "GRC-0A1B2C3D", Booking.id Sample.stay101), 0%float)]%string.
Proof.
  cbv zeta.
  pose proof (@confirmCheckout_closes_and_archives float binary64
                (Sample.runtime Sample.reachable) (Some "u-1"%string)
                Sample.stay101 (Some Sample.final_payment) (Sample.gst 6 6)
                Sample.in_house (fun n => eq_refl)) as H.
  cbv zeta in H. destruct H as [B [R [_ D]]].
  split; [intros n; reflexivity |]. split; [rewrite B; reflexivity |].
  split; [rewrite R; reflexivity |].
  destruct (D Sample.stay101 eq_refl) as [invoice [grc [Hd _]]].
  vm_compute. reflexivity.
Defined.

(** ** Ordered selections *)

Lemma insert_by_permutation {A : Type} (precedes : A -> A -> bool) (x : A)
  (l : list A) :
  Permutation (insert_by precedes x l) (x :: l).
Proof.
  induction l as [|y l IH]; simpl.
  - apply Permutation_refl.
  - destruct (precedes x y).
    + apply Permutation_refl.
    + apply perm_trans with (y :: x :: l).
      * apply perm_skip. exact IH.
      * apply perm_swap.
Qed.

(** Ordering a selection neither drops nor repeats a row. *)
Lemma sorted_by_permutation {A : Type} (key : A -> Z) (ascending : bool)
  (l : list A) :
  Permutation (sorted_by key ascending l) l.
Proof.
  unfold sorted_by. induction l as [|x l IH]; simpl.
  - apply perm_nil.
  - eapply perm_trans; [apply insert_by_permutation |].
    apply perm_skip. exact IH.
Qed.

Lemma sorted_by_In {A : Type} (key : A -> Z) (ascending : bool) (l : list A)
  (x : A) :
  In x (sorted_by key ascending l) <-> In x l.
Proof.
  split; apply Permutation_in;
    [apply sorted_by_permutation | apply Permutation_sym, sorted_by_permutation].
Qed.

(** ** After checkout *)

Lemma BookingStatus_eqb_eq (a b : BookingStatus) :
  BookingStatus_eqb a b = true <-> a = b.
Proof. destruct a, b; simpl; split; intros H; try reflexivity; discriminate H. Qed.

Lemma RoomStatus_eqb_eq (a b : RoomStatus) :
  RoomStatus_eqb a b = true <-> a = b.
Proof. destruct a, b; simpl; split; intros H; try reflexivity; discriminate H. Qed.

(** X11. After a checkout with the backend reachable the booking is on
    none of the lists of guests in house (the in-house page and the night
    audit load the bookings that are checked in), and its room, now vacant
    and dirty, is not among the rooms the check-in desk offers: until the
    room is marked clean, a check-in of a reservation or of a walk-in into
    it creates no booking. *)
Theorem checked_out_booking_leaves_the_lists :
  forall (number : Type) (N : Number number) (rt : Runtime.t number)
         (user : option uuid) (selectedBooking : Booking.t number)
         (checkoutPaymentData : option (CheckoutPaymentData.t number))
         (taxes : TaxConfig.t number) (w : World.t number),
    online rt ->
    let w' := snd (confirmCheckout rt user (Some selectedBooking)
                     checkoutPaymentData taxes w) in
    let room := BookingRoom.id (Booking.rooms selectedBooking) in
    (forall shown : list (Booking.t number),
        exists bookings,
          fst (loadBookings rt shown w') = Returned bookings
          /\ Forall (fun b => Booking.id b <> Booking.id selectedBooking) bookings)
    /\ (exists inHouseBookings,
           fst (loadAuditData rt w') = Returned inHouseBookings
           /\ Forall (fun b => Booking.id b <> Booking.id selectedBooking)
                     inHouseBookings)
    /\ (exists availableRooms,
           fst (loadData rt w') = Returned availableRooms
           /\ Forall (fun r => Room.id r <> room) availableRooms)
    /\ (forall (desk : option uuid)
               (selectedReservation : option (Reservation.t number))
               (walkInData : WalkInData.t number),
           Db.bookings
             (World.db (snd (checkInDesk rt desk selectedReservation room w')))
           = Db.bookings (World.db w')
           /\ (WalkInData.roomId walkInData = room ->
               Db.bookings (World.db (snd (walkInDesk rt desk walkInData w')))
               = Db.bookings (World.db w'))).
Proof.
  intros number N rt user selectedBooking checkoutPaymentData taxes w Hon.
  cbv zeta.
  destruct (confirmCheckout_after_payment_step rt user selectedBooking
              checkoutPaymentData taxes w)
    as [w1 [E [B1 [R1 _]]]].
  rewrite E.
  destruct (confirmCheckout_run_online user selectedBooking taxes w1 Hon)
    as [w' [E' [B [R _]]]].
  rewrite E'. cbn [snd]. clear E E'.
  assert (Hclosed : forall b, In b (Db.bookings (World.db w')) ->
                              Booking.status b = checked_in ->
                              Booking.id b <> Booking.id selectedBooking).
  { intros b Hb Hst Hid. rewrite B in Hb. apply in_map_iff in Hb.
    destruct Hb as [b0 [Eb Hb0]].
    destruct (String.eqb (Booking.id b0) (Booking.id selectedBooking)) eqn:Eid.
    - subst b. discriminate Hst.
    - subst b. apply String.eqb_neq in Eid. contradiction. }
  assert (Hdirty : forall r, In r (Db.rooms (World.db w')) ->
                             Room.status r = vacant_clean ->
                             Room.id r
                             <> BookingRoom.id (Booking.rooms selectedBooking)).
  { intros r Hr Hst Hid. rewrite R in Hr. apply in_map_iff in Hr.
    destruct Hr as [r0 [Er Hr0]].
    destruct (String.eqb (Room.id r0)
                (BookingRoom.id (Booking.rooms selectedBooking))) eqn:Eid.
    - subst r. discriminate Hst.
    - subst r. apply String.eqb_neq in Eid. contradiction. }
  assert (Hoffer : forall w0, World.db w0 = World.db w' ->
             forall availableRooms,
               Forall (fun r => In r (Db.rooms (World.db w0))
                                /\ Room.status r = vacant_clean) availableRooms ->
               forall r, In r availableRooms ->
                         Room.id r <> BookingRoom.id (Booking.rooms selectedBooking)).
  { intros w0 Hw0 availableRooms Hav r Hr. rewrite Forall_forall in Hav.
    destruct (Hav r Hr) as [Hin Hst]. rewrite Hw0 in Hin.
    apply Hdirty; assumption. }
  split; [|split; [|split]].
  - intros shown. unfold loadBookings, try_catch, bind.
    rewrite (request_online _ _ Hon). unfold order, select. cbn [fst snd ret].
    eexists. split; [reflexivity |].
    apply Forall_forall. intros b Hb. apply sorted_by_In in Hb.
    apply filter_In in Hb. destruct Hb as [Hb Hst].
    apply BookingStatus_eqb_eq in Hst. apply Hclosed; assumption.
  - unfold loadAuditData, bind. rewrite (request_online _ _ Hon).
    unfold select. cbn [fst snd ret rows_of].
    eexists. split; [reflexivity |].
    apply Forall_forall. intros b Hb.
    apply filter_In in Hb. destruct Hb as [Hb Hst].
    apply BookingStatus_eqb_eq in Hst. apply Hclosed; assumption.
  - destruct (loadData_candidates rt w') as [Hdb [availableRooms [Hload Hav]]].
    exists availableRooms. split; [exact Hload |].
    apply Forall_forall. intros r Hr. exact (Hoffer w' eq_refl _ Hav r Hr).
  - intros desk selectedReservation walkInData.
    destruct (loadData_candidates rt w') as [Hdb [availableRooms [Hload Hav]]].
    unfold checkInDesk, walkInDesk, bind.
    destruct (loadData rt w') as [o w2]. cbn [fst snd] in Hdb, Hload. subst o.
    rewrite <- Hdb. split.
    + apply (checked_into_none (availableRooms := availableRooms)
               (selectedRoom := BookingRoom.id (Booking.rooms selectedBooking))).
      * exact (Hoffer w' eq_refl _ Hav).
      * apply (processCheckIn_bookings rt desk availableRooms selectedReservation
                 (BookingRoom.id (Booking.rooms selectedBooking)) w2).
    + intros Eroom.
      apply (checked_into_none (availableRooms := availableRooms)
               (selectedRoom := WalkInData.roomId walkInData)).
      * rewrite Eroom. exact (Hoffer w' eq_refl _ Hav).
      * apply (processWalkIn_bookings rt desk availableRooms walkInData w2).
Qed.

Lemma checked_out_booking_leaves_the_lists_witness :
  let rt := Sample.runtime Sample.reachable in
  let w' := snd (confirmCheckout rt (Some "u-1"%string) (Some Sample.stay101)
                   None (Sample.gst 6 6) Sample.in_house) in
  online rt
  /\ fst (loadBookings rt [Sample.stay101] w') = Returned []
  /\ fst (loadData rt w') = Returned [Sample.room102 vacant_clean]
  /\ Db.bookings
       (World.db (snd (checkInDesk rt (Some "u-1"%string) (Some Sample.arrival)
                         (Room.id (Sample.room101 occupied)) w')))
     = Db.bookings (World.db w').
Proof.
  cbv zeta.
  pose proof (@checked_out_booking_leaves_the_lists float binary64
                (Sample.runtime Sample.reachable) (Some "u-1"%string)
                Sample.stay101 None (Sample.gst 6 6) Sample.in_house
                (fun n => eq_refl)) as H.
  cbv zeta in H. destruct H as [_ [_ [_ D]]].
  split; [intros n; reflexivity |].
  split; [reflexivity |]. split; [reflexivity |].
  exact (proj1 (D (Some "u-1"%string) (Some Sample.arrival)
                  (Sample.walk_in (Room.id (Sample.room101 occupied))))).
Defined.

(** ** The invoice printed and the invoice archived *)

(** X12. The [Invoice] component and the archive compute the same
    document from the same folio: the number on the invoice printed is the
    number of the invoice [archiveInvoice] stores, its amounts are the
    totals stored, and both are the totals [calculateFolioTotal] shows on
    the page. *)
Theorem printed_invoice_agrees_with_archive :
  forall (number : Type) (N : Number number) (T : Tests number)
         (rt : Runtime.t number) (booking : Booking.t number)
         (folioCharges : list (FolioCharge.t number))
         (payments : list (Payment.t number)) (taxes : TaxConfig.t number),
    let view := Invoice booking folioCharges payments taxes in
    let shown := calculateFolioTotal folioCharges payments taxes in
    InvoiceView.totals view
    = {| Totals.subtotal := FolioTotal.subtotal shown;
         Totals.cgst_amount := FolioTotal.cgstAmount shown;
         Totals.sgst_amount := FolioTotal.sgstAmount shown;
         Totals.grand_total := FolioTotal.grandTotal shown;
         Totals.total_paid := FolioTotal.totalPayments shown;
         Totals.balance := FolioTotal.balance shown |}
    /\ keeps (documents_gained
                (fun doc =>
                   GuestDocument.document_number doc = InvoiceView.invoiceNumber view
                   /\ DocumentData.totals (GuestDocument.document_data doc)
                      = InvoiceView.totals view))
         (archiveInvoice rt booking folioCharges payments taxes).
Proof.
  intros number N T rt booking folioCharges payments taxes. cbv zeta.
  split; [reflexivity |].
  match goal with
  | |- keeps (documents_gained ?P) _ =>
      pose proof (@documents_gained_refl number P) as Rr;
      pose proof (@documents_gained_trans number P) as Rt
  end.
  unfold archiveInvoice.
  keeps_all
    ltac:(unfold documents_gained; simpl; eexists; split;
          [ reflexivity
          | constructor; [split; reflexivity | constructor] ]).
Qed.

Lemma handleViewFolio_online {number : Type} {N : Number number}
  (rt : Runtime.t number) (booking : Booking.t number) (w : World.t number) :
  online rt ->
  handleViewFolio rt booking w
  = (Returned
       (Some booking,
        (sorted_by (@FolioCharge.charge_date number) true
           (filter (fun c => String.eqb (FolioCharge.booking_id c) (Booking.id booking))
                   (Db.folio_charges (World.db w))),
         sorted_by (@Payment.payment_date number) true
           (filter (fun p => String.eqb (Payment.booking_id p) (Booking.id booking))
                   (Db.payments (World.db w))))),
     {| World.db := World.db w; World.sent := S (S (World.sent w));
        World.alerts := World.alerts w; World.clock := World.clock w |}).
Proof.
  intros Hon. unfold handleViewFolio, loadFolioAndPayments, bind.
  rewrite (request_online _ _ Hon). rewrite (request_online _ _ Hon).
  reflexivity.
Qed.

(** X13. The invoice the operator previews and prints before completing
    a checkout is not the invoice that is archived when a final payment is
    taken: with the backend reachable, the folio of the booking on screen
    and a final payment that is stored (positive, in a mode the schema
    knows, an amount the [decimal(10,2)] column takes), the archived
    invoice carries the number previewed and the charges previewed, but
    its payments are the payments previewed and the final payment as the
    column holds it, which the preview does not show.  A final payment the
    column refuses is not in the archived invoice either: at 100000000
    the invoice of the sample stay is archived with a total paid of
    1000. *)
Theorem archived_invoice_adds_the_final_payment :
  (forall (rt : Runtime.t float) (user : option uuid)
          (selectedBooking bookingData : Booking.t float)
          (parsed stored : float)
          (paymentMode : string) (taxes : TaxConfig.t float) (w : World.t float),
      online rt ->
      filter (fun b => String.eqb (Booking.id b) (Booking.id selectedBooking))
             (Db.bookings (World.db w)) = [bookingData] ->
      PrimFloat.ltb 0 parsed = true ->
      decimal_10_2 parsed = accepted stored ->
      valid_payment_mode paymentMode = true ->
      exists folioCharges payments w1 invoice grc final,
        handleViewFolio rt selectedBooking w
        = (Returned (Some selectedBooking, (folioCharges, payments)), w1)
        /\ Db.guest_documents
             (World.db
                (snd (confirmCheckout rt user (Some selectedBooking)
                        (handleCheckout (Some selectedBooking) parsed paymentMode
                           None)
                        taxes w1)))
           = Db.guest_documents (World.db w) ++ [invoice; grc]
        /\ GuestDocument.document_number invoice
           = InvoiceView.invoiceNumber
               (Invoice selectedBooking folioCharges payments taxes)
        /\ Permutation (DocumentData.charges (GuestDocument.document_data invoice))
             folioCharges
        /\ Permutation
             (DocumentData.payments (GuestDocument.document_data invoice))
             (payments ++ [final])
        /\ Payment.booking_id final = Booking.id selectedBooking
        /\ Payment.amount final = stored
        /\ Payment.payment_mode final = paymentMode
        /\ reproduces_totals invoice)
  /\ (let rt := Sample.runtime Sample.reachable in
      let preview := handleViewFolio rt Sample.stay101 Sample.in_house in
      let w' := snd (confirmCheckout rt (Some "u-1"%string) (Some Sample.stay101)
                       (handleCheckout (Some Sample.stay101) 100000000%float
                          "upi" None)
                       (Sample.gst 6 6) (snd preview)) in
      map (fun doc =>
             (GuestDocument.document_type doc,
              map (@Payment.amount float)
                  (DocumentData.payments (GuestDocument.document_data doc)),
              Totals.total_paid
                (DocumentData.totals (GuestDocument.document_data doc))))
          (Db.guest_documents (World.db w'))
      = [("invoice"%string, [1000%float], 1000%float);
         ("grc"%string, [], 0%float)]
      /\ World.alerts w'
         = ["Check-out completed successfully! Invoice and GRC have been archived."%string]).
Proof.
  split; [| vm_compute; split; reflexivity].
  intros rt user selectedBooking bookingData parsed stored paymentMode taxes w
         Hon Hone Hpos Hdec Hmode.
  rewrite (handleViewFolio_online selectedBooking w Hon).
  exists (sorted_by (@FolioCharge.charge_date float) true
            (filter (fun c => String.eqb (FolioCharge.booking_id c)
                                (Booking.id selectedBooking))
                    (Db.folio_charges (World.db w)))),
         (sorted_by (@Payment.payment_date float) true
            (filter (fun p => String.eqb (Payment.booking_id p)
                                (Booking.id selectedBooking))
                    (Db.payments (World.db w)))),
         {| World.db := World.db w; World.sent := S (S (World.sent w));
            World.alerts := World.alerts w; World.clock := World.clock w |}.
  assert (Hf : falsy parsed = false).
  { destruct (falsy parsed) eqn:F; [|reflexivity].
    rewrite (falsy_is_not_positive _ F) in Hpos. discriminate Hpos. }
  unfold handleCheckout, number_or. rewrite Hf.
  match goal with
  | |- context [confirmCheckout rt user _ (Some ?payment) taxes ?w1] =>
      rewrite (@confirmCheckout_after_payment float binary64 rt user
                 selectedBooking payment stored taxes w1 Hpos Hdec Hmode (Hon _))
  end.
  match goal with
  | |- context [confirmCheckout rt user _ None taxes ?w2] =>
      destruct (confirmCheckout_run_online user selectedBooking taxes w2 Hon)
        as [w' [E' [_ [_ [_ [_ [_ [_ D]]]]]]]]
  end.
  rewrite E'. cbn [snd].
  cbn [World.db next_serial with_payments Db.bookings Db.folio_charges
       Db.payments Db.guest_documents] in D.
  rewrite Hone in D.
  destruct D as [invoice [grc [Hd [LI [_ [_ [_ [CI [PI [_ RI]]]]]]]]]].
  exists invoice, grc.
  eexists {| Payment.id := _; Payment.booking_id := Booking.id selectedBooking;
             Payment.payment_date := _; Payment.amount := stored;
             Payment.payment_mode := paymentMode; Payment.received_by := user |}.
  split; [reflexivity |]. split; [exact Hd |].
  split.
  { apply (f_equal (fun k => snd (fst k))) in LI. exact LI. }
  split.
  { rewrite CI. apply Permutation_sym, sorted_by_permutation. }
  split.
  { rewrite PI, filter_app.
    cbn [filter Payment.booking_id CheckoutPaymentData.amount
         CheckoutPaymentData.mode].
    rewrite String.eqb_refl.
    apply Permutation_app_tail, Permutation_sym, sorted_by_permutation. }
  repeat split. exact RI.
Qed.

Lemma archived_invoice_adds_the_final_payment_witness :
  let rt := Sample.runtime Sample.reachable in
  online rt
  /\ exists folioCharges payments w1 invoice grc final,
       handleViewFolio rt Sample.stay101 Sample.in_house
       = (Returned (Some Sample.stay101, (folioCharges, payments)), w1)
       /\ Db.guest_documents
            (World.db
               (snd (confirmCheckout rt (Some "u-1"%string) (Some Sample.stay101)
                       (handleCheckout (Some Sample.stay101) 2360%float "upi" None)
                       (Sample.gst 6 6) w1)))
          = Db.guest_documents (World.db Sample.in_house) ++ [invoice; grc]
       /\ GuestDocument.document_number invoice
          = InvoiceView.invoiceNumber
              (Invoice Sample.stay101 folioCharges payments (Sample.gst 6 6))
       /\ Permutation (DocumentData.charges (GuestDocument.document_data invoice))
            folioCharges
       /\ Permutation (DocumentData.payments (GuestDocument.document_data invoice))
            (payments ++ [final])
       /\ Payment.booking_id final = Booking.id Sample.stay101
       /\ Payment.amount final = 2360%float
       /\ Payment.payment_mode final = "upi"%string
       /\ reproduces_totals invoice.
Proof.
  cbv zeta. split; [intros n; reflexivity |].
  apply (proj1 archived_invoice_adds_the_final_payment
           (Sample.runtime Sample.reachable) (Some "u-1"%string)
           Sample.stay101 Sample.stay101 2360%float 2360%float "upi"%string
           (Sample.gst 6 6) Sample.in_house (fun n => eq_refl) eq_refl eq_refl
           eq_refl eq_refl).
Defined.

(** ** The archive: what is stored and what is read back *)

(** X14. The archive functions never throw, and what they return tells
    what happened: success, with the number of the document, exactly when
    one document of that number and type was added to the archive;
    otherwise a failure with the error of the request, and a database that
    is what it was. *)
Theorem archive_result_tells_what_was_stored :
  forall (number : Type) (N : Number number) (rt : Runtime.t number)
         (booking : Booking.t number)
         (folioCharges : list (FolioCharge.t number))
         (payments : list (Payment.t number)) (taxes : TaxConfig.t number)
         (w : World.t number),
    let stored (kind prefix : string) (run : Outcome ArchiveResult.t * World.t number) :=
      exists result,
        fst run = Returned result
        /\ ((ArchiveResult.success result = true
             /\ ArchiveResult.documentNumber result
                = Some (documentNumber prefix (Booking.id booking))
             /\ ArchiveResult.error result = None
             /\ exists doc,
                  Db.guest_documents (World.db (snd run))
                  = Db.guest_documents (World.db w) ++ [doc]
                  /\ listing doc
                     = (kind, documentNumber prefix (Booking.id booking),
                        Booking.id booking))
            \/ (ArchiveResult.success result = false
                /\ ArchiveResult.documentNumber result = None
                /\ ArchiveResult.error result = Some "Failed to fetch"%string
                /\ World.db (snd run) = World.db w)) in
    stored "invoice"%string "INV"%string
      (archiveInvoice rt booking folioCharges payments taxes w)
    /\ stored "grc"%string "GRC"%string (archiveGRC rt booking taxes w).
Proof.
  intros number N rt booking folioCharges payments taxes w. cbv zeta. split.
  - unfold archiveInvoice, try_catch, bind, Date_now, request.
    destruct (Runtime.offline rt (World.sent w)); simpl.
    + eexists. split; [reflexivity |]. right. repeat split.
    + eexists. split; [reflexivity |]. left. repeat split.
      eexists. split; reflexivity.
  - unfold archiveGRC, try_catch, bind, Date_now, request.
    destruct (Runtime.offline rt (World.sent w)); simpl.
    + eexists. split; [reflexivity |]. right. repeat split.
    + eexists. split; [reflexivity |]. left. repeat split.
      eexists. split; reflexivity.
Qed.

(** X15. Reading the archive changes nothing.  Unlike the archive
    functions, the two readers throw when their request fails; otherwise
    [getArchivedDocuments] returns the documents of the booking in the
    order they were archived, and [getGuestDocuments] those of the guest,
    latest first.  A document archived is a document read back: after
    [archiveInvoice] for a booking, with the backend reachable, the
    documents of that booking are the ones there were, then the invoice,
    with the folio it was given. *)
Theorem archive_readers_return_what_was_archived :
  forall (number : Type) (N : Number number) (rt : Runtime.t number)
         (bookingId guestId : uuid) (w : World.t number),
    let of_booking :=
      filter (fun doc => String.eqb (GuestDocument.booking_id doc) bookingId) in
    let of_guest :=
      filter (fun doc => String.eqb (GuestDocument.guest_id doc) guestId) in
    getArchivedDocuments rt bookingId w
    = ((if Runtime.offline rt (World.sent w)
        then Thrown "Failed to fetch"
        else Returned (of_booking (Db.guest_documents (World.db w)))),
       {| World.db := World.db w; World.sent := S (World.sent w);
          World.alerts := World.alerts w; World.clock := World.clock w |})
    /\ getGuestDocuments rt guestId w
       = ((if Runtime.offline rt (World.sent w)
           then Thrown "Failed to fetch"
           else Returned (rev (of_guest (Db.guest_documents (World.db w))))),
          {| World.db := World.db w; World.sent := S (World.sent w);
             World.alerts := World.alerts w; World.clock := World.clock w |})
    /\ (online rt ->
        forall (booking : Booking.t number)
               (folioCharges : list (FolioCharge.t number))
               (payments : list (Payment.t number)) (taxes : TaxConfig.t number),
          Booking.id booking = bookingId ->
          exists invoice,
            fst (getArchivedDocuments rt bookingId
                   (snd (archiveInvoice rt booking folioCharges payments taxes w)))
            = Returned (of_booking (Db.guest_documents (World.db w)) ++ [invoice])
            /\ listing invoice
               = ("invoice"%string,
                  ("INV-" ++ toUpperCase (slice 0 8 bookingId))%string, bookingId)
            /\ DocumentData.charges (GuestDocument.document_data invoice)
               = folioCharges
            /\ DocumentData.payments (GuestDocument.document_data invoice)
               = payments
            /\ reproduces_totals invoice).
Proof.
  intros number N rt bookingId guestId w. cbv zeta.
  split; [|split].
  - unfold getArchivedDocuments, bind, request, order_by_created_at, select.
    destruct (Runtime.offline rt (World.sent w)); reflexivity.
  - unfold getGuestDocuments, bind, request, order_by_created_at, select.
    destruct (Runtime.offline rt (World.sent w)); reflexivity.
  - intros Hon booking folioCharges payments taxes Hid.
    destruct (archiveInvoice_run_online booking folioCharges payments taxes w Hon)
      as [invoice [E [L [_ [C [P [_ R]]]]]]].
    rewrite E. cbn [snd].
    exists invoice.
    unfold getArchivedDocuments, bind. rewrite (request_online _ _ Hon).
    unfold order_by_created_at, select.
    cbn [fst snd World.db next_serial with_guest_documents Db.guest_documents].
    rewrite filter_app. cbn [filter].
    assert (Eb : GuestDocument.booking_id invoice = bookingId).
    { apply (f_equal snd) in L. cbn [snd listing] in L. rewrite L. exact Hid. }
    rewrite Eb, String.eqb_refl.
    split; [reflexivity |]. rewrite L, Hid.
    repeat split; assumption.
Qed.

Lemma archive_readers_return_what_was_archived_witness :
  let rt := Sample.runtime Sample.reachable in
  online rt
  /\ exists invoice,
       fst (getArchivedDocuments rt (Booking.id Sample.stay101)
              (snd (archiveInvoice rt Sample.stay101
                      (Db.folio_charges (World.db Sample.in_house))
                      (Db.payments (World.db Sample.in_house))
                      (Sample.gst 6 6) Sample.in_house)))
       = Returned ([] ++ [invoice])
       /\ listing invoice
          = ("invoice"%string, "INV-0A1B2C3D"%string, Booking.id Sample.stay101)
       /\ DocumentData.charges (GuestDocument.document_data invoice)
          = Db.folio_charges (World.db Sample.in_house)
       /\ DocumentData.payments (GuestDocument.document_data invoice)
          = Db.payments (World.db Sample.in_house)
       /\ reproduces_totals invoice.
Proof.
  cbv zeta. split; [intros n; reflexivity |].
  apply (proj2 (proj2 (@archive_readers_return_what_was_archived float binary64
                         (Sample.runtime Sample.reachable)
                         (Booking.id Sample.stay101) (Guest.id Sample.asha)
                         Sample.in_house))
           (fun n => eq_refl) Sample.stay101
           (Db.folio_charges (World.db Sample.in_house))
           (Db.payments (World.db Sample.in_house)) (Sample.gst 6 6) eq_refl).
Defined.

(** ** The exports *)

Lemma quiet_Date_now {number : Type} : quiet (@Date_now number).
Proof. intros w. exists (World.clock w), w. split; reflexivity. Qed.

Lemma keeps_order {number A : Type} (R : Db.t number -> Db.t number -> Prop)
  (key : A -> Z) (ascending : bool) (q : Query number (list A)) :
  keeps_query R q -> keeps_query R (order key ascending q).
Proof.
  intros Hq d. unfold order. specialize (Hq d).
  destruct (q d) as [[rows|m] d']; exact Hq.
Qed.

Lemma keeps_order_by_created_at {number A : Type}
  (R : Db.t number -> Db.t number -> Prop)
  (ascending : bool) (q : Query number (list A)) :
  keeps_query R q -> keeps_query R (order_by_created_at ascending q).
Proof.
  intros Hq d. unfold order_by_created_at. specialize (Hq d).
  destruct (q d) as [[rows|m] d']; exact Hq.
Qed.

(** The export of one guest shows nothing, ends normally and leaves the
    database as it is, whatever requests are lost. *)
Lemma exportGuestDataJSON_quiet {number : Type} {N : Number number}
  (rt : Runtime.t number) (guestId : uuid) :
  quiet (exportGuestDataJSON rt guestId).
Proof.
  unfold exportGuestDataJSON.
  repeat first
    [ apply quiet_request
    | apply quiet_ret
    | apply quiet_Date_now
    | apply quiet_bind; [| intros ?]
    | apply quiet_for_each; intros ? ? ].
Qed.

Lemma exportGuestDataJSON_reads_only {number : Type} {N : Number number}
  (rt : Runtime.t number) (guestId : uuid) :
  keeps eq (exportGuestDataJSON rt guestId).
Proof.
  pose proof (@eq_refl (Db.t number)) as Rr.
  pose proof (@eq_trans (Db.t number)) as Rt.
  unfold exportGuestDataJSON.
  repeat first
    [ apply keeps_order
    | apply keeps_order_by_created_at
    | keeps_step idtac ].
Qed.

(** The loop of the export, with the backend reachable: one entry per
    booking, in order, at two requests each. *)
Lemma export_loop_online {number : Type} {N : Number number}
  (rt : Runtime.t number) :
  online rt ->
  forall (l : list (Booking.t number)) (stayHistory : list (StayRecord.t number))
         (w : World.t number),
    for_each l
      (fun (stayHistory : list (StayRecord.t number)) (booking : Booking.t number) =>
         bind
           (request rt
              (select (@Db.folio_charges number)
                 (fun c => String.eqb (FolioCharge.booking_id c) (Booking.id booking))))
           (fun charges =>
              bind
                (request rt
                   (select (@Db.payments number)
                      (fun p => String.eqb (Payment.booking_id p)
                                           (Booking.id booking))))
                (fun payments =>
                   ret (stayHistory
                        ++ [{| StayRecord.booking := booking;
                               StayRecord.charges := rows_of charges;
                               StayRecord.payments := rows_of payments |}]))))
      stayHistory w
    = (Returned (stayHistory ++ map (stay_record (World.db w)) l),
       {| World.db := World.db w;
          World.sent := (2 * List.length l + World.sent w)%nat;
          World.alerts := World.alerts w; World.clock := World.clock w |}).
Proof.
  intros Hon. induction l as [|b l IH]; intros stayHistory w.
  - simpl. rewrite app_nil_r. destruct w. reflexivity.
  - cbn [for_each]. unfold bind at 1. unfold bind at 1.
    rewrite (request_online _ _ Hon). unfold bind at 1.
    rewrite (request_online _ _ Hon). unfold ret at 1.
    rewrite IH. unfold select.
    cbn [fst snd World.db World.sent World.alerts World.clock rows_of map].
    rewrite <- app_assoc. cbn [app].
    replace (2 * List.length l + S (S (World.sent w)))%nat
      with (2 * List.length (b :: l) + World.sent w)%nat
      by (cbn [List.length]; lia).
    reflexivity.
Qed.

(** X16. The export of a guest only reads: whatever requests are lost it
    ends normally, shows nothing and leaves the database as it is (a lost
    request leaves a gap in the export, it does not fail it).  With the
    backend reachable the export is complete: the guest, when the id
    names exactly one; one stay for each booking of the guest, latest
    check-in first, each with all the charges and all the payments of that
    booking; the guest's archived documents, latest first; at the cost of
    three requests and two more for each booking. *)
Theorem exportGuestDataJSON_is_complete :
  forall (number : Type) (N : Number number) (rt : Runtime.t number)
         (guestId : uuid) (w : World.t number),
    let run := exportGuestDataJSON rt guestId w in
    let stays :=
      sorted_by (@Booking.check_in_date number) false
        (filter (fun b => String.eqb (Booking.guest_id b) guestId)
                (Db.bookings (World.db w))) in
    (exists export, fst run = Returned export)
    /\ World.db (snd run) = World.db w
    /\ World.alerts (snd run) = World.alerts w
    /\ (online rt ->
        fst run
        = Returned
            {| GuestExport.export_date := World.clock w;
               GuestExport.export_type := "guest_full_record"%string;
               GuestExport.guest :=
                 match filter (fun g => String.eqb (Guest.id g) guestId)
                              (Db.guests (World.db w)) with
                 | [guest] => Some guest
                 | _ => None
                 end;
               GuestExport.stay_history := map (stay_record (World.db w)) stays;
               GuestExport.archived_documents :=
                 Some (map (@exported number)
                         (rev (filter (fun doc => String.eqb
                                                    (GuestDocument.guest_id doc) guestId)
                                      (Db.guest_documents (World.db w))))) |}
        /\ Permutation (map (@StayRecord.booking number)
                          (map (stay_record (World.db w)) stays))
             (filter (fun b => String.eqb (Booking.guest_id b) guestId)
                     (Db.bookings (World.db w)))
        /\ World.sent (snd run)
           = (3 + 2 * List.length
                        (filter (fun b => String.eqb (Booking.guest_id b) guestId)
                                (Db.bookings (World.db w)))
              + World.sent w)%nat).
Proof.
  intros number N rt guestId w. cbv zeta.
  destruct (exportGuestDataJSON_quiet rt guestId w) as [export [w' [E A]]].
  split; [exists export; rewrite E; reflexivity |].
  split; [symmetry; apply (exportGuestDataJSON_reads_only rt guestId w) |].
  split; [rewrite E; exact A |].
  intros Hon. clear E A export w'.
  destruct (exportGuestDataJSON rt guestId w) as [o w'] eqn:Run.
  cbn [fst snd]. unfold exportGuestDataJSON in Run.
  unfold bind at 1 in Run. rewrite (request_online _ _ Hon) in Run.
  unfold bind at 1 in Run. rewrite (request_online _ _ Hon) in Run.
  unfold bind at 1 in Run. rewrite (request_online _ _ Hon) in Run.
  unfold bind at 1 in Run. unfold order, order_by_created_at, single, select in Run.
  assert (Hsingle :
            forall found : list Guest.t,
              snd (match found with
                   | [guest] => (Data guest, World.db w)
                   | _ => (Error "JSON object requested, multiple (or no) rows returned",
                           World.db w)
                   end) = World.db w).
  { intros [|g [|g' l]]; reflexivity. }
  cbn [fst snd World.db World.sent World.alerts World.clock rows_of] in Run.
  rewrite !Hsingle in Run.
  rewrite (export_loop_online Hon) in Run.
  unfold bind, Date_now, ret in Run.
  cbn [fst snd World.db World.sent World.alerts World.clock data_of option_map
       app] in Run.
  injection Run as <- <-. cbn [World.sent].
  split; [|split].
  - f_equal. f_equal.
    destruct (filter (fun g => String.eqb (Guest.id g) guestId)
                     (Db.guests (World.db w))) as [|g [|g' l]]; reflexivity.
  - rewrite map_map. cbn [stay_record StayRecord.booking]. rewrite map_id.
    apply sorted_by_permutation.
  - rewrite (Permutation_length (sorted_by_permutation _ _ _)). lia.
Qed.

Lemma exportGuestDataJSON_is_complete_witness :
  let rt := Sample.runtime Sample.reachable in
  let run := exportGuestDataJSON rt (Guest.id Sample.asha) Sample.in_house in
  online rt
  /\ World.sent (snd run) = 5%nat
  /\ exists export,
       fst run = Returned export
       /\ GuestExport.guest export = Some Sample.asha
       /\ map (fun stay => (Booking.id (StayRecord.booking stay),
                            List.length (StayRecord.charges stay),
                            List.length (StayRecord.payments stay)))
              (GuestExport.stay_history export)
          = [(Booking.id Sample.stay101, 2%nat, 1%nat)].
Proof.
  cbv zeta.
  pose proof (@exportGuestDataJSON_is_complete float binary64
                (Sample.runtime Sample.reachable) (Guest.id Sample.asha)
                Sample.in_house) as H.
  cbv zeta in H. destruct H as [_ [_ [_ H]]].
  destruct (H (fun n => eq_refl)) as [E [_ S]].
  split; [intros n; reflexivity |]. split; [rewrite S; reflexivity |].
  eexists. split; [exact E |]. split; reflexivity.
Defined.

(** The loop of the bulk export: one export per guest, whatever is lost. *)
Lemma bulk_loop {number : Type} {N : Number number} (rt : Runtime.t number) :
  forall (l : list Guest.t) (allData : list (GuestExport.t number))
         (w : World.t number),
  exists exports w',
    for_each l
      (fun (allData : list (GuestExport.t number)) (guest : Guest.t) =>
         bind (exportGuestDataJSON rt (Guest.id guest))
           (fun guestData => ret (allData ++ [guestData])))
      allData w
    = (Returned (allData ++ exports), w')
    /\ List.length exports = List.length l
    /\ World.db w' = World.db w.
Proof.
  induction l as [|g l IH]; intros allData w.
  - exists [], w. simpl. rewrite app_nil_r. repeat split.
  - destruct (exportGuestDataJSON_quiet rt (Guest.id g) w) as [e [w1 [E _]]].
    pose proof (exportGuestDataJSON_reads_only rt (Guest.id g) w) as K.
    rewrite E in K. cbn [snd] in K.
    destruct (IH (allData ++ [e]) w1) as [exports [w' [E' [L D]]]].
    exists (e :: exports), w'. cbn [for_each]. unfold bind at 1. unfold bind at 1.
    rewrite E. unfold ret at 1. rewrite E'. rewrite <- app_assoc.
    split; [reflexivity |]. split; [simpl; rewrite L; reflexivity |].
    rewrite D. symmetry. exact K.
Qed.

(** X17. The bulk export only reads and never fails.  It holds one
    export per guest row it was given, counted in [total_guests]: as many
    as the database holds guests when the first request gets through, and
    none, with a count of 0, when that request is lost. *)
Theorem exportAllGuestsData_counts_guests :
  forall (number : Type) (N : Number number) (rt : Runtime.t number)
         (w : World.t number),
    let run := exportAllGuestsData rt w in
    exists export,
      fst run = Returned export
      /\ World.db (snd run) = World.db w
      /\ BulkExport.export_type export = "bulk_guest_records"%string
      /\ BulkExport.total_guests export
         = Z.of_nat (List.length (BulkExport.guests export))
      /\ BulkExport.total_guests export
         = if Runtime.offline rt (World.sent w) then 0
           else Z.of_nat (List.length (Db.guests (World.db w))).
Proof.
  intros number N rt w. cbv zeta.
  destruct (exportAllGuestsData rt w) as [o w'] eqn:Run.
  unfold exportAllGuestsData in Run. unfold bind at 1 in Run.
  unfold request, order_by_created_at, select in Run.
  destruct (Runtime.offline rt (World.sent w)) eqn:Off.
  - cbn [rows_of for_each] in Run. unfold bind, ret, Date_now in Run.
    injection Run as <- <-. eexists. repeat split.
  - cbn [fst snd rows_of filter] in Run.
    unfold bind at 1 in Run.
    match type of Run with
    | context [for_each ?l _ [] ?w0] =>
        destruct (bulk_loop rt l [] w0) as [exports [w1 [E [L D]]]]
    end.
    rewrite E in Run.
    unfold bind, ret, Date_now in Run. injection Run as <- <-.
    cbn [app] in *. eexists. split; [reflexivity |].
    cbn [fst snd BulkExport.total_guests BulkExport.guests
         BulkExport.export_type].
    split; [rewrite D; reflexivity |]. split; [reflexivity |].
    split; [reflexivity |].
    rewrite L, length_rev.
    assert (Hall : forall l : list Guest.t, filter (fun _ => true) l = l).
    { induction l as [|x l IH]; simpl; [reflexivity | rewrite IH; reflexivity]. }
    rewrite Hall. reflexivity.
Qed.

(** ** The night-audit page *)

Lemma rooms_by_status {number : Type} (rooms : list (Room.t number)) :
  Z.of_nat (List.length (filter (fun r => RoomStatus_eqb (Room.status r) occupied) rooms))
  + Z.of_nat (List.length (filter (fun r => RoomStatus_eqb (Room.status r) vacant_clean) rooms))
  + Z.of_nat (List.length (filter (fun r => RoomStatus_eqb (Room.status r) vacant_dirty) rooms))
  + Z.of_nat (List.length (filter (fun r => RoomStatus_eqb (Room.status r) out_of_order) rooms))
  = Z.of_nat (List.length rooms).
Proof.
  induction rooms as [|r rooms IH]; [reflexivity |].
  cbn [filter]. destruct (Room.status r); cbn [RoomStatus_eqb List.length]; lia.
Qed.

Lemma filter_all {A : Type} (l : list A) : filter (fun _ => true) l = l.
Proof. induction l as [|x l IH]; simpl; [reflexivity | rewrite IH; reflexivity]. Qed.

(** X18. The statistics of the night-audit page, whatever requests are
    lost: the load never fails and changes nothing; occupied, vacant-clean
    and vacant-dirty rooms together never exceed the total, and fall short
    of it by the rooms out of order when the rooms were loaded; the
    pending charges shown are the number of stayovers among the bookings
    handed to the audit, whether or not their room rent of today is
    already posted. *)
Theorem night_audit_statistics :
  forall (number : Type) (N : Number number) (T : Tests number)
         (rt : Runtime.t number) (today : date) (w : World.t number),
    let run := NightAudit.loadAuditData rt today w in
    exists stats inHouseBookings,
      fst run = Returned (stats, inHouseBookings)
      /\ World.db (snd run) = World.db w
      /\ NightAuditStats.pendingCharges stats = stayovers_in today inHouseBookings
      /\ NightAuditStats.stayovers stats = stayovers_in today inHouseBookings
      /\ 0 <= NightAuditStats.occupiedRooms stats + NightAuditStats.vacantClean stats
              + NightAuditStats.vacantDirty stats
         <= NightAuditStats.totalRooms stats
      /\ (Runtime.offline rt (World.sent w) = true
          \/ NightAuditStats.totalRooms stats
             = Z.of_nat (List.length (Db.rooms (World.db w)))
             /\ NightAuditStats.totalRooms stats
                - (NightAuditStats.occupiedRooms stats
                   + NightAuditStats.vacantClean stats
                   + NightAuditStats.vacantDirty stats)
                = Z.of_nat
                    (List.length
                       (filter (fun r => RoomStatus_eqb (Room.status r) out_of_order)
                               (Db.rooms (World.db w))))).
Proof.
  intros number N T rt today w. cbv zeta.
  destruct (NightAudit.loadAuditData rt today w) as [o w'] eqn:Run.
  unfold NightAudit.loadAuditData in Run.
  assert (Step : forall (A B : Type) (p : A -> bool)
                        (table : Db.t number -> list A)
                        (k : Response (list A) -> Async number B)
                        (w0 : World.t number),
             exists r w1,
               bind (request rt (select table p)) k w0 = k r w1
               /\ World.db w1 = World.db w0
               /\ World.sent w1 = S (World.sent w0)
               /\ (r = Error "Failed to fetch"%string
                   /\ Runtime.offline rt (World.sent w0) = true
                   \/ r = Data (filter p (table (World.db w0)))
                      /\ Runtime.offline rt (World.sent w0) = false)).
  { intros A B p table k w0. unfold bind, request, select.
    destruct (Runtime.offline rt (World.sent w0)).
    - eexists _, _. split; [reflexivity |].
      split; [reflexivity |]. split; [reflexivity |]. left. split; reflexivity.
    - eexists _, _. split; [reflexivity |].
      split; [reflexivity |]. split; [reflexivity |]. right. split; reflexivity. }
  match type of Run with
  | bind (request rt (select ?table ?p)) ?k ?w0 = _ =>
      destruct (Step _ _ p table k w0) as [rooms [w1 [E1 [D1 [S1 R1]]]]]
  end.
  rewrite E1 in Run. clear E1.
  match type of Run with
  | bind (request rt (select ?table ?p)) ?k ?w0 = _ =>
      destruct (Step _ _ p table k w0) as [bookings [w2 [E2 [D2 [S2 R2]]]]]
  end.
  rewrite E2 in Run. clear E2.
  match type of Run with
  | bind (request rt (select ?table ?p)) ?k ?w0 = _ =>
      destruct (Step _ _ p table k w0) as [checkIns [w3 [E3 [D3 [S3 R3]]]]]
  end.
  rewrite E3 in Run. clear E3.
  match type of Run with
  | bind (request rt (select ?table ?p)) ?k ?w0 = _ =>
      destruct (Step _ _ p table k w0) as [checkOuts [w4 [E4 [D4 [S4 R4]]]]]
  end.
  rewrite E4 in Run. clear E4.
  match type of Run with
  | bind (request rt (select ?table ?p)) ?k ?w0 = _ =>
      destruct (Step _ _ p table k w0) as [payments [w5 [E5 [D5 [S5 R5]]]]]
  end.
  rewrite E5 in Run. clear E5.
  unfold ret in Run. injection Run as <- <-.
  eexists _, _. split; [reflexivity |]. cbn [snd].
  split; [rewrite D5, D4, D3, D2, D1; reflexivity |].
  cbn [NightAuditStats.pendingCharges NightAuditStats.stayovers
       NightAuditStats.occupiedRooms NightAuditStats.vacantClean
       NightAuditStats.vacantDirty NightAuditStats.totalRooms].
  assert (Hstay : count_or_zero
                    (fun b : Booking.t number =>
                       toISODate (Booking.check_in_date b) <? today)
                    (data_of bookings)
                  = stayovers_in today (rows_of bookings)).
  { destruct bookings as [l|m]; reflexivity. }
  split; [exact Hstay |]. split; [exact Hstay |].
  destruct R1 as [[-> Hoff] | [-> Hoff]].
  - cbn [data_of count_or_zero length_or_zero option_map].
    split; [lia | left; exact Hoff].
  - cbn [data_of count_or_zero length_or_zero option_map].
    rewrite filter_all.
    pose proof (rooms_by_status (Db.rooms (World.db w))) as P.
    split; [lia |]. right. split; [reflexivity | lia].
Qed.

(** One booking of the audit, whatever is lost: the loop goes on, and the
    count goes up by one at most, and only for a stayover. *)
Lemma auditBooking_counts {number : Type} {N : Number number}
  (rt : Runtime.t number) (user : option uuid) (today : date)
  (counters : Z * number) (b : Booking.t number) (w : World.t number) :
  exists counters' w',
    auditBooking rt user today counters b w = (Returned counters', w')
    /\ fst counters <= fst counters'
       <= fst counters + (if stayover today b then 1 else 0)
    /\ World.alerts w' = World.alerts w.
Proof.
  unfold auditBooking, stayover. destruct counters as [n a]. cbn [fst].
  destruct (toISODate (Booking.check_in_date b) <? today).
  - unfold bind at 1.
    destruct (request rt _ w) as [[existing|e] w1] eqn:E1.
    + assert (A1 : World.alerts w1 = World.alerts w).
      { destruct (quiet_request rt
                    (select (@Db.folio_charges number)
                       (fun c => String.eqb (FolioCharge.booking_id c) (Booking.id b)
                                 && (FolioCharge.charge_date c =? today)
                                 && String.eqb (FolioCharge.charge_type c) "room_rent"))
                    w) as [x [w1' [E A]]].
        rewrite E1 in E. injection E as _ <-. exact A. }
      destruct (data_of existing) as [[|c l]|].
      * unfold bind.
        destruct (quiet_request rt
                    (insert rt (@Db.folio_charges number) (@with_folio_charges number)
                       (@folio_charges_violation number _) (@folio_charges_held number _)
                       (fun id =>
                          {| FolioCharge.id := id;
                             FolioCharge.booking_id := Booking.id b;
                             FolioCharge.charge_date := today;
                             FolioCharge.description :=
                               ("Room Rent - "
                                ++ BookingRoom.room_number (Booking.rooms b)
                                ++ " ("
                                ++ RoomType.name
                                     (BookingRoom.room_types (Booking.rooms b))
                                ++ ")")%string;
                             FolioCharge.amount :=
                               RoomType.base_rate
                                 (BookingRoom.room_types (Booking.rooms b));
                             FolioCharge.charge_type := "room_rent"%string;
                             FolioCharge.posted_by := user |}))
                    w1) as [x [w2 [E2 A2]]].
        rewrite E2. eexists _, _. split; [reflexivity |].
        cbn [fst]. split; [lia | rewrite A2; exact A1].
      * eexists _, _. split; [reflexivity |]. cbn [fst]. split; [lia | exact A1].
      * unfold bind.
        destruct (quiet_request rt
                    (insert rt (@Db.folio_charges number) (@with_folio_charges number)
                       (@folio_charges_violation number _) (@folio_charges_held number _)
                       (fun id =>
                          {| FolioCharge.id := id;
                             FolioCharge.booking_id := Booking.id b;
                             FolioCharge.charge_date := today;
                             FolioCharge.description :=
                               ("Room Rent - "
                                ++ BookingRoom.room_number (Booking.rooms b)
                                ++ " ("
                                ++ RoomType.name
                                     (BookingRoom.room_types (Booking.rooms b))
                                ++ ")")%string;
                             FolioCharge.amount :=
                               RoomType.base_rate
                                 (BookingRoom.room_types (Booking.rooms b));
                             FolioCharge.charge_type := "room_rent"%string;
                             FolioCharge.posted_by := user |}))
                    w1) as [x [w2 [E2 A2]]].
        rewrite E2. eexists _, _. split; [reflexivity |].
        cbn [fst]. split; [lia | rewrite A2; exact A1].
    + exfalso.
      destruct (quiet_request rt
                  (select (@Db.folio_charges number)
                     (fun c => String.eqb (FolioCharge.booking_id c) (Booking.id b)
                               && (FolioCharge.charge_date c =? today)
                               && String.eqb (FolioCharge.charge_type c) "room_rent"))
                  w) as [x [w1' [E A]]].
      rewrite E1 in E. discriminate E.
  - eexists _, _. split; [reflexivity |]. cbn [fst]. split; [lia | reflexivity].
Qed.

Lemma stayovers_in_cons {number : Type} (today : date) (b : Booking.t number)
  (l : list (Booking.t number)) :
  stayovers_in today (b :: l)
  = (if stayover today b then 1 else 0) + stayovers_in today l.
Proof.
  unfold stayovers_in. cbn [filter]. destruct (stayover today b);
    cbn [List.length]; lia.
Qed.

Lemma audit_loop_counts {number : Type} {N : Number number}
  (rt : Runtime.t number) (user : option uuid) (today : date) :
  forall (l : list (Booking.t number)) (counters : Z * number) (w : World.t number),
  exists counters' w',
    for_each l (auditBooking rt user today) counters w = (Returned counters', w')
    /\ fst counters <= fst counters' <= fst counters + stayovers_in today l
    /\ World.alerts w' = World.alerts w.
Proof.
  induction l as [|b l IH]; intros counters w.
  - exists counters, w. split; [reflexivity |].
    unfold stayovers_in. simpl. split; [lia | reflexivity].
  - destruct (auditBooking_counts rt user today counters b w)
      as [c1 [w1 [E1 [B1 A1]]]].
    destruct (IH c1 w1) as [c2 [w2 [E2 [B2 A2]]]].
    exists c2, w2. cbn [for_each]. unfold bind. rewrite E1, E2.
    split; [reflexivity |]. rewrite stayovers_in_cons.
    split; [lia | rewrite A2; exact A1].
Qed.

(** The loop with no request getting through: every stayover is counted
    and its rate added, and nothing is stored. *)
Lemma audit_loop_unreachable {number : Type} {N : Number number}
  (rt : Runtime.t number) (user : option uuid) (today : date) :
  unreachable rt ->
  forall (l : list (Booking.t number)) (counters : Z * number) (w : World.t number),
  exists w',
    for_each l (auditBooking rt user today) counters w
    = (Returned
         (fst counters + stayovers_in today l,
          fold_left add
            (map (fun b => RoomType.base_rate
                             (BookingRoom.room_types (Booking.rooms b)))
                 (filter (stayover today) l))
            (snd counters)),
       w')
    /\ World.db w' = World.db w.
Proof.
  intros Hun. induction l as [|b l IH]; intros counters w.
  - exists w. unfold stayovers_in. simpl. rewrite Z.add_0_r.
    destruct counters. split; reflexivity.
  - cbn [for_each]. unfold bind at 1. unfold auditBooking at 1.
    destruct counters as [n a]. rewrite stayovers_in_cons. cbn [filter].
    unfold stayover at 1 2.
    destruct (toISODate (Booking.check_in_date b) <? today).
    + unfold bind at 1. unfold request at 1. rewrite Hun.
      cbn [data_of]. unfold bind at 1. unfold request at 1. rewrite Hun.
      unfold ret at 1.
      match goal with
      | |- context [for_each l _ ?c ?w1] => destruct (IH c w1) as [w' [E D]]
      end.
      exists w'. rewrite E. cbn [fst snd map fold_left].
      rewrite (Z.add_assoc n 1).
      split; [reflexivity | rewrite D; reflexivity].
    + unfold ret at 1. destruct (IH (n, a) w) as [w' [E D]].
      exists w'. rewrite E. cbn [fst snd].
      split; [reflexivity | exact D].
Qed.

(** X19. The night audit counts what it sends, not what is stored.  It
    never reports a failure: whatever requests are lost it ends with a
    report and no message, and the charges it reports posted are at most
    the stayovers among the bookings it was given.  With no request
    getting through it reports a charge posted for every stayover, with
    the sum of their rates, while the database is what it was. *)
Theorem night_audit_counts_what_it_sends :
  forall (number : Type) (N : Number number) (rt : Runtime.t number)
         (user : option uuid) (today : date)
         (inHouseBookings : list (Booking.t number)) (w : World.t number),
    let run := runNightAudit rt user today inHouseBookings w in
    exists results,
      fst run = Returned (Some results)
      /\ World.alerts (snd run) = World.alerts w
      /\ 0 <= AuditResults.chargesPosted results
         <= stayovers_in today inHouseBookings
      /\ (unreachable rt ->
          AuditResults.chargesPosted results = stayovers_in today inHouseBookings
          /\ AuditResults.totalAmount results
             = sigma (map (fun b => RoomType.base_rate
                                      (BookingRoom.room_types (Booking.rooms b)))
                          (filter (stayover today) inHouseBookings))
          /\ World.db (snd run) = World.db w).
Proof.
  intros number N rt user today inHouseBookings w. cbv zeta.
  destruct (audit_loop_counts rt user today inHouseBookings (0, of_Z 0) w)
    as [c [w' [E [B A]]]].
  unfold runNightAudit, try_catch, bind. rewrite E. unfold ret. cbn [fst snd].
  eexists. split; [reflexivity |]. split; [exact A |].
  cbn [AuditResults.chargesPosted AuditResults.totalAmount].
  split; [cbn [fst] in B; lia |].
  intros Hun.
  destruct (audit_loop_unreachable user today Hun inHouseBookings (0, of_Z 0) w)
    as [w'' [E' D]].
  rewrite E in E'. injection E' as -> ->. cbn [fst snd].
  split; [reflexivity |]. split; [reflexivity | exact D].
Qed.

Lemma night_audit_counts_what_it_sends_witness :
  let run := runNightAudit Example.cut_off (Some "u-1"%string) (Sample.day0 + 2)
               [Sample.stay101; Example.stay102] Example.full_house in
  unreachable Example.cut_off
  /\ fst run
     = Returned (Some {| AuditResults.chargesPosted := 2;
                         AuditResults.totalAmount := 3000%float |})
  /\ World.db (snd run) = World.db Example.full_house
  /\ World.alerts (snd run) = [].
Proof.
  cbv zeta.
  destruct (@night_audit_counts_what_it_sends float binary64 Example.cut_off
              (Some "u-1"%string) (Sample.day0 + 2)
              [Sample.stay101; Example.stay102] Example.full_house)
    as [results [E [A [_ H]]]].
  assert (Hun : unreachable Example.cut_off) by (intros n; reflexivity).
  destruct (H Hun) as [_ [_ D]].
  split; [exact Hun |]. split; [reflexivity |]. split; [exact D | exact A].
Defined.

(** The page's load with the backend reachable. *)
Lemma loadAuditData_page_online {number : Type} {N : Number number}
  {T : Tests number} (rt : Runtime.t number) (today : date) (w : World.t number) :
  online rt ->
  exists stats,
    fst (NightAudit.loadAuditData rt today w)
    = Returned (stats,
                filter (fun b => BookingStatus_eqb (Booking.status b) checked_in)
                       (Db.bookings (World.db w)))
    /\ NightAuditStats.todayRevenue stats
       = number_or
           (fold_left (fun sum p => (sum + Number_ (Payment.amount p))%num)
              (filter (fun p => during today (Payment.payment_date p))
                      (Db.payments (World.db w)))
              (of_Z 0))
           (of_Z 0)
    /\ NightAuditStats.checkInsToday stats
       = Z.of_nat
           (List.length
              (filter (fun b => during today (Booking.check_in_date b))
                      (Db.bookings (World.db w)))).
Proof.
  intros Hon. unfold NightAudit.loadAuditData, bind.
  rewrite !(request_online _ _ Hon). unfold select, ret. cbn [fst snd World.db].
  eexists. split; [reflexivity |]. split; reflexivity.
Qed.

(** The windows of the days: an instant lies in the window of its own day
    only, and in none during the last 999 milliseconds of a day. *)
Lemma during_day (today : date) (t : timestamp) :
  during today t = true
  <-> toISODate t = today /\ t - dateToTime today <= LAST_SECOND.
Proof.
  unfold during, toISODate, dateToTime, LAST_SECOND, MS_PER_DAY.
  change (1000 * 60 * 60 * 24) with 86400000.
  change (((23 * 60 + 59) * 60 + 59) * 1000) with 86399000.
  rewrite andb_true_iff, Z.leb_le, Z.leb_le. split.
  - intros [H1 H2]. split; [| lia].
    symmetry. apply (Z.div_unique t 86400000 today (t - today * 86400000)); lia.
  - intros [<- H].
    pose proof (Z.mod_pos_bound t 86400000 ltac:(lia)) as B.
    pose proof (Z.div_mod t 86400000 ltac:(lia)) as E. lia.
Qed.

Lemma during_gap (day : date) (t : timestamp) :
  dateToTime day + LAST_SECOND < t < dateToTime (day + 1) ->
  forall today, during today t = false.
Proof.
  intros Hgap today. destruct (during today t) eqn:D; [| reflexivity].
  apply during_day in D. destruct D as [<- D]. exfalso.
  assert (Hday : toISODate t = day).
  { unfold toISODate, dateToTime, LAST_SECOND, MS_PER_DAY in *.
    change (1000 * 60 * 60 * 24) with 86400000 in *.
    change (((23 * 60 + 59) * 60 + 59) * 1000) with 86399000 in *.
    symmetry. apply (Z.div_unique t 86400000 day (t - day * 86400000)); lia. }
  rewrite Hday in D. lia.
Qed.

(** X20. The revenue of the night-audit page has a blind spot at the end
    of each day.  With the backend reachable, a checkout with a final
    payment made after 23:59:59.000 and before midnight stores the payment
    (an amount its [decimal(10,2)] column takes, as the column holds it),
    dated at that instant; but the revenue the page shows is the same
    before and after it whatever the day the page is opened on, so the
    payment is in the revenue of no day. *)
Theorem payment_before_midnight_is_no_days_revenue :
  forall (number : Type) (N : Number number) (T : Tests number)
         (rt : Runtime.t number) (user : option uuid)
         (selectedBooking : Booking.t number)
         (payment : CheckoutPaymentData.t number)
         (taxes : TaxConfig.t number) (w : World.t number) (day : date),
    online rt ->
    gt (CheckoutPaymentData.amount payment) (of_Z 0) = true ->
    valid_payment_mode (CheckoutPaymentData.mode payment) = true ->
    dateToTime day + LAST_SECOND < World.clock w < dateToTime (day + 1) ->
    let w' := snd (confirmCheckout rt user (Some selectedBooking) (Some payment)
                     taxes w) in
    (forall stored,
        decimal_10_2 (CheckoutPaymentData.amount payment) = accepted stored ->
        exists p,
          Db.payments (World.db w') = Db.payments (World.db w) ++ [p]
          /\ Payment.booking_id p = Booking.id selectedBooking
          /\ Payment.amount p = stored
          /\ Payment.payment_date p = World.clock w)
    /\ forall today,
         exists stats inHouse stats' inHouse',
           fst (NightAudit.loadAuditData rt today w) = Returned (stats, inHouse)
           /\ fst (NightAudit.loadAuditData rt today w')
              = Returned (stats', inHouse')
           /\ NightAuditStats.todayRevenue stats'
              = NightAuditStats.todayRevenue stats.
Proof.
  intros number N T rt user selectedBooking payment taxes w day
         Hon Hgt Hmode Hgap w'.
  assert (Hstored :
            forall stored,
              decimal_10_2 (CheckoutPaymentData.amount payment) = accepted stored ->
              Db.payments (World.db w')
              = Db.payments (World.db w)
                ++ [{| Payment.id :=
                         Runtime.gen_random_uuid rt (Db.serial (World.db w));
                       Payment.booking_id := Booking.id selectedBooking;
                       Payment.payment_date := World.clock w;
                       Payment.amount := stored;
                       Payment.payment_mode := CheckoutPaymentData.mode payment;
                       Payment.received_by := user |}]).
  { intros stored Hdec.
    pose proof (@confirmCheckout_after_payment number N rt user selectedBooking
                  payment stored taxes w Hgt Hdec Hmode (Hon _)) as E.
    match type of E with
    | _ = confirmCheckout _ _ _ _ _ ?w1 =>
        destruct (confirmCheckout_run_online user selectedBooking taxes w1 Hon)
          as [w2 [E2 [_ [_ [_ [P2 _]]]]]]
    end.
    unfold w'. rewrite E, E2. exact P2. }
  assert (Hdropped :
            (forall stored,
                decimal_10_2 (CheckoutPaymentData.amount payment)
                <> accepted stored) ->
            Db.payments (World.db w') = Db.payments (World.db w)).
  { intros Hno. unfold w'.
    rewrite (@confirmCheckout_payment_not_stored number N rt user selectedBooking
               payment taxes w Hgt
               (or_intror (or_intror (amount_refused _ Hno)))).
    match goal with
    | |- context [confirmCheckout rt user _ None taxes ?w1] =>
        exact (confirmCheckout_without_payment rt user selectedBooking taxes w1)
    end. }
  split.
  - intros stored Hdec. eexists. split; [exact (Hstored stored Hdec) |].
    repeat split.
  - intros today.
    destruct (loadAuditData_page_online today w Hon) as [stats [L [R _]]].
    destruct (loadAuditData_page_online today w' Hon) as [stats' [L' [R' _]]].
    eexists stats, _, stats', _. split; [exact L |]. split; [exact L' |].
    rewrite R', R.
    destruct (decimal_10_2 (CheckoutPaymentData.amount payment))
      as [stored| |] eqn:Hdec.
    + rewrite (Hstored stored eq_refl), filter_app.
      cbn [filter Payment.payment_date].
      rewrite (@during_gap _ _ Hgap today), app_nil_r. reflexivity.
    + rewrite Hdropped; [reflexivity | intros stored E; discriminate E].
    + rewrite Hdropped; [reflexivity | intros stored E; discriminate E].
Qed.

Lemma payment_before_midnight_is_no_days_revenue_witness :
  let rt := Sample.runtime Sample.reachable in
  let payment := {| CheckoutPaymentData.amount := 2360%float;
                    CheckoutPaymentData.mode := "cash"%string |} in
  let w' := snd (confirmCheckout rt (Some "u-1"%string) (Some Sample.stay101)
                   (Some payment) (Sample.gst 6 6) Example.before_midnight) in
  List.length (Db.payments (World.db w')) = 2%nat
  /\ forall today,
       exists stats inHouse stats' inHouse',
         fst (NightAudit.loadAuditData rt today Example.before_midnight)
         = Returned (stats, inHouse)
         /\ fst (NightAudit.loadAuditData rt today w') = Returned (stats', inHouse')
         /\ NightAuditStats.todayRevenue stats'
            = NightAuditStats.todayRevenue stats.
Proof.
  cbv zeta.
  destruct (@payment_before_midnight_is_no_days_revenue float binary64
              binary64_tests (Sample.runtime Sample.reachable) (Some "u-1"%string)
              Sample.stay101
              {| CheckoutPaymentData.amount := 2360%float;
                 CheckoutPaymentData.mode := "cash"%string |}
              (Sample.gst 6 6) Example.before_midnight (Sample.day0 + 2))
    as [Hp H].
  - intros n. reflexivity.
  - reflexivity.
  - reflexivity.
  - vm_compute. split; reflexivity.
  - destruct (Hp 2360%float eq_refl) as [p [P _]].
    split; [rewrite P; reflexivity | exact H].
Defined.

(** ** The check-in desk *)

(** A charge of type 'room' leaves the database as it is. *)
Lemma insert_room_charge_refused {number : Type} {N : Number number}
  (rt : Runtime.t number) (row : uuid -> FolioCharge.t number)
  (d : Db.t number) :
  FolioCharge.charge_type (row (Runtime.gen_random_uuid rt (Db.serial d)))
  = "room"%string ->
  snd (insert rt (@Db.folio_charges number) (@with_folio_charges number)
         (@folio_charges_violation number _) (@folio_charges_held number _) row d)
  = d.
Proof.
  intros E. unfold insert.
  destruct (folio_charges_violation d _) eqn:V; [reflexivity |].
  exfalso. exact (room_charge_rejected _ _ E V).
Qed.

(** The check-in of a reservation with the backend reachable, step by
    step. *)
Lemma processCheckIn_run_online {number : Type} {N : Number number}
  (rt : Runtime.t number) (user : option uuid)
  (availableRooms : list (Room.t number))
  (selectedReservation : Reservation.t number) (selectedRoom : string)
  (room stored : Room.t number) (guest : Guest.t) (w : World.t number) :
  online rt ->
  truthy selectedRoom = true ->
  find (fun r => String.eqb (Room.id r) selectedRoom) availableRooms = Some room ->
  find (fun g => String.eqb (Guest.id g)
                   (Guest.id (Reservation.guests selectedReservation)))
       (Db.guests (World.db w)) = Some guest ->
  find (fun r => String.eqb (Room.id r) selectedRoom) (Db.rooms (World.db w))
  = Some stored ->
  exists b w',
    processCheckIn rt user availableRooms (Some selectedReservation) selectedRoom w
    = (Returned tt, w')
    /\ Db.bookings (World.db w') = Db.bookings (World.db w) ++ [b]
    /\ (Booking.guest_id b, Booking.room_id b, Booking.status b)
       = (Guest.id (Reservation.guests selectedReservation), selectedRoom, checked_in)
    /\ (Booking.check_in_date b, Booking.expected_check_out_date b,
        Booking.actual_check_out_date b)
       = (World.clock w, Reservation.check_out_date selectedReservation, None)
    /\ Db.rooms (World.db w')
       = map (fun r => if String.eqb (Room.id r) selectedRoom
                       then set_room_status occupied r else r)
             (Db.rooms (World.db w))
    /\ Db.reservations (World.db w')
       = map (fun r => if String.eqb (Reservation.id r)
                            (Reservation.id selectedReservation)
                       then set_reservation_status arrived r else r)
             (Db.reservations (World.db w))
    /\ Db.guests (World.db w') = Db.guests (World.db w)
    /\ World.alerts w'
       = World.alerts w
         ++ [("Guest " ++ Guest.full_name (Reservation.guests selectedReservation)
              ++ " checked in successfully to Room "
              ++ Room.room_number room ++ "!")%string]
    /\ World.clock w' = World.clock w.
Proof.
  intros Hon Ht Hroom Hguest Hstored.
  unfold processCheckIn. rewrite Ht. cbn [negb]. rewrite Hroom.
  unfold try_catch, bind at 1 2 3, Date_now at 1 2.
  rewrite (request_online _ _ Hon).
  unfold insert_booking.
  cbn [NewBooking.guest_id NewBooking.room_id booking_numbers
       NewBooking.number_of_guests NewBooking.advance_payment].
  rewrite Hguest, Hstored.
  cbn [fst snd]. unfold bind, Date_now.
  rewrite !(request_online _ _ Hon).
  cbn [fst snd World.db World.sent World.alerts World.clock].
  match goal with
  | |- context [snd (insert rt _ _ _ _ ?row ?d)] =>
      rewrite (insert_room_charge_refused rt row d eq_refl)
  end.
  unfold update, alert.
  cbn [fst snd World.db World.sent World.alerts World.clock].
  eexists _, _. split; [reflexivity |].
  cbn. repeat split.
Qed.







Lemma occupy_keeps_id {number : Type} (selectedRoom : string) (r : Room.t number) :
  Room.id (if String.eqb (Room.id r) selectedRoom
           then set_room_status occupied r else r) = Room.id r.
Proof. destruct (String.eqb (Room.id r) selectedRoom); reflexivity. Qed.

(** Once a room is marked occupied the desk does not offer it. *)
Lemma occupied_room_not_offered {number : Type} {N : Number number}
  (rt : Runtime.t number) (selectedRoom : string) (w w' : World.t number) :
  Db.rooms (World.db w')
  = map (fun r => if String.eqb (Room.id r) selectedRoom
                  then set_room_status occupied r else r)
        (Db.rooms (World.db w)) ->
  exists availableRooms,
    fst (loadData rt w') = Returned availableRooms
    /\ forall r, In r availableRooms -> Room.id r <> selectedRoom.
Proof.
  intros Hrooms. unfold loadData, bind, request.
  destruct (Runtime.offline rt (World.sent w')).
  - exists []. split; [reflexivity | intros r []].
  - unfold select, ret. cbn [fst snd rows_of]. eexists. split; [reflexivity |].
    intros r Hin Hid. apply filter_In in Hin. destruct Hin as [Hin Hst].
    rewrite Hrooms in Hin. apply in_map_iff in Hin.
    destruct Hin as [r0 [<- _]].
    destruct (String.eqb (Room.id r0) selectedRoom) eqn:E.
    + discriminate Hst.
    + apply String.eqb_neq in E. contradiction.
Qed.

(** X21. The check-in of a reservation, with the backend reachable, into
    a room of the list on screen: one booking is opened for the guest of
    the reservation in that room, from now to the check-out day of the
    reservation; every room row with that id is marked occupied and every
    reservation row with the id of the reservation arrived; the operator
    is told so.  The current status of the room is not read.  After it
    the desk, loading its lists again, no longer offers the room. *)
Theorem processCheckIn_opens_a_booking :
  forall (number : Type) (N : Number number) (rt : Runtime.t number)
         (user : option uuid) (availableRooms : list (Room.t number))
         (selectedReservation : Reservation.t number) (selectedRoom : string)
         (room stored : Room.t number) (guest : Guest.t) (w : World.t number),
    online rt ->
    truthy selectedRoom = true ->
    find (fun r => String.eqb (Room.id r) selectedRoom) availableRooms = Some room ->
    find (fun g => String.eqb (Guest.id g)
                     (Guest.id (Reservation.guests selectedReservation)))
         (Db.guests (World.db w)) = Some guest ->
    find (fun r => String.eqb (Room.id r) selectedRoom) (Db.rooms (World.db w))
    = Some stored ->
    let run := processCheckIn rt user availableRooms (Some selectedReservation)
                 selectedRoom w in
    fst run = Returned tt
    /\ (exists b,
           Db.bookings (World.db (snd run)) = Db.bookings (World.db w) ++ [b]
           /\ (Booking.guest_id b, Booking.room_id b, Booking.status b)
              = (Guest.id (Reservation.guests selectedReservation), selectedRoom,
                 checked_in)
           /\ (Booking.check_in_date b, Booking.expected_check_out_date b,
               Booking.actual_check_out_date b)
              = (World.clock w, Reservation.check_out_date selectedReservation,
                 None))
    /\ Db.rooms (World.db (snd run))
       = map (fun r => if String.eqb (Room.id r) selectedRoom
                       then set_room_status occupied r else r)
             (Db.rooms (World.db w))
    /\ Db.reservations (World.db (snd run))
       = map (fun r => if String.eqb (Reservation.id r)
                            (Reservation.id selectedReservation)
                       then set_reservation_status arrived r else r)
             (Db.reservations (World.db w))
    /\ World.alerts (snd run)
       = World.alerts w
         ++ [("Guest " ++ Guest.full_name (Reservation.guests selectedReservation)
              ++ " checked in successfully to Room "
              ++ Room.room_number room ++ "!")%string]
    /\ exists offered,
         fst (loadData rt (snd run)) = Returned offered
         /\ forall r, In r offered -> Room.id r <> selectedRoom.
Proof.
  intros number N rt user availableRooms selectedReservation selectedRoom
         room stored guest w Hon Ht Hroom Hguest Hstored. cbv zeta.
  destruct (@processCheckIn_run_online number N rt user availableRooms
              selectedReservation selectedRoom room stored guest w
              Hon Ht Hroom Hguest Hstored)
    as [b [w' [E [Hb [Hb1 [Hb2 [Hr [Hres [_ [Ha _]]]]]]]]]].
  rewrite E. cbn [fst snd].
  split; [reflexivity |].
  split; [exists b; split; [exact Hb | split; assumption] |].
  split; [exact Hr |]. split; [exact Hres |]. split; [exact Ha |].
  exact (occupied_room_not_offered rt selectedRoom w w' Hr).
Qed.

Lemma processCheckIn_opens_a_booking_witness :
  let run := processCheckIn (Sample.runtime Sample.reachable) (Some "u-1"%string)
               [Sample.room102 vacant_clean] (Some Sample.arrival)
               (Room.id (Sample.room102 vacant_clean)) Sample.in_house in
  map (@Booking.room_id float) (Db.bookings (World.db (snd run)))
  = [Room.id (Sample.room101 occupied); Room.id (Sample.room102 vacant_clean)]
  /\ map (@Room.status float) (Db.rooms (World.db (snd run))) = [occupied; occupied]
  /\ map (@Reservation.status float) (Db.reservations (World.db (snd run)))
     = [arrived].
Proof.
  cbv zeta.
  destruct (@processCheckIn_opens_a_booking float binary64
              (Sample.runtime Sample.reachable) (Some "u-1"%string)
              [Sample.room102 vacant_clean] Sample.arrival
              (Room.id (Sample.room102 vacant_clean))
              (Sample.room102 vacant_clean) (Sample.room102 vacant_clean)
              Sample.ravi Sample.in_house)
    as [_ [[b [Hb [Hb1 _]]] [Hr [Hres _]]]].
  - intros n. reflexivity.
  - reflexivity.
  - reflexivity.
  - reflexivity.
  - reflexivity.
  - rewrite Hb, Hr, Hres, map_app. cbn [map].
    injection Hb1 as _ -> _. split; [reflexivity |]. split; reflexivity.
Defined.

(** X22. The desk checks a guest in on the list of rooms it has on screen,
    not on the rooms as they are: with the backend reachable, two
    check-ins made from the same list into the same room both succeed, and
    leave two open bookings in that room. *)
Theorem stale_room_list_double_books :
  forall (number : Type) (N : Number number) (rt : Runtime.t number)
         (user : option uuid) (availableRooms : list (Room.t number))
         (first second : Reservation.t number) (selectedRoom : string)
         (room stored : Room.t number) (guest1 guest2 : Guest.t)
         (w : World.t number),
    online rt ->
    truthy selectedRoom = true ->
    find (fun r => String.eqb (Room.id r) selectedRoom) availableRooms = Some room ->
    find (fun r => String.eqb (Room.id r) selectedRoom) (Db.rooms (World.db w))
    = Some stored ->
    find (fun g => String.eqb (Guest.id g) (Guest.id (Reservation.guests first)))
         (Db.guests (World.db w)) = Some guest1 ->
    find (fun g => String.eqb (Guest.id g) (Guest.id (Reservation.guests second)))
         (Db.guests (World.db w)) = Some guest2 ->
    let w1 := snd (processCheckIn rt user availableRooms (Some first)
                     selectedRoom w) in
    let w2 := snd (processCheckIn rt user availableRooms (Some second)
                     selectedRoom w1) in
    exists b1 b2,
      Db.bookings (World.db w2) = Db.bookings (World.db w) ++ [b1; b2]
      /\ (Booking.guest_id b1, Booking.room_id b1, Booking.status b1)
         = (Guest.id (Reservation.guests first), selectedRoom, checked_in)
      /\ (Booking.guest_id b2, Booking.room_id b2, Booking.status b2)
         = (Guest.id (Reservation.guests second), selectedRoom, checked_in)
      /\ World.alerts w2
         = World.alerts w
           ++ [("Guest " ++ Guest.full_name (Reservation.guests first)
                ++ " checked in successfully to Room "
                ++ Room.room_number room ++ "!")%string;
               ("Guest " ++ Guest.full_name (Reservation.guests second)
                ++ " checked in successfully to Room "
                ++ Room.room_number room ++ "!")%string].
Proof.
  intros number N rt user availableRooms first second selectedRoom room stored
         guest1 guest2 w Hon Ht Hroom Hstored Hg1 Hg2. cbv zeta.
  destruct (@processCheckIn_run_online number N rt user availableRooms first
              selectedRoom room stored guest1 w Hon Ht Hroom Hg1 Hstored)
    as [b1 [w1 [E1 [Hb1 [Hf1 [_ [Hr1 [_ [Hgs1 [Ha1 _]]]]]]]]]].
  rewrite E1. cbn [snd].
  assert (Hstored1 :
            find (fun r => String.eqb (Room.id r) selectedRoom)
                 (Db.rooms (World.db w1))
            = Some (if String.eqb (Room.id stored) selectedRoom
                    then set_room_status occupied stored else stored)).
  { rewrite Hr1, (find_room_after _ selectedRoom (Db.rooms (World.db w))
                    (occupy_keeps_id selectedRoom)), Hstored.
    reflexivity. }
  rewrite <- Hgs1 in Hg2.
  destruct (@processCheckIn_run_online number N rt user availableRooms second
              selectedRoom room _ guest2 w1 Hon Ht Hroom Hg2 Hstored1)
    as [b2 [w2 [E2 [Hb2 [Hf2 [_ [_ [_ [_ [Ha2 _]]]]]]]]]].
  rewrite E2. cbn [snd].
  exists b1, b2. rewrite Hb2, Hb1, <- app_assoc. split; [reflexivity |].
  split; [exact Hf1 |]. split; [exact Hf2 |].
  rewrite Ha2, Ha1, <- app_assoc. reflexivity.
Qed.

Lemma stale_room_list_double_books_witness :
  let rt := Sample.runtime Sample.reachable in
  let offered := [Sample.room102 vacant_clean] in
  let selectedRoom := Room.id (Sample.room102 vacant_clean) in
  let w1 := snd (processCheckIn rt (Some "u-1"%string) offered
                   (Some Sample.arrival) selectedRoom Sample.in_house) in
  let w2 := snd (processCheckIn rt (Some "u-1"%string) offered
                   (Some Sample.arrival) selectedRoom w1) in
  List.length
    (filter (fun b => String.eqb (Booking.room_id b) selectedRoom
                      && BookingStatus_eqb (Booking.status b) checked_in)
            (Db.bookings (World.db w2))) = 2%nat.
Proof.
  cbv zeta.
  pose proof (@stale_room_list_double_books float binary64
                (Sample.runtime Sample.reachable) (Some "u-1"%string)
                [Sample.room102 vacant_clean] Sample.arrival Sample.arrival
                (Room.id (Sample.room102 vacant_clean))
                (Sample.room102 vacant_clean) (Sample.room102 vacant_clean)
                Sample.ravi Sample.ravi Sample.in_house
                (fun n => eq_refl) eq_refl eq_refl eq_refl eq_refl eq_refl) as H.
  cbv zeta in H. destruct H as [b1 [b2 [Hb [H1 [H2 _]]]]].
  rewrite Hb, filter_app, length_app. cbn [filter].
  injection H1 as _ R1 S1. injection H2 as _ R2 S2.
  rewrite R1, S1, R2, S2. reflexivity.
Defined.



(** ** The guests page *)

(** The nights between now and a check-out day, and the days they fall
    on. *)
Lemma ceilDays_to_checkout (checkOutDate : date) (now : timestamp) :
  ceilDays (dateToTime checkOutDate - now) = checkOutDate - toISODate now.
Proof.
  unfold ceilDays, dateToTime, toISODate.
  replace (- (checkOutDate * MS_PER_DAY - now))
    with (now + (- checkOutDate) * MS_PER_DAY) by lia.
  rewrite Z.div_add by discriminate. lia.
Qed.

Lemma toISODate_days_later {number : Type} (rt : Runtime.t number)
  (now : timestamp) (i : Z) :
  fixed_offset rt -> toISODate (addDays rt now i) = toISODate now + i.
Proof.
  intros H. rewrite (addDays_fixed_offset _ _ H).
  unfold toISODate. apply Z.div_add. discriminate.
Qed.

(** A loop that posts one charge for each index, with the backend
    reachable: the folio gains one row for each index, in order, and
    nothing else changes. *)
Lemma charge_loop_online {number : Type} {N : Number number}
  (rt : Runtime.t number)
  (row : timestamp -> Z -> uuid -> FolioCharge.t number) :
  online rt ->
  (forall now i id, valid_charge_type (FolioCharge.charge_type (row now i id)) = true) ->
  (forall now i id, column_value (FolioCharge.amount (row now i id))) ->
  forall (l : list Z) (w : World.t number),
  exists w' posted,
    for_each l
      (fun (_ : unit) (i : Z) =>
         bind Date_now
           (fun now =>
              bind
                (request rt
                   (insert rt (@Db.folio_charges number)
                      (@with_folio_charges number)
                      (@folio_charges_violation number _) (@folio_charges_held number _) (row now i)))
                (fun _ => ret tt)))
      tt w
    = (Returned tt, w')
    /\ Db.folio_charges (World.db w') = Db.folio_charges (World.db w) ++ posted
    /\ Forall2 (fun i c => exists id, c = row (World.clock w) i id) l posted
    /\ Db.bookings (World.db w') = Db.bookings (World.db w)
    /\ Db.rooms (World.db w') = Db.rooms (World.db w)
    /\ Db.guests (World.db w') = Db.guests (World.db w)
    /\ Db.reservations (World.db w') = Db.reservations (World.db w)
    /\ Db.payments (World.db w') = Db.payments (World.db w)
    /\ World.alerts w' = World.alerts w
    /\ World.clock w' = World.clock w.
Proof.
  intros Hon Hvalid Hcol. induction l as [|i l IH]; intros w.
  - exists w, []. cbn [for_each]. rewrite app_nil_r.
    repeat split; constructor.
  - assert (Hi : insert rt (@Db.folio_charges number) (@with_folio_charges number)
                   (@folio_charges_violation number _) (@folio_charges_held number _) (row (World.clock w) i)
                   (World.db w)
                 = (Data (row (World.clock w) i
                            (Runtime.gen_random_uuid rt (Db.serial (World.db w)))),
                    next_serial
                      (with_folio_charges (World.db w)
                         (Db.folio_charges (World.db w)
                          ++ [row (World.clock w) i
                                (Runtime.gen_random_uuid rt
                                   (Db.serial (World.db w)))])))).
    { apply insert_charge_stored; [apply Hcol | apply Hvalid]. }
    cbn [for_each]. unfold bind at 1 2, Date_now at 1, bind at 1.
    rewrite (request_online _ _ Hon), Hi. cbn [fst snd]. unfold ret at 1.
    match goal with
    | |- context [for_each l _ tt ?w1] =>
        destruct (IH w1)
          as [w' [posted [E [F [P [B [R [G [Rs [Py [A C]]]]]]]]]]]
    end.
    rewrite E. eexists w', (_ :: posted). split; [reflexivity |].
    cbn [World.db World.clock World.alerts Db.folio_charges Db.bookings Db.rooms
         Db.guests Db.reservations Db.payments next_serial with_folio_charges]
      in F, P, B, R, G, Rs, Py, A, C.
    split; [rewrite F, <- app_assoc; reflexivity |].
    split; [constructor; [eexists; reflexivity | exact P] |].
    repeat split; assumption.
Qed.

Lemma find_guest_after (f : Guest.t -> Guest.t) (id : uuid) (guests : list Guest.t) :
  (forall g, Guest.id (f g) = Guest.id g) ->
  find (fun g => String.eqb (Guest.id g) id) (map f guests)
  = option_map f (find (fun g => String.eqb (Guest.id g) id) guests).
Proof.
  intros Hid. induction guests as [|g guests IH]; cbn [map find].
  - reflexivity.
  - rewrite Hid. destruct (String.eqb (Guest.id g) id); [reflexivity | exact IH].
Qed.

(** The check-in of the guests page with the backend reachable, step by
    step. *)
Lemma handleCheckin_run_online {number : Type} {N : Number number}
  {T : Tests number} (rt : Runtime.t number) (user : option uuid)
  (selectedGuest : Guest.t) (selectedReservation : option (Reservation.t number))
  (availableRooms : list (Room.t number)) (formData : CheckinForm.t number)
  (selectedRoom stored : Room.t number) (guest : Guest.t)
  (guests : Z) (advance : number) (w : World.t number) :
  online rt ->
  integer (CheckinForm.number_of_guests formData) = accepted guests ->
  decimal_10_2 (CheckinForm.advance_payment formData) = accepted advance ->
  column_value (RoomType.base_rate (Room.room_types selectedRoom)) ->
  find (fun g => String.eqb (Guest.id g) (Guest.id selectedGuest))
       (Db.guests (World.db w)) = Some guest ->
  find (fun r => String.eqb (Room.id r) (CheckinForm.room_id formData))
       (Db.rooms (World.db w)) = Some stored ->
  find (fun r => String.eqb (Room.id r) (CheckinForm.room_id formData))
       availableRooms = Some selectedRoom ->
  match GuestsPage.reservation_id_or_null selectedReservation with
  | Some id =>
      existsb (fun r => String.eqb (Reservation.id r) id)
              (Db.reservations (World.db w)) = true
  | None => True
  end ->
  exists b posted paid w',
    GuestsPage.handleCheckin rt user (Some selectedGuest) selectedReservation
      availableRooms formData w = (Returned tt, w')
    /\ Db.bookings (World.db w') = Db.bookings (World.db w) ++ [b]
    /\ (Booking.guest_id b, Booking.room_id b, Booking.status b)
       = (Guest.id selectedGuest, CheckinForm.room_id formData, checked_in)
    /\ (Booking.check_in_date b, Booking.expected_check_out_date b)
       = (World.clock w, CheckinForm.check_out_date formData)
    /\ Db.folio_charges (World.db w') = Db.folio_charges (World.db w) ++ posted
    /\ map charge_facts posted
       = map (fun i => (Booking.id b,
                        toISODate (addDays rt (World.clock w) i),
                        RoomType.base_rate (Room.room_types selectedRoom),
                        "room_rent"%string))
             (map Z.of_nat
                (seq 0 (Z.to_nat (CheckinForm.check_out_date formData
                                  - toISODate (World.clock w)))))
    /\ Db.payments (World.db w') = Db.payments (World.db w) ++ paid
    /\ map payment_facts paid
       = (if gt (CheckinForm.advance_payment formData) (of_Z 0)
          then [(Booking.id b, World.clock w, advance, "cash"%string)]
          else [])
    /\ Db.rooms (World.db w')
       = map (fun r => if String.eqb (Room.id r) (CheckinForm.room_id formData)
                       then set_room_status occupied r else r)
             (Db.rooms (World.db w))
    /\ Db.reservations (World.db w')
       = match selectedReservation with
         | Some selectedReservation =>
             map (fun r => if String.eqb (Reservation.id r)
                                 (Reservation.id selectedReservation)
                           then set_reservation_status arrived r else r)
                 (Db.reservations (World.db w))
         | None => Db.reservations (World.db w)
         end
    /\ Db.guests (World.db w')
       = map (fun g => if String.eqb (Guest.id g) (Guest.id selectedGuest)
                       then set_id_proof (CheckinForm.id_proof_type formData)
                              (CheckinForm.id_proof_number formData) g
                       else g)
             (Db.guests (World.db w))
    /\ World.alerts w' = World.alerts w ++ ["Check-in completed successfully!"%string]
    /\ World.clock w' = World.clock w.
Proof.
  intros Hon Hguests Hadvance Hcol Hguest Hstored Hroom Hres.
  destruct (@amount_accepted _ _ _ _ Hadvance) as [Hv Hh].
  set (proved := set_id_proof (CheckinForm.id_proof_type formData)
                   (CheckinForm.id_proof_number formData)).
  set (d1 := with_guests (World.db w)
               (map (fun g => if String.eqb (Guest.id g) (Guest.id selectedGuest)
                              then proved g else g)
                    (Db.guests (World.db w)))).
  assert (Hu : update (@Db.guests number) (@with_guests number)
                 (fun g => String.eqb (Guest.id g) (Guest.id selectedGuest))
                 proved (World.db w)
               = (Data tt, d1)) by reflexivity.
  set (nb := {| NewBooking.guest_id := Guest.id selectedGuest;
                NewBooking.room_id := CheckinForm.room_id formData;
                NewBooking.check_in_date := World.clock w;
                NewBooking.expected_check_out_date :=
                  CheckinForm.check_out_date formData;
                NewBooking.number_of_guests :=
                  integer (CheckinForm.number_of_guests formData);
                NewBooking.advance_payment :=
                  decimal_10_2 (CheckinForm.advance_payment formData);
                NewBooking.checked_in_by := user |}).
  assert (Hib : exists b,
             GuestsPage.insert_booking_for rt
               (GuestsPage.reservation_id_or_null selectedReservation) nb d1
             = (Data b, next_serial (with_bookings d1 (Db.bookings d1 ++ [b])))
             /\ (Booking.guest_id b, Booking.room_id b, Booking.status b)
                = (Guest.id selectedGuest, CheckinForm.room_id formData, checked_in)
             /\ (Booking.check_in_date b, Booking.expected_check_out_date b)
                = (World.clock w, CheckinForm.check_out_date formData)).
  { assert (Hi : exists b,
               insert_booking rt nb d1
               = (Data b, next_serial (with_bookings d1 (Db.bookings d1 ++ [b])))
               /\ (Booking.guest_id b, Booking.room_id b, Booking.status b)
                  = (Guest.id selectedGuest, CheckinForm.room_id formData,
                     checked_in)
               /\ (Booking.check_in_date b, Booking.expected_check_out_date b)
                  = (World.clock w, CheckinForm.check_out_date formData)).
    { unfold insert_booking, booking_numbers, nb.
      cbn [NewBooking.guest_id NewBooking.room_id d1 Db.guests Db.rooms
           with_guests NewBooking.number_of_guests NewBooking.advance_payment].
      rewrite Hguests, Hadvance, find_guest_after, Hguest, Hstored
        by (intros g; destruct (String.eqb (Guest.id g) (Guest.id selectedGuest));
            reflexivity).
      cbn [option_map]. eexists. split; [reflexivity |]. split; reflexivity. }
    unfold GuestsPage.insert_booking_for.
    destruct (booking_numbers nb); [| exact Hi].
    destruct (GuestsPage.reservation_id_or_null selectedReservation) as [id|];
      [| exact Hi].
    change (Db.reservations d1) with (Db.reservations (World.db w)).
    rewrite Hres. exact Hi. }
  destruct Hib as [b [Hib [Hb1 Hb2]]].
  destruct (GuestsPage.handleCheckin rt user (Some selectedGuest)
              selectedReservation availableRooms formData w) as [o w'] eqn:Run.
  unfold GuestsPage.handleCheckin, try_catch in Run.
  unfold bind at 1 in Run. rewrite (request_online _ _ Hon) in Run.
  fold proved in Run. rewrite Hu in Run. cbn [fst snd] in Run.
  unfold bind at 1, Date_now at 1 in Run. unfold bind at 1 in Run.
  rewrite (request_online _ _ Hon) in Run.
  cbn [World.db World.clock World.sent World.alerts] in Run.
  fold nb in Run. rewrite Hib in Run. cbn [fst snd] in Run.
  unfold bind at 1 in Run. rewrite (request_online _ _ Hon) in Run.
  cbn [World.db World.clock World.sent World.alerts] in Run.
  match type of Run with
  | (let (_, _) := bind _ _ ?w0 in _) = _ => set (w3 := w0) in Run
  end.
  assert (Hrs : exists w4,
             match selectedReservation with
             | Some selectedReservation =>
                 bind
                   (request rt
                      (update (@Db.reservations number) (@with_reservations number)
                         (fun r => String.eqb (Reservation.id r)
                                              (Reservation.id selectedReservation))
                         (set_reservation_status arrived)))
                   (fun _ => ret tt)
             | None => ret tt
             end w3 = (Returned tt, w4)
             /\ Db.reservations (World.db w4)
                = match selectedReservation with
                  | Some selectedReservation =>
                      map (fun r => if String.eqb (Reservation.id r)
                                          (Reservation.id selectedReservation)
                                    then set_reservation_status arrived r else r)
                          (Db.reservations (World.db w))
                  | None => Db.reservations (World.db w)
                  end
             /\ Db.bookings (World.db w4) = Db.bookings (World.db w) ++ [b]
             /\ Db.rooms (World.db w4)
                = map (fun r => if String.eqb (Room.id r) (CheckinForm.room_id formData)
                                then set_room_status occupied r else r)
                      (Db.rooms (World.db w))
             /\ Db.guests (World.db w4) = Db.guests d1
             /\ Db.folio_charges (World.db w4) = Db.folio_charges (World.db w)
             /\ Db.payments (World.db w4) = Db.payments (World.db w)
             /\ World.alerts w4 = World.alerts w
             /\ World.clock w4 = World.clock w).
  { destruct selectedReservation as [r|].
    - unfold bind. rewrite (request_online _ _ Hon). unfold ret.
      eexists. split; [reflexivity |]. repeat split.
    - exists w3. split; [reflexivity |]. repeat split. }
  destruct Hrs as [w4 [E4 [Rs4 [B4 [R4 [G4 [F4 [P4 [A4 C4]]]]]]]]].
  unfold bind at 1 in Run. rewrite E4 in Run. rewrite Hroom in Run.
  unfold bind at 1 2, Date_now at 1 in Run.
  rewrite C4, ceilDays_to_checkout in Run.
  match type of Run with
  | context [for_each ?l _ tt w4] =>
      destruct (@charge_loop_online number N rt
                  (fun now0 i id =>
                     {| FolioCharge.id := id;
                        FolioCharge.booking_id := Booking.id b;
                        FolioCharge.charge_date := toISODate (addDays rt now0 i);
                        FolioCharge.description :=
                          ("Room Rent - "
                           ++ RoomType.name (Room.room_types selectedRoom)
                           ++ " (Night " ++ Z_to_string (i + 1) ++ ")")%string;
                        FolioCharge.amount :=
                          RoomType.base_rate (Room.room_types selectedRoom);
                        FolioCharge.charge_type := "room_rent"%string;
                        FolioCharge.posted_by := user |})
                  Hon (fun _ _ _ => eq_refl) (fun _ _ _ => Hcol) l w4)
        as [w5 [posted [E5 [F5 [Hposted [B5 [R5 [G5 [Rs5 [P5 [A5 C5]]]]]]]]]]]
  end.
  cbv beta in E5. rewrite E5 in Run.
  assert (Hfacts : map charge_facts posted
                   = map (fun i => (Booking.id b,
                                    toISODate (addDays rt (World.clock w) i),
                                    RoomType.base_rate (Room.room_types selectedRoom),
                                    "room_rent"%string))
                         (map Z.of_nat
                            (seq 0 (Z.to_nat (CheckinForm.check_out_date formData
                                              - toISODate (World.clock w)))))).
  { clear - Hposted C4. rewrite C4 in Hposted.
    induction Hposted as [|i c l posted [id ->] _ IH]; [reflexivity |].
    cbn [map]. rewrite IH. unfold charge_facts at 1.
    cbn [FolioCharge.booking_id FolioCharge.charge_date FolioCharge.amount
         FolioCharge.charge_type].
    reflexivity. }
  assert (Hpay : exists paid w6,
             (if gt (CheckinForm.advance_payment formData) (of_Z 0)
              then
                bind Date_now
                  (fun now =>
                     bind
                       (request rt
                          (insert rt (@Db.payments number) (@with_payments number)
                             (@payments_violation number _) (@payments_held number _)
                             (fun id =>
                                {| Payment.id := id;
                                   Payment.booking_id := Booking.id b;
                                   Payment.payment_date := now;
                                   Payment.amount :=
                                     CheckinForm.advance_payment formData;
                                   Payment.payment_mode := "cash"%string;
                                   Payment.received_by := user |})))
                       (fun _ => ret tt))
              else ret tt) w5 = (Returned tt, w6)
             /\ Db.payments (World.db w6) = Db.payments (World.db w5) ++ paid
             /\ map payment_facts paid
                = (if gt (CheckinForm.advance_payment formData) (of_Z 0)
                   then [(Booking.id b, World.clock w5, advance, "cash"%string)]
                   else [])
             /\ Db.bookings (World.db w6) = Db.bookings (World.db w5)
             /\ Db.rooms (World.db w6) = Db.rooms (World.db w5)
             /\ Db.guests (World.db w6) = Db.guests (World.db w5)
             /\ Db.reservations (World.db w6) = Db.reservations (World.db w5)
             /\ Db.folio_charges (World.db w6) = Db.folio_charges (World.db w5)
             /\ World.alerts w6 = World.alerts w5
             /\ World.clock w6 = World.clock w5).
  { destruct (gt (CheckinForm.advance_payment formData) (of_Z 0)).
    - unfold bind, Date_now. rewrite (request_online _ _ Hon).
      unfold insert, payments_violation, payments_held.
      cbn [Payment.amount Payment.payment_mode]. rewrite Hv, Hh.
      cbn [valid_payment_mode existsb String.eqb Ascii.eqb Bool.eqb orb fst snd].
      unfold ret.
      eexists [_], _. split; [reflexivity |]. repeat split.
    - exists [], w5. split; [reflexivity |]. rewrite app_nil_r. repeat split. }
  destruct Hpay as [paid [w6 [E6 [P6 [Hpaid [B6 [R6 [G6 [Rs6 [F6 [A6 C6]]]]]]]]]]].
  unfold bind at 1 in Run. rewrite E6 in Run. unfold alert in Run.
  injection Run as <- <-.
  exists b, posted, paid. eexists. split; [reflexivity |].
  cbn [World.db World.alerts World.clock].
  split; [rewrite B6, B5; exact B4 |]. split; [exact Hb1 |]. split; [exact Hb2 |].
  split; [rewrite F6, F5, F4; reflexivity |]. split; [exact Hfacts |].
  split; [rewrite P6, P5, P4; reflexivity |].
  split; [rewrite Hpaid, C5, C4; reflexivity |].
  split; [rewrite R6, R5; exact R4 |].
  split; [rewrite Rs6, Rs5; exact Rs4 |].
  split; [rewrite G6, G5; exact G4 |].
  split; [rewrite A6, A5, A4; reflexivity |].
  rewrite C6, C5; exact C4.
Qed.

(** A charge posted for a day is a charge the audit of that day finds. *)
Lemma room_rent_posted {number : Type} (id : uuid) (first : date) (rate : number)
  (nights : Z) (posted : list (FolioCharge.t number)) (day : date) :
  map charge_facts posted
  = map (fun i => (id, first + i, rate, "room_rent"%string))
        (map Z.of_nat (seq 0 (Z.to_nat nights))) ->
  first <= day < first + nights ->
  room_rent_on id day posted <> [].
Proof.
  intros Hfacts Hday.
  assert (Hin : In (id, day, rate, "room_rent"%string) (map charge_facts posted)).
  { rewrite Hfacts. apply in_map_iff. exists (day - first).
    split; [f_equal; f_equal; f_equal; lia |].
    apply in_map_iff. exists (Z.to_nat (day - first)).
    split; [lia | apply in_seq; lia]. }
  apply in_map_iff in Hin. destruct Hin as [c [Hc Hin]].
  unfold charge_facts in Hc. injection Hc as Hid Hdate _ Htype.
  intros Hnil.
  assert (H : In c (room_rent_on id day posted)).
  { unfold room_rent_on. apply filter_In. split; [exact Hin |].
    rewrite Hid, Hdate, Htype, String.eqb_refl, Z.eqb_refl. reflexivity. }
  rewrite Hnil in H. exact H.
Qed.

(** X24. The check-in of the guests page bills the stay up front.  With
    the backend reachable, for a guest and a room the database holds, a
    room chosen from the list on screen and numbers the rows take (a
    number of guests that fits an [integer], an advance that fits
    [decimal(10,2)], a base rate as its column holds it), it opens one
    booking from now to the check-out day entered and posts one room-rent
    charge at the base rate of the room for each night up to the
    check-out day (none when that day is today or earlier); an advance
    greater than zero is recorded as one cash payment, for the amount
    rounded to two decimals.  The charge of night i is dated by moving
    now by i days on the local clock and reading the day in UTC.  Where
    the zone keeps one offset all year, these are the days from today to
    the day before check-out, and the night audit of any day before the
    check-out day then posts nothing for this booking.  Across a change
    of the clocks they are not: in New York, a check-in at 00:30 UTC on
    2025-03-09 until 2025-03-12 dates its three charges 03-09, 03-09 and
    03-10. *)
Theorem guests_page_check_in_bills_each_night :
  (forall (number : Type) (N : Number number) (T : Tests number)
          (rt : Runtime.t number) (user : option uuid) (selectedGuest : Guest.t)
          (selectedReservation : option (Reservation.t number))
          (availableRooms : list (Room.t number)) (formData : CheckinForm.t number)
          (selectedRoom stored : Room.t number) (guest : Guest.t)
          (guests : Z) (advance : number) (w : World.t number),
      online rt ->
      integer (CheckinForm.number_of_guests formData) = accepted guests ->
      decimal_10_2 (CheckinForm.advance_payment formData) = accepted advance ->
      column_value (RoomType.base_rate (Room.room_types selectedRoom)) ->
      find (fun g => String.eqb (Guest.id g) (Guest.id selectedGuest))
           (Db.guests (World.db w)) = Some guest ->
      find (fun r => String.eqb (Room.id r) (CheckinForm.room_id formData))
           (Db.rooms (World.db w)) = Some stored ->
      find (fun r => String.eqb (Room.id r) (CheckinForm.room_id formData))
           availableRooms = Some selectedRoom ->
      match GuestsPage.reservation_id_or_null selectedReservation with
      | Some id =>
          existsb (fun r => String.eqb (Reservation.id r) id)
                  (Db.reservations (World.db w)) = true
      | None => True
      end ->
      let run := GuestsPage.handleCheckin rt user (Some selectedGuest)
                   selectedReservation availableRooms formData w in
      let today := toISODate (World.clock w) in
      let checkOutDate := CheckinForm.check_out_date formData in
      let advancePayment := CheckinForm.advance_payment formData in
      exists b posted paid,
        fst run = Returned tt
        /\ World.alerts (snd run)
           = World.alerts w ++ ["Check-in completed successfully!"%string]
        /\ Db.bookings (World.db (snd run)) = Db.bookings (World.db w) ++ [b]
        /\ (Booking.guest_id b, Booking.room_id b, Booking.status b)
           = (Guest.id selectedGuest, CheckinForm.room_id formData, checked_in)
        /\ (Booking.check_in_date b, Booking.expected_check_out_date b)
           = (World.clock w, checkOutDate)
        /\ Db.folio_charges (World.db (snd run))
           = Db.folio_charges (World.db w) ++ posted
        /\ map charge_facts posted
           = map (fun i => (Booking.id b,
                            toISODate (addDays rt (World.clock w) i),
                            RoomType.base_rate (Room.room_types selectedRoom),
                            "room_rent"%string))
                 (map Z.of_nat (seq 0 (Z.to_nat (checkOutDate - today))))
        /\ Db.payments (World.db (snd run)) = Db.payments (World.db w) ++ paid
        /\ map payment_facts paid
           = (if gt advancePayment (of_Z 0)
              then [(Booking.id b, World.clock w, advance, "cash"%string)]
              else [])
        /\ (fixed_offset rt ->
            (forall i, toISODate (addDays rt (World.clock w) i) = today + i)
            /\ forall (auditor : option uuid) (day : date),
                 day < checkOutDate ->
                 let audit := runNightAudit rt auditor day [b] (snd run) in
                 fst audit
                 = Returned (Some {| AuditResults.chargesPosted := 0;
                                     AuditResults.totalAmount := of_Z 0 |})
                 /\ Db.folio_charges (World.db (snd audit))
                    = Db.folio_charges (World.db (snd run))))
  /\ (let run := GuestsPage.handleCheckin (Example.new_york Sample.reachable)
                   (Some "u-1"%string) (Some Sample.ravi) None
                   [Sample.room102 vacant_clean]
                   (Example.check_in_form (Example.march_9 + 3))
                   Example.march_8_evening in
      toISODate (World.clock Example.march_8_evening) = Example.march_9
      /\ map (fun c => (FolioCharge.charge_date c - Example.march_9,
                        FolioCharge.description c))
             (Db.folio_charges (World.db (snd run)))
         = [(0, "Room Rent - Standard (Night 1)"%string);
            (0, "Room Rent - Standard (Night 2)"%string);
            (1, "Room Rent - Standard (Night 3)"%string)]
      /\ World.alerts (snd run) = ["Check-in completed successfully!"%string]).
Proof.
  split; [| vm_compute; repeat split; reflexivity].
  intros number N T rt user selectedGuest selectedReservation availableRooms
         formData selectedRoom stored guest guests advance w
         Hon Hguests Hadvance Hcol Hguest Hstored Hroom Hres.
  cbv zeta.
  destruct (@handleCheckin_run_online number N T rt user selectedGuest
              selectedReservation availableRooms formData selectedRoom stored
              guest guests advance w Hon Hguests Hadvance Hcol Hguest Hstored
              Hroom Hres)
    as [b [posted [paid [w' [E [B [Hb1 [Hb2 [F [Hposted [P [Hpaid
         [_ [_ [_ [A _]]]]]]]]]]]]]]]].
  rewrite E. cbn [fst snd]. exists b, posted, paid.
  split; [reflexivity |]. split; [exact A |]. split; [exact B |].
  split; [exact Hb1 |]. split; [exact Hb2 |]. split; [exact F |].
  split; [exact Hposted |]. split; [exact P |]. split; [exact Hpaid |].
  intros Hfixed.
  split; [intros i; apply (toISODate_days_later _ _ Hfixed) |].
  intros auditor day Hday.
  injection Hb2 as Hin _.
  assert (Hdays : map charge_facts posted
                  = map (fun i => (Booking.id b, toISODate (World.clock w) + i,
                                   RoomType.base_rate (Room.room_types selectedRoom),
                                   "room_rent"%string))
                        (map Z.of_nat
                           (seq 0 (Z.to_nat (CheckinForm.check_out_date formData
                                             - toISODate (World.clock w)))))).
  { rewrite Hposted. apply map_ext. intros i.
    rewrite (toISODate_days_later _ _ Hfixed). reflexivity. }
  destruct (audit_loop_settled auditor day Hon [b] (0, of_Z 0) w')
    as [w'' [L Fa]].
  - intros b' [<- | []]. unfold audit_posts, stayover. rewrite Hin.
    destruct (toISODate (World.clock w) <? day) eqn:Hlt; [| reflexivity].
    apply Z.ltb_lt in Hlt. cbn [andb].
    pose proof (@room_rent_posted number (Booking.id b) (toISODate (World.clock w))
                  (RoomType.base_rate (Room.room_types selectedRoom))
                  (CheckinForm.check_out_date formData - toISODate (World.clock w))
                  posted day Hdays ltac:(lia)) as Hne.
    rewrite F, room_rent_on_app.
    destruct (room_rent_on (Booking.id b) day posted); [contradiction |].
    destruct (room_rent_on (Booking.id b) day (Db.folio_charges (World.db w)));
      reflexivity.
  - unfold runNightAudit, try_catch, bind. rewrite L. unfold ret. cbn [fst snd].
    split; [reflexivity | exact Fa].
Qed.

Lemma guests_page_check_in_bills_each_night_witness :
  let rt := Sample.runtime Sample.reachable in
  let formData :=
    {| CheckinForm.room_id := Room.id (Sample.room102 vacant_clean);
       CheckinForm.check_out_date := Sample.day0 + 4;
       CheckinForm.number_of_guests := Some 1;
       CheckinForm.advance_payment := 500%float;
       CheckinForm.id_proof_type := Some "passport"%string;
       CheckinForm.id_proof_number := Some "Z1234567"%string |} in
  let run := GuestsPage.handleCheckin rt (Some "u-1"%string) (Some Sample.ravi)
               (Some Sample.arrival) [Sample.room102 vacant_clean] formData
               Sample.in_house in
  exists b,
    Db.bookings (World.db (snd run)) = [Sample.stay101; b]
    /\ map (@FolioCharge.charge_date float) (Db.folio_charges (World.db (snd run)))
       = [Sample.day0; Sample.day0 + 1; Sample.day0 + 2; Sample.day0 + 3]
    /\ fst (runNightAudit rt (Some "u-1"%string) (Sample.day0 + 3) [b] (snd run))
       = Returned (Some {| AuditResults.chargesPosted := 0;
                           AuditResults.totalAmount := 0%float |}).
Proof.
  cbv zeta.
  assert (Hfixed : fixed_offset (Sample.runtime Sample.reachable))
    by (exists Sample.IST; intros t isUTC; reflexivity).
  destruct (proj1 guests_page_check_in_bills_each_night float binary64
              binary64_tests
              (Sample.runtime Sample.reachable) (Some "u-1"%string) Sample.ravi
              (Some Sample.arrival) [Sample.room102 vacant_clean]
              {| CheckinForm.room_id := Room.id (Sample.room102 vacant_clean);
                 CheckinForm.check_out_date := Sample.day0 + 4;
                 CheckinForm.number_of_guests := Some 1;
                 CheckinForm.advance_payment := 500%float;
                 CheckinForm.id_proof_type := Some "passport"%string;
                 CheckinForm.id_proof_number := Some "Z1234567"%string |}
              (Sample.room102 vacant_clean) (Sample.room102 vacant_clean)
              Sample.ravi 1 500%float Sample.in_house
              (fun n => eq_refl) eq_refl eq_refl eq_refl eq_refl eq_refl eq_refl
              eq_refl)
    as [b [posted [paid [_ [_ [B [_ [_ [F [_ [_ [_ Audit]]]]]]]]]]]].
  exists b. split; [exact B |]. split; [reflexivity |].
  exact (proj1 (proj2 (Audit Hfixed) (Some "u-1"%string) (Sample.day0 + 3)
                  eq_refl)).
Defined.

(** One stay of the history, whatever requests are lost: the loop goes on
    and only reads; with the backend reachable the totals are those of
    the rows of the booking. *)
Lemma stayWithTotals_step {number : Type} {N : Number number} {T : Tests number}
  (rt : Runtime.t number) (totalSpend : number)
  (historyWithTotals : list (StayHistory.t number)) (booking : Booking.t number)
  (w : World.t number) :
  exists stay w',
    GuestsPage.stayWithTotals rt (totalSpend, historyWithTotals) booking w
    = (Returned ((totalSpend + StayHistory.totalPayments stay)%num,
                 historyWithTotals ++ [stay]), w')
    /\ StayHistory.booking stay = booking
    /\ World.db w' = World.db w
    /\ World.alerts w' = World.alerts w
    /\ (online rt ->
        StayHistory.totalCharges stay
        = GuestsPage.total_or_zero (@FolioCharge.amount number)
            (Some (filter (fun c => String.eqb (FolioCharge.booking_id c)
                                               (Booking.id booking))
                          (Db.folio_charges (World.db w))))
        /\ StayHistory.totalPayments stay
           = GuestsPage.total_or_zero (@Payment.amount number)
               (Some (filter (fun p => String.eqb (Payment.booking_id p)
                                                  (Booking.id booking))
                             (Db.payments (World.db w))))
        /\ StayHistory.archivedDocs stay
           = filter (fun doc => String.eqb (GuestDocument.booking_id doc)
                                           (Booking.id booking))
                    (Db.guest_documents (World.db w))).
Proof.
  unfold GuestsPage.stayWithTotals, getArchivedDocuments, try_catch, bind,
    request, order_by_created_at, select, ret, throw.
  destruct (Runtime.offline rt (World.sent w)) eqn:O1;
    cbn [World.sent World.db World.alerts fst snd];
    destruct (Runtime.offline rt (S (World.sent w))) eqn:O2;
    cbn [World.sent World.db World.alerts fst snd];
    destruct (Runtime.offline rt (S (S (World.sent w)))) eqn:O3;
    cbn [World.sent World.db World.alerts fst snd data_of];
    match goal with
    | |- context [(historyWithTotals ++ [?stay])%list] => exists stay
    end;
    eexists; (split; [reflexivity |]);
    (split; [reflexivity |]); (split; [reflexivity |]);
    (split; [reflexivity |]);
    intros Hon; rewrite ?Hon in O1, O2, O3; try discriminate;
    repeat split.
Qed.

Lemma stay_loop {number : Type} {N : Number number} {T : Tests number}
  (rt : Runtime.t number) :
  forall (l : list (Booking.t number)) (totalSpend : number)
         (historyWithTotals : list (StayHistory.t number)) (w : World.t number),
  exists added w',
    for_each l (GuestsPage.stayWithTotals rt) (totalSpend, historyWithTotals) w
    = (Returned (fold_left (fun sum stay => (sum + StayHistory.totalPayments stay)%num)
                           added totalSpend,
                 historyWithTotals ++ added), w')
    /\ map StayHistory.booking added = l
    /\ World.db w' = World.db w
    /\ World.alerts w' = World.alerts w
    /\ (online rt ->
        Forall (fun stay =>
                  StayHistory.totalCharges stay
                  = GuestsPage.total_or_zero (@FolioCharge.amount number)
                      (Some (filter (fun c => String.eqb (FolioCharge.booking_id c)
                                                (Booking.id (StayHistory.booking stay)))
                                    (Db.folio_charges (World.db w))))
                  /\ StayHistory.totalPayments stay
                     = GuestsPage.total_or_zero (@Payment.amount number)
                         (Some (filter (fun p => String.eqb (Payment.booking_id p)
                                                   (Booking.id (StayHistory.booking stay)))
                                       (Db.payments (World.db w))))
                  /\ StayHistory.archivedDocs stay
                     = filter (fun doc =>
                                 String.eqb (GuestDocument.booking_id doc)
                                   (Booking.id (StayHistory.booking stay)))
                              (Db.guest_documents (World.db w)))
               added).
Proof.
  induction l as [|b l IH]; intros totalSpend historyWithTotals w.
  - exists [], w. cbn [for_each fold_left map]. rewrite app_nil_r.
    repeat split. intros _. constructor.
  - destruct (stayWithTotals_step rt totalSpend historyWithTotals b w)
      as [stay [w1 [E1 [Hb [D1 [A1 H1]]]]]].
    destruct (IH (totalSpend + StayHistory.totalPayments stay)%num
                 (historyWithTotals ++ [stay]) w1)
      as [added [w2 [E2 [Hl [D2 [A2 H2]]]]]].
    exists (stay :: added), w2. cbn [for_each]. unfold bind at 1.
    rewrite E1, E2. cbn [fold_left map]. rewrite <- app_assoc.
    split; [reflexivity |]. split; [rewrite Hb, Hl; reflexivity |].
    split; [rewrite D2; exact D1 |]. split; [rewrite A2; exact A1 |].
    intros Hon. constructor.
    + rewrite Hb. exact (H1 Hon).
    + rewrite <- D1. exact (H2 Hon).
Qed.

(** One ordered selection, whatever is lost: the database is as it was,
    and the rows are none, or the rows selected in some order. *)
Lemma ordered_request {number A B : Type} (rt : Runtime.t number)
  (table : Db.t number -> list A) (p : A -> bool) (key : A -> Z)
  (ascending : bool) (k : Response (list A) -> Async number B)
  (w : World.t number) :
  exists r w1,
    bind (request rt (order key ascending (select table p))) k w = k r w1
    /\ World.db w1 = World.db w
    /\ World.alerts w1 = World.alerts w
    /\ World.clock w1 = World.clock w
    /\ (rows_of r = []
        \/ rows_of r = sorted_by key ascending (filter p (table (World.db w))))
    /\ (online rt ->
        rows_of r = sorted_by key ascending (filter p (table (World.db w)))).
Proof.
  unfold bind, request, order, select.
  destruct (Runtime.offline rt (World.sent w)) eqn:O.
  - eexists _, _. split; [reflexivity |]. repeat split.
    + left. reflexivity.
    + intros Hon. rewrite Hon in O. discriminate O.
  - eexists _, _. split; [reflexivity |]. repeat split.
    right. reflexivity.
Qed.

Lemma ReservationStatus_eqb_eq (a b : ReservationStatus) :
  ReservationStatus_eqb a b = true <-> a = b.
Proof. destruct a, b; simpl; split; intros H; try reflexivity; discriminate H. Qed.

(** X25. Selecting a guest only reads and never fails, whatever requests
    are lost.  The reservations it lists for check-in are reservations of
    the guest that are confirmed and due today or earlier, so a
    reservation for a later day cannot be checked in from this page.  The
    stays counted are the stays listed, the spend is the sum of the
    payments shown on them (charges do not count), and the guest is a VIP
    exactly when the stays are three or more or the spend reaches 50000.
    With the backend reachable every booking of the guest is a stay, open
    ones included, each with the totals of its own rows. *)
Theorem handleSelectGuest_statistics :
  forall (number : Type) (N : Number number) (T : Tests number)
         (rt : Runtime.t number) (guest : Guest.t) (w : World.t number),
    let run := GuestsPage.handleSelectGuest rt guest w in
    let today := toISODate (World.clock w) in
    let of_guest :=
      filter (fun b => String.eqb (Booking.guest_id b) (Guest.id guest))
             (Db.bookings (World.db w)) in
    exists reservations stayHistory guestStats,
      fst run = Returned (reservations, stayHistory, guestStats)
      /\ World.db (snd run) = World.db w
      /\ World.alerts (snd run) = World.alerts w
      /\ Forall (fun r => In r (Db.reservations (World.db w))
                          /\ Guest.id (Reservation.guests r) = Guest.id guest
                          /\ Reservation.status r = confirmed
                          /\ Reservation.check_in_date r <= today)
                reservations
      /\ GuestStats.totalStays guestStats = Z.of_nat (List.length stayHistory)
      /\ GuestStats.totalSpend guestStats
         = fold_left (fun sum stay => (sum + StayHistory.totalPayments stay)%num)
                     stayHistory (of_Z 0)
      /\ (GuestStats.isVIP guestStats = true
          <-> 3 <= GuestStats.totalStays guestStats
              \/ ge (GuestStats.totalSpend guestStats) (of_Z 50000) = true)
      /\ (online rt ->
          Permutation (map StayHistory.booking stayHistory) of_guest
          /\ GuestStats.totalStays guestStats = Z.of_nat (List.length of_guest)
          /\ Forall
               (fun stay =>
                  StayHistory.totalCharges stay
                  = GuestsPage.total_or_zero (@FolioCharge.amount number)
                      (Some (filter (fun c => String.eqb (FolioCharge.booking_id c)
                                                (Booking.id (StayHistory.booking stay)))
                                    (Db.folio_charges (World.db w))))
                  /\ StayHistory.totalPayments stay
                     = GuestsPage.total_or_zero (@Payment.amount number)
                         (Some (filter (fun p => String.eqb (Payment.booking_id p)
                                                   (Booking.id (StayHistory.booking stay)))
                                       (Db.payments (World.db w))))
                  /\ StayHistory.archivedDocs stay
                     = filter (fun doc =>
                                 String.eqb (GuestDocument.booking_id doc)
                                   (Booking.id (StayHistory.booking stay)))
                              (Db.guest_documents (World.db w)))
               stayHistory).
Proof.
  intros number N T rt guest w. cbv zeta.
  destruct (GuestsPage.handleSelectGuest rt guest w) as [o w'] eqn:Run.
  unfold GuestsPage.handleSelectGuest in Run.
  unfold bind at 1, Date_now at 1 in Run.
  match type of Run with
  | bind (request rt (order ?key ?asc (select ?table ?p))) ?k ?w0 = _ =>
      destruct (ordered_request rt table p key asc k w0)
        as [r1 [w1 [E1 [D1 [A1 [C1 [R1 O1]]]]]]]
  end.
  rewrite E1 in Run. clear E1.
  match type of Run with
  | bind (request rt (order ?key ?asc (select ?table ?p))) ?k ?w0 = _ =>
      destruct (ordered_request rt table p key asc k w0)
        as [r2 [w2 [E2 [D2 [A2 [C2 [R2 O2]]]]]]]
  end.
  rewrite E2 in Run. clear E2.
  unfold bind at 1 in Run.
  destruct (stay_loop rt (rows_of r2) (of_Z 0) [] w2)
    as [added [w3 [E3 [Hl [D3 [A3 H3]]]]]].
  rewrite E3 in Run. unfold ret in Run. cbn [app] in Run.
  injection Run as <- <-. eexists _, _, _. split; [reflexivity |].
  cbn [snd GuestStats.totalStays GuestStats.totalSpend GuestStats.isVIP].
  split; [rewrite D3, D2; exact D1 |].
  split; [rewrite A3, A2; exact A1 |].
  split.
  { destruct R1 as [-> | ->]; [constructor |].
    apply Forall_forall. intros r Hr. apply sorted_by_In in Hr.
    apply filter_In in Hr. destruct Hr as [Hin Hp].
    apply andb_true_iff in Hp. destruct Hp as [Hp Hdate].
    apply andb_true_iff in Hp. destruct Hp as [Hg Hst].
    split; [exact Hin |]. split; [apply String.eqb_eq; exact Hg |].
    split; [apply ReservationStatus_eqb_eq; exact Hst |].
    apply Z.leb_le. exact Hdate. }
  split; [reflexivity |]. split; [reflexivity |].
  split.
  { rewrite orb_true_iff, Z.leb_le. reflexivity. }
  intros Hon. rewrite (O2 Hon) in Hl. rewrite D1 in Hl.
  assert (Hperm : Permutation (map StayHistory.booking added)
                    (filter (fun b => String.eqb (Booking.guest_id b) (Guest.id guest))
                            (Db.bookings (World.db w)))).
  { rewrite Hl. apply sorted_by_permutation. }
  split; [exact Hperm |].
  split.
  { rewrite <- (Permutation_length Hperm), length_map. reflexivity. }
  rewrite <- D1, <- D2. exact (H3 Hon).
Qed.

Lemma handleSelectGuest_statistics_witness :
  let run := GuestsPage.handleSelectGuest (Sample.runtime Sample.reachable)
               Sample.asha Sample.in_house in
  exists reservations stayHistory guestStats,
    fst run = Returned (reservations, stayHistory, guestStats)
    /\ GuestStats.totalStays guestStats = 1
    /\ GuestStats.isVIP guestStats = false
    /\ Permutation (map StayHistory.booking stayHistory) [Sample.stay101].
Proof.
  cbv zeta.
  destruct (@handleSelectGuest_statistics float binary64 binary64_tests
              (Sample.runtime Sample.reachable) Sample.asha Sample.in_house)
    as [reservations [stayHistory [guestStats [E [_ [_ [_ [_ [_ [_ Online]]]]]]]]]].
  destruct (Online (fun n => eq_refl)) as [P [S _]].
  exists reservations, stayHistory, guestStats.
  split; [exact E |]. split; [exact S |]. split; [| exact P].
  vm_compute in E. injection E as _ _ <-. reflexivity.
Defined.
